(** * SparkyViz: nutrition-history aggregation and derived metrics

    A shallow embedding of the SparkyFitness client module
    ([app/lib/sparkyfitness.ts]: credential table, food-entry scaling,
    history aggregation, streak computation), of the history route loader
    and of the dashboard's heat-map colour function, followed by the
    properties stated about them.

    Conventions of the embedding.
    - A JavaScript [number] is an IEEE 754 binary64 value, represented by
      [spec_float] with the operations of [SpecFloat] at precision 53.
      NaN carries no payload, as in JavaScript.
    - A JavaScript string is a [string]; every character stands for one
      code unit below 256.
    - A [Map] keyed by strings is a [gmap string _]; only lookups are
      observed by the modelled code, so insertion order is not kept.
    - A [Date] is its time value: milliseconds since the epoch, or NaN
      ([None]).  The host time zone is a parameter, as [LocalTZA] is in
      ECMA-262.
    - [async] functions are run to completion: a rejected promise is a
      [Throw], a fulfilled one an [Ok].  The upstream service is an oracle
      that maps a request to its outcome. *)

From Stdlib Require Import ZArith Lia List Ascii String FinFun.
From Stdlib Require Import Floats.SpecFloat.
From stdpp Require Import gmap strings list.

Local Open Scope string_scope.
Local Open Scope Z_scope.

(** ** JavaScript numbers *)

Module Num.

Definition prec : Z := 53.
Definition emax : Z := 1024.

Definition number : Type := spec_float.

(** The number denoted by an integer literal (exact below 2^53). *)
Definition of_Z (z : Z) : number := binary_normalize prec emax z 0 false.

Definition NaN : number := S754_nan.
Definition Infinity : number := S754_infinity false.

Definition add : number -> number -> number := SFadd prec emax.
Definition sub : number -> number -> number := SFsub prec emax.
Definition mul : number -> number -> number := SFmul prec emax.
Definition div : number -> number -> number := SFdiv prec emax.

(** [x === y], [x < y], [x <= y] and [x > y] on numbers. *)
Definition eqb (x y : number) : bool := SFeqb x y.
Definition ltb (x y : number) : bool := SFltb x y.
Definition leb (x y : number) : bool := SFleb x y.
Definition gtb (x y : number) : bool := SFltb y x.

Definition isNaN (x : number) : bool :=
  match x with S754_nan => true | _ => false end.

(** [Number.isFinite]. *)
Definition isFinite (x : number) : bool :=
  match x with
  | S754_zero _ | S754_finite _ _ _ => true
  | S754_infinity _ | S754_nan => false
  end.

(** A decimal literal [n / 10^k] with both parts exactly representable is
    the correctly rounded quotient. *)
Definition decimal (n : Z) (k : nat) : number :=
  div (of_Z n) (of_Z (10 ^ Z.of_nat k)).

(** [Math.round]: non-finite and integral values are returned as they are;
    otherwise the nearest integer, ties towards +Infinity, and a zero
    result keeps the sign of the argument. *)
Definition Math_round (x : number) : number :=
  match x with
  | S754_finite s m e =>
      if 0 <=? e then x
      else
        let den := 2 ^ (- e) in
        let n := (2 * cond_Zopp s (Zpos m) + den) / (2 * den) in
        if n =? 0 then S754_zero s else of_Z n
  | _ => x
  end.

(** [Math.min] of two numbers. *)
Definition Math_min (x y : number) : number :=
  if isNaN x || isNaN y then NaN
  else if ltb x y then x
  else if ltb y x then y
  else match x with S754_zero true => x | _ => y end.

End Num.

Import Num.

(** ** JavaScript strings *)

(** White space and line terminators removed by [String.prototype.trim],
    among the code units below 256. *)
Definition isWhiteSpace (c : ascii) : bool :=
  let n := nat_of_ascii c in
  ((9 <=? n)%nat && (n <=? 13)%nat) || (n =? 32)%nat || (n =? 160)%nat.

Fixpoint trimStart (s : string) : string :=
  match s with
  | String c s' => if isWhiteSpace c then trimStart s' else s
  | EmptyString => EmptyString
  end.

Fixpoint trimEnd (s : string) : string :=
  match s with
  | String c s' =>
      match trimEnd s' with
      | EmptyString => if isWhiteSpace c then EmptyString else String c EmptyString
      | t => String c t
      end
  | EmptyString => EmptyString
  end.

Definition trim (s : string) : string := trimEnd (trimStart s).

(** [s.split(sep)] for a one-character separator. *)
Fixpoint split (sep : ascii) (s : string) : list string :=
  match s with
  | EmptyString => [EmptyString]
  | String c s' =>
      if Ascii.eqb c sep then EmptyString :: split sep s'
      else match split sep s' with
           | h :: t => String c h :: t
           | [] => [String c EmptyString]
           end
  end.

(** Truthiness of a string: the empty string is falsy. *)
Definition truthy (s : string) : bool :=
  match s with EmptyString => false | String _ _ => true end.

(** ** Exceptions and results *)

Inductive Exn : Type :=
| NoApiKeyConfigured (username : string)
| FailedToFetchProfile
| NoUserIdInProfile
| FailedToFetchNutritionHistory
| FailedToFetchFoodEntries
| FailedToFetchGoals
| FetchRejected          (* fetch() itself rejected: network failure *)
| JsonRejected           (* response.json() rejected *)
| RangeError_InvalidTime (* toISOString() of an invalid Date *)
| TypeError_NotAFunction (* call of an undefined member *).

Inductive result (A : Type) : Type :=
| Ok (a : A)
| Throw (e : Exn).

Arguments Ok {A} a.
Arguments Throw {A} e.

#[global] Instance result_ret : MRet result := fun A a => Ok a.
#[global] Instance result_bind : MBind result := fun A B f m =>
  match m with Ok a => f a | Throw e => Throw e end.

(** [p.catch(() => v)]. *)
Definition catch {A : Type} (m : result A) (v : A) : A :=
  match m with Ok a => a | Throw _ => v end.

Fixpoint foldlM {A B : Type} (f : B -> A -> result B) (b : B) (l : list A) : result B :=
  match l with
  | [] => Ok b
  | x :: l' => b' ← f b x; foldlM f b' l'
  end.

(** The indices [0, 1, ..., n - 1] of a loop [for (let i = 0; i < n; i++)]
    over an integer bound [n]; empty when [n <= 0]. *)
Definition range (n : Z) : list Z := map Z.of_nat (seq 0 (Z.to_nat n)).

(** ** Dates

    Time values and the calendar of ECMA-262 (section "Date Objects").
    Days are numbered from 1970-01-01; the conversion between a day number
    and a proleptic Gregorian date works on 400-year eras that start on
    1 March. *)

Module JsDate.

Definition msPerDay : Z := 86400000.

Definition Day (t : Z) : Z := t / msPerDay.
Definition TimeWithinDay (t : Z) : Z := t mod msPerDay.

(** Day of era to (year of era, month 1..12, day of month). *)
Definition civil_of_doe (doe : Z) : Z * Z * Z :=
  let yoe := (doe - doe / 1460 + doe / 36524 - doe / 146096) / 365 in
  let doy := doe - (365 * yoe + yoe / 4 - yoe / 100) in
  let mp := (5 * doy + 2) / 153 in
  let d := doy - (153 * mp + 2) / 5 + 1 in
  let m := if mp <? 10 then mp + 3 else mp - 9 in
  (yoe, m, d).

Definition doe_of_civil (yoe m d : Z) : Z :=
  let mp := if 2 <? m then m - 3 else m + 9 in
  let doy := (153 * mp + 2) / 5 + d - 1 in
  yoe * 365 + yoe / 4 - yoe / 100 + doy.

(** Day number to (year, month 1..12, day of month). *)
Definition civil_from_days (z : Z) : Z * Z * Z :=
  let z := z + 719468 in
  let era := z / 146097 in
  let doe := z mod 146097 in
  let '(yoe, m, d) := civil_of_doe doe in
  (yoe + era * 400 + (if m <=? 2 then 1 else 0), m, d).

(** Day number of a (year, month 1..12, day of month); the day of month
    may lie outside the month and then counts on into the neighbours. *)
Definition days_from_civil (y m d : Z) : Z :=
  let y := if m <=? 2 then y - 1 else y in
  let era := y / 400 in
  let yoe := y mod 400 in
  era * 146097 + doe_of_civil yoe m d - 719468.

Definition YearFromTime (t : Z) : Z := fst (fst (civil_from_days (Day t))).
(** Months are numbered from 0, as [getMonth] does. *)
Definition MonthFromTime (t : Z) : Z := snd (fst (civil_from_days (Day t))) - 1.
Definition DateFromTime (t : Z) : Z := snd (civil_from_days (Day t)).

Definition MakeDay (year month date : Z) : Z :=
  let ym := year + month / 12 in
  let mn := month mod 12 in
  days_from_civil ym (mn + 1) 1 + date - 1.

Definition MakeDate (day time : Z) : Z := day * msPerDay + time.

(** A time value outside +-8.64e15 ms is NaN: an invalid Date. *)
Definition maxTime : Z := 8640000000000000.

Definition TimeClip (t : Z) : option Z :=
  if Z.abs t <=? maxTime then Some t else None.

(** The host time zone: [LocalTZA t true] is the offset of local time from
    UTC at the UTC instant [t]; [LocalTZA t false] the offset to use for
    the local wall-clock time [t]. *)
Record TimeZone : Type := { LocalTZA : Z -> bool -> Z }.

Definition LocalTime (tz : TimeZone) (t : Z) : Z := t + LocalTZA tz t true.
Definition UTC (tz : TimeZone) (t : Z) : Z := t - LocalTZA tz t false.

(** A zone whose offset never changes. *)
Definition fixedZone (offset : Z) : TimeZone := {| LocalTZA := fun _ _ => offset |}.

(** A [Date] object holds a time value or NaN. *)
Definition Date : Type := option Z.

(** [d.getDate()] of a valid date: the local day of the month. *)
Definition getDate (tz : TimeZone) (t : Z) : Z := DateFromTime (LocalTime tz t).

(** [d.setDate(dt)] of a valid date, for an integral [dt]: the day of the
    month is replaced in local time and the result converted back. *)
Definition setDate (tz : TimeZone) (t : Z) (dt : Z) : Date :=
  let lt := LocalTime tz t in
  let newDate := MakeDate (MakeDay (YearFromTime lt) (MonthFromTime lt) dt) (TimeWithinDay lt) in
  TimeClip (UTC tz newDate).

Definition digit (n : Z) : ascii := ascii_of_nat (48 + Z.to_nat n).

(** The last [k] decimal digits of [n], most significant first, put in
    front of [acc]. *)
Fixpoint pad0 (k : nat) (n : Z) (acc : string) : string :=
  match k with
  | O => acc
  | S k' => pad0 k' (n / 10) (String (digit (n mod 10)) acc)
  end.

(** The date part of the ISO format: four digits for the years 0 to 9999,
    a sign and six digits otherwise. *)
Definition isoDate (ymd : Z * Z * Z) : string :=
  let '(y, m, d) := ymd in
  let rest := String "-" (pad0 2 m (String "-" (pad0 2 d EmptyString))) in
  if (0 <=? y) && (y <=? 9999) then pad0 4 y rest
  else String (if y <? 0 then "-"%char else "+"%char) (pad0 6 (Z.abs y) rest).

(** The ISO date of a day number. *)
Definition isoDay (day : Z) : string := isoDate (civil_from_days day).

(** [d.toISOString().split('T')[0]]: the UTC calendar day of the date;
    [toISOString] throws a RangeError on an invalid date. *)
Definition toISODate (d : Date) : result string :=
  match d with
  | Some t => Ok (isoDay (Day t))
  | None => Throw RangeError_InvalidTime
  end.

(** The local calendar day of an instant, in the same format. *)
Definition localISODate (tz : TimeZone) (t : Z) : string := isoDay (Day (LocalTime tz t)).

End JsDate.

Import JsDate.

(** ** The upstream service and the environment of a request *)

(** The outcome of [fetch(url, ...)]: the promise rejects, or resolves to
    a response with a status and a body; [None] is a body on which
    [response.json()] rejects. *)
Inductive FetchOutcome (A : Type) : Type :=
| NetworkError
| HttpResponse (status : Z) (body : option A).

Arguments NetworkError {A}.
Arguments HttpResponse {A} status body.

(** [response.ok]. *)
Definition ok (status : Z) : bool := (200 <=? status) && (status <=? 299).

(** The fields [id] and [unit] of the source are called [profile_id] and
    [entry_unit] here. *)
Record UpstreamProfile : Type := {
  profile_id : string;
  full_name : string;
  date_of_birth : string;
  avatar_url : string;
  gender : string }.

(** The optional micronutrient fields of the upstream records are not
    read by the modelled functions and are left out. *)
Record UpstreamNutritionDay : Type := {
  und_date : string;
  und_calories : number;
  und_protein : number;
  und_carbs : number;
  und_fat : number }.

Record UpstreamGoals : Type := {
  ug_calories : number;
  ug_protein : number;
  ug_carbs : number;
  ug_fat : number }.

Record UpstreamFoodEntry : Type := {
  meal_type : string;
  quantity : number;
  entry_unit : string;
  food_name : string;
  brand_name : string;
  serving_size : number;
  ufe_calories : number;
  ufe_protein : number;
  ufe_carbs : number;
  ufe_fat : number }.

(** The four endpoints, each keyed by the API key sent in the headers and
    by the parameters put into the URL. *)
Record Upstream : Type := {
  auth_profiles : string -> FetchOutcome UpstreamProfile;
  goals_by_date : string -> string -> FetchOutcome UpstreamGoals;
  mini_nutrition_trends :
    string -> string -> string -> string -> FetchOutcome (list UpstreamNutritionDay);
  food_entries_by_date : string -> string -> FetchOutcome (list UpstreamFoodEntry) }.

(** What a request sees of the process and the host: the value of
    [SPARKYFITNESS_API_KEYS] (empty when unset), the clock reading of
    [new Date()], the host time zone and the upstream service. *)
Record Env : Type := {
  apiKeysEnv : string;
  now : Z;
  zone : TimeZone;
  upstream : Upstream }.

(** ** Credential table *)

Record Credential : Type := { password : string; apiKey : string }.

(** One step of the [forEach] over the comma-separated entries. *)
Definition addCredential (m : gmap string Credential) (entry : string) : gmap string Credential :=
  match split ":" (trim entry) with
  | [username; password; apiKey] =>
      if truthy username && truthy password && truthy apiKey
      then <[username := {| password := password; apiKey := apiKey |}]> m
      else m
  | _ => m
  end.

Definition parseApiKeys (apiKeysEnv : string) : gmap string Credential :=
  if truthy apiKeysEnv then foldl addCredential ∅ (split "," apiKeysEnv) else ∅.

Definition API_KEYS_MAP (env : Env) : gmap string Credential := parseApiKeys (apiKeysEnv env).

Definition getApiKey (env : Env) (username : string) : result string :=
  match API_KEYS_MAP env !! username with
  | Some entry => Ok (apiKey entry)
  | None => Throw (NoApiKeyConfigured username)
  end.

Definition validatePassword (env : Env) (username pw : string) : bool :=
  match API_KEYS_MAP env !! username with
  | Some entry => String.eqb (password entry) pw
  | None => false
  end.

(** ** Data contracts of the client module *)

Record FoodItem : Type := {
  name : string;
  brand : option string;
  fi_quantity : number;
  fi_unit : string;
  fi_calories : number;
  fi_protein : number;
  fi_carbs : number;
  fi_fat : number }.

Record Nutrients : Type := {
  calories : number;
  protein : number;
  carbs : number;
  fat : number }.

(** The [meals] object: own properties from meal type to food items. *)
Record DailyData : Type := {
  date : string;
  nutrients : Nutrients;
  meals : option (gmap string (list FoodItem)) }.

Definition emptyMeals : gmap string (list FoodItem) :=
  <["breakfast" := []]> (<["lunch" := []]> (<["dinner" := []]> (<["snack" := []]> ∅))).

(** [await fetch(...)] followed by the [response.ok] test and
    [await response.json()], for the endpoints without a special case. *)
Definition fetchJson {A : Type} (o : FetchOutcome A) (failure : Exn) : result A :=
  match o with
  | NetworkError => Throw FetchRejected
  | HttpResponse status body =>
      if ok status then
        match body with Some a => Ok a | None => Throw JsonRejected end
      else Throw failure
  end.

(** [new Date()]. *)
Definition newDate (env : Env) : Date := Some (now env).

(** ** fetchGoals *)

(** [date || new Date().toISOString().split('T')[0]]. *)
Definition goalsTargetDate (env : Env) (date : option string) : result string :=
  match date with
  | Some d => if truthy d then Ok d else toISODate (newDate env)
  | None => toISODate (newDate env)
  end.

Definition fetchGoals (env : Env) (username : string) (date : option string) : result UpstreamGoals :=
  apiKey ← getApiKey env username;
  targetDate ← goalsTargetDate env date;
  fetchJson (goals_by_date (upstream env) apiKey targetDate) FailedToFetchGoals.

(** ** fetchFoodEntriesForDate *)

(** [Math.round(x * 10) / 10]. *)
Definition round1 (x : number) : number := div (Math_round (mul x (of_Z 10))) (of_Z 10).

Definition toFoodItem (entry : UpstreamFoodEntry) : FoodItem :=
  let ratio := div (quantity entry) (serving_size entry) in
  {| name := food_name entry;
     brand := if truthy (brand_name entry) then Some (brand_name entry) else None;
     fi_quantity := quantity entry;
     fi_unit := entry_unit entry;
     fi_calories := round1 (mul (ufe_calories entry) ratio);
     fi_protein := round1 (mul (ufe_protein entry) ratio);
     fi_carbs := round1 (mul (ufe_carbs entry) ratio);
     fi_fat := round1 (mul (ufe_fat entry) ratio) |}.

(** Property names that every object literal inherits from
    [Object.prototype]: reading one of them from [meals] yields a value
    that is neither null nor undefined and has no [push]. *)
Definition objectPrototypeKeys : list string :=
  [ "constructor"; "__defineGetter__"; "__defineSetter__"; "hasOwnProperty";
    "__lookupGetter__"; "__lookupSetter__"; "isPrototypeOf";
    "propertyIsEnumerable"; "toString"; "valueOf"; "__proto__";
    "toLocaleString" ].

(** [meals[k] ??= []; meals[k].push(foodItem)]. *)
Definition pushMeal (meals : gmap string (list FoodItem)) (k : string) (foodItem : FoodItem)
  : result (gmap string (list FoodItem)) :=
  match meals !! k with
  | Some items => Ok (<[k := (items ++ [foodItem])%list]> meals)
  | None =>
      if bool_decide (k ∈ objectPrototypeKeys) then Throw TypeError_NotAFunction
      else Ok (<[k := [foodItem]]> meals)
  end.

Definition groupEntries (entries : list UpstreamFoodEntry) : result (gmap string (list FoodItem)) :=
  foldlM (fun meals entry => pushMeal meals (meal_type entry) (toFoodItem entry)) emptyMeals entries.

Definition fetchFoodEntriesForDate (env : Env) (username date : string)
  : result (gmap string (list FoodItem)) :=
  apiKey ← getApiKey env username;
  match food_entries_by_date (upstream env) apiKey date with
  | NetworkError => Throw FetchRejected
  | HttpResponse status body =>
      if ok status then
        match body with
        | Some entries => groupEntries entries
        | None => Throw JsonRejected
        end
      else if status =? 404 then Ok emptyMeals
      else Throw FailedToFetchFoodEntries
  end.

(** ** fetchNutritionHistory *)

(** Step 2: the start of the window, [new Date()] moved back by
    [days - 1] local calendar days. *)
Definition startDate (env : Env) (days : Z) : Date :=
  setDate (zone env) (now env) (getDate (zone env) (now env) - days + 1).

(** The date string of iteration [i]: a copy of [startDate] moved on by
    [i] local calendar days. *)
Definition dateStringAt (env : Env) (start : Z) (i : Z) : result string :=
  toISODate (setDate (zone env) start (getDate (zone env) start + i)).

(** The array [dateStrings], one string for each [i] below [days]. *)
Definition dateStrings (env : Env) (start : Z) (days : Z) : result (list string) :=
  mapM (dateStringAt env start) (range days).

Definition indexByDate (nutritionData : list UpstreamNutritionDay) : gmap string UpstreamNutritionDay :=
  foldl (fun m day => <[und_date day := day]> m) ∅ nutritionData.

(** The fan-out over the dates: every promise has its own [catch], so
    [Promise.all] never rejects and keeps the order of the dates. *)
Definition fetchAllMeals (env : Env) (username : string) (dates : list string)
  : list (string * gmap string (list FoodItem)) :=
  map (fun dateStr => (dateStr, catch (fetchFoodEntriesForDate env username dateStr) emptyMeals)) dates.

Definition indexMeals (results : list (string * gmap string (list FoodItem)))
  : gmap string (gmap string (list FoodItem)) :=
  foldl (fun m r => <[fst r := snd r]> m) ∅ results.

Definition roundNutrients (dayData : UpstreamNutritionDay) : Nutrients :=
  {| calories := round1 (und_calories dayData);
     protein := round1 (und_protein dayData);
     carbs := round1 (und_carbs dayData);
     fat := round1 (und_fat dayData) |}.

Definition zeroNutrients : Nutrients :=
  {| calories := of_Z 0; protein := of_Z 0; carbs := of_Z 0; fat := of_Z 0 |}.

(** One iteration of the loop that builds [result]. *)
Definition dailyData (nutritionMap : gmap string UpstreamNutritionDay)
    (mealsMap : gmap string (gmap string (list FoodItem))) (includeMeals : bool)
    (dateStr : string) : DailyData :=
  {| date := dateStr;
     nutrients := match nutritionMap !! dateStr with
                  | Some dayData => roundNutrients dayData
                  | None => zeroNutrients
                  end;
     meals := if includeMeals then Some (default emptyMeals (mealsMap !! dateStr)) else None |}.

(** Step 1: the profile call that resolves the upstream user id. *)
Definition resolveUserId (env : Env) (apiKey : string) : result string :=
  profileData ← fetchJson (auth_profiles (upstream env) apiKey) FailedToFetchProfile;
  let userId := profile_id profileData in
  if negb (truthy userId) then Throw NoUserIdInProfile else Ok userId.

(** Steps 1 to 3: the daily totals of the window, as the upstream sends
    them. *)
Definition fetchDailyTotals (env : Env) (username : string) (days : Z)
  : result (list UpstreamNutritionDay) :=
  apiKey ← getApiKey env username;
  userId ← resolveUserId env apiKey;
  let endDate := newDate env in
  let startDate := startDate env days in
  endDateStr ← toISODate endDate;
  startDateStr ← toISODate startDate;
  fetchJson (mini_nutrition_trends (upstream env) apiKey userId startDateStr endDateStr)
            FailedToFetchNutritionHistory.

(** The array [dateStrings] of a request. *)
Definition historyDates (env : Env) (days : Z) : result (list string) :=
  match startDate env days with
  | Some start => dateStrings env start days
  | None => Throw RangeError_InvalidTime
  end.

(** [days] is the integer the callers pass: the literal 90 or the result
    of [parseInt].  The second loop reads [dateStrings[i]] for the same
    indices that the first loop pushed, so it is a map over the array. *)
Definition fetchNutritionHistory (env : Env) (username : string) (days : Z) (includeMeals : bool)
  : result (list DailyData) :=
  nutritionData ← fetchDailyTotals env username days;
  let nutritionMap := indexByDate nutritionData in
  dateStrings ← historyDates env days;
  let mealsMap := if includeMeals then indexMeals (fetchAllMeals env username dateStrings) else ∅ in
  Ok (map (dailyData nutritionMap mealsMap includeMeals) dateStrings).

(** ** The history route

    [loader] of [api.$username.nutrition.history.ts], from the parsed
    [days] on. *)

Inductive ResponseBody : Type :=
| HistoryJson (history : list DailyData)
| ErrorJson (message : string).

Record Response : Type := { status : Z; body : ResponseBody }.

Definition loader (env : Env) (username : string) (days : Z) : Response :=
  if negb (truthy username) then {| status := 400; body := ErrorJson "Username is required" |}
  else match fetchNutritionHistory env username days false with
       | Ok history => {| status := 200; body := HistoryJson history |}
       | Throw _ => {| status := 500; body := ErrorJson "Failed to fetch nutrition history" |}
       end.

(** ** calculateStreakAndTotalDays *)

Record StreakInfo : Type := { currentStreak : nat; totalDays : nat }.

Definition indexHistory (nutritionHistory : list DailyData) : gmap string DailyData :=
  foldl (fun m day => <[date day := day]> m) ∅ nutritionHistory.

(** The [while (true)] loop.  [fuel] bounds the number of iterations of
    the model; [None] means that the bound was reached before the loop
    left through one of its [break]s. *)
Fixpoint streakLoop (tz : TimeZone) (nutritionMap : gmap string DailyData) (len : nat)
    (fuel : nat) (currentDate : Date) (currentStreak : nat) : option (result nat) :=
  match fuel with
  | O => None
  | S fuel' =>
      match toISODate currentDate, currentDate with
      | Ok dateStr, Some t =>
          match nutritionMap !! dateStr with
          | None => Some (Ok currentStreak)
          | Some dayData =>
              if eqb (calories (nutrients dayData)) (of_Z 0) then Some (Ok currentStreak)
              else
                let currentStreak := S currentStreak in
                let currentDate := setDate tz t (getDate tz t - 1) in
                if (len <? currentStreak)%nat then Some (Ok currentStreak)
                else streakLoop tz nutritionMap len fuel' currentDate currentStreak
          end
      | Throw e, _ => Some (Throw e)
      | Ok _, None => Some (Throw RangeError_InvalidTime)
      end
  end.

(** The loop leaves at the latest when [currentStreak] exceeds the length
    of the history, so [length + 1] iterations are enough (see
    [streakLoop_terminates]). *)
Definition calculateStreakAndTotalDays (env : Env) (nutritionHistory : list DailyData)
  : option (result StreakInfo) :=
  let totalDays := length (filter (fun day => gtb (calories (nutrients day)) (of_Z 0) = true) nutritionHistory) in
  let nutritionMap := indexHistory nutritionHistory in
  r ← streakLoop (zone env) nutritionMap (length nutritionHistory)
        (S (length nutritionHistory)) (newDate env) 0%nat;
  Some (currentStreak ← r; Ok {| currentStreak := currentStreak; totalDays := totalDays |}).

(** ** getHeatmapColor *)

(** The colour zones, named after the [return] that produces them: "No
    data" (gray), then green, yellow, orange and red. *)
Inductive Zone : Type := NoData | Good | Mid | Low | High.

Record Rgba : Type := { red : number; green : number; blue : number; alpha : number }.

Definition adjustedDistance (percentage : number) : number :=
  if ltb percentage (of_Z 100) then sub (of_Z 100) percentage
  else mul (sub percentage (of_Z 100)) (decimal 5 1).

(** The function returns a CSS colour string; the embedding returns the
    zone of the branch taken together with the four colour components. *)
Definition getHeatmapColor (percentage : number) : Zone * Rgba :=
  if eqb percentage (of_Z 0) then
    (NoData, {| red := of_Z 229; green := of_Z 231; blue := of_Z 235; alpha := of_Z 1 |})
  else
    let adjustedDistance := adjustedDistance percentage in
    if leb adjustedDistance (of_Z 15) then
      let intensity := sub (of_Z 1) (mul (div adjustedDistance (of_Z 15)) (decimal 3 1)) in
      (Good, {| red := of_Z 34; green := of_Z 197; blue := of_Z 94; alpha := intensity |})
    else if leb adjustedDistance (of_Z 30) then
      let t := div (sub adjustedDistance (of_Z 15)) (of_Z 15) in
      let r := Math_round (add (of_Z 34) (mul (sub (of_Z 234) (of_Z 34)) t)) in
      let g := Math_round (add (of_Z 197) (mul (sub (of_Z 179) (of_Z 197)) t)) in
      let b := Math_round (add (of_Z 94) (mul (sub (of_Z 0) (of_Z 94)) t)) in
      (Mid, {| red := r; green := g; blue := b; alpha := sub (decimal 9 1) (mul t (decimal 1 1)) |})
    else if leb adjustedDistance (of_Z 50) then
      let t := div (sub adjustedDistance (of_Z 30)) (of_Z 20) in
      let r := Math_round (add (of_Z 234) (mul (sub (of_Z 249) (of_Z 234)) t)) in
      let g := Math_round (add (of_Z 179) (mul (sub (of_Z 115) (of_Z 179)) t)) in
      let b := Math_round (add (of_Z 0) (mul (sub (of_Z 0) (of_Z 0)) t)) in
      (Low, {| red := r; green := g; blue := b; alpha := sub (decimal 85 2) (mul t (decimal 5 2)) |})
    else
      let t := Math_min (div (sub adjustedDistance (of_Z 50)) (of_Z 50)) (of_Z 1) in
      let r := of_Z 239 in
      let g := Math_round (sub (of_Z 115) (mul (mul (of_Z 115) t) (decimal 3 1))) in
      let b := Math_round (add (of_Z 0) (mul (mul (of_Z 68) t) (decimal 3 1))) in
      (High, {| red := r; green := g; blue := b; alpha := add (decimal 85 2) (mul t (decimal 15 2)) |}).

Definition heatmapZone (percentage : number) : Zone := fst (getHeatmapColor percentage).

(** [getPercentage]. *)
Definition getPercentage (value goal : number) : number := mul (div value goal) (of_Z 100).

(** Severity of a zone that has data, from on target to far off. *)
Definition severity (z : Zone) : nat :=
  match z with NoData => 0 | Good => 0 | Mid => 1 | Low => 2 | High => 3 end.

(** The order on (exponent, mantissa) pairs that [SFcompare] uses for two
    finite values of one sign. *)
Definition cmpFinite (e1 : Z) (m1 : positive) (e2 : Z) (m2 : positive) : comparison :=
  match e1 ?= e2 with
  | Lt => Lt
  | Gt => Gt
  | Eq => Pos.compare_cont Eq m1 m2
  end.

(** The zone as a function of the adjusted distance, for a percentage
    other than zero. *)
Definition zoneOfDistance (d : number) : Zone :=
  if leb d (of_Z 15) then Good
  else if leb d (of_Z 30) then Mid
  else if leb d (of_Z 50) then Low
  else High.


(** ** The zone mapping in the words of the specification

    [percentage == 0] is NoData; otherwise the adjusted distance is
    [100 - percentage] below 100 and [(percentage - 100) * 0.5] from 100
    on, and the zone is Good up to 15, Mid above 15 up to 30, Low above 30
    up to 50 and High above 50.  Where no clause applies the result is
    [None]. *)

Definition adjustedDistance_spec (percentage : number) : option number :=
  if ltb percentage (of_Z 100) then Some (sub (of_Z 100) percentage)
  else if leb (of_Z 100) percentage then Some (mul (sub percentage (of_Z 100)) (decimal 5 1))
  else None.

Definition zoneOfDistance_spec (d : number) : option Zone :=
  if leb d (of_Z 15) then Some Good
  else if ltb (of_Z 15) d && leb d (of_Z 30) then Some Mid
  else if ltb (of_Z 30) d && leb d (of_Z 50) then Some Low
  else if ltb (of_Z 50) d then Some High
  else None.

Definition heatmapZone_spec (percentage : number) : option Zone :=
  if eqb percentage (of_Z 0) then Some NoData
  else d ← adjustedDistance_spec percentage; zoneOfDistance_spec d.

(** ** Vocabulary of the statements *)

(** A time value that a Date can hold. *)
Definition validTime (t : Z) : Prop := Z.abs t <= maxTime.

(** Day numbers of valid time values: at most 10^8 days from the epoch. *)
Definition validDay (z : Z) : Prop := -100000000 <= z <= 100000000.

(** The calendar days of a window of [days] days that ends on day
    [today], oldest first. *)
Definition windowDays (today days : Z) : list Z :=
  map (fun i => today - (days - 1) + i) (range days).

(** The last element of a list that has the key [k]: the one that a
    sequence of [set]s leaves in a [Map]. *)
Fixpoint lastWithKey {A : Type} (key : A -> string) (k : string) (l : list A) : option A :=
  match l with
  | [] => None
  | x :: l' =>
      match lastWithKey key k l' with
      | Some y => Some y
      | None => if bool_decide (key x = k) then Some x else None
      end
  end.

(** The binding that one comma-separated entry contributes to the table,
    if any. *)
Definition parseEntry (entry : string) : option (string * Credential) :=
  match split ":" (trim entry) with
  | [username; pw; key] =>
      if truthy username && truthy pw && truthy key
      then Some (username, {| password := pw; apiKey := key |})
      else None
  | _ => None
  end.


(** The food items of the entries of one meal type, in upstream order. *)
Definition bucket (k : string) (entries : list UpstreamFoodEntry) : list FoodItem :=
  map toFoodItem (filter (fun e => meal_type e = k) entries).

(** A value that is not finite: an infinity or NaN. *)
Definition nonFinite (x : number) : bool := negb (isFinite x).

(** A date is tracked when the history has a record for it whose calories
    are not equal to 0: the test of the streak loop. *)
Definition tracked (nutritionMap : gmap string DailyData) (dateStr : string) : bool :=
  match nutritionMap !! dateStr with
  | Some dayData => negb (eqb (calories (nutrients dayData)) (of_Z 0))
  | None => false
  end.

(** The streak in the words of the specification: the number of
    consecutive days with [calories > 0], counted backward from [today]
    and bounded by [n]. *)
Fixpoint consecutivePositiveDays (nutritionMap : gmap string DailyData) (today : Z) (n : nat) : nat :=
  match n with
  | O => O
  | S n' =>
      match nutritionMap !! isoDay today with
      | Some dayData =>
          if gtb (calories (nutrients dayData)) (of_Z 0)
          then S (consecutivePositiveDays nutritionMap (today - 1) n')
          else O
      | None => O
      end
  end.

Definition dayWithCalories (dateStr : string) (kcal : number) : DailyData :=
  {| date := dateStr;
     nutrients := {| calories := kcal; protein := of_Z 0; carbs := of_Z 0; fat := of_Z 0 |};
     meals := None |}.

(** Six days ending on 2024-03-11: nothing on the first, then five days
    with calories. *)
Definition fiveDayStreak : list DailyData :=
  [ dayWithCalories "2024-03-06" (of_Z 0);
    dayWithCalories "2024-03-07" (of_Z 1800);
    dayWithCalories "2024-03-08" (of_Z 2100);
    dayWithCalories "2024-03-09" (of_Z 1950);
    dayWithCalories "2024-03-10" (decimal 123456 2);
    dayWithCalories "2024-03-11" (of_Z 2000) ].

(** A single record for 2024-03-11 with a negative calorie value. *)
Definition negativeDay : list DailyData := [ dayWithCalories "2024-03-11" (of_Z (-1)) ].

Definition twoDays : list DailyData :=
  [ dayWithCalories "2024-03-10" (of_Z 1900); dayWithCalories "2024-03-11" (of_Z 2000) ].

(** ** Example hosts

    A small upstream and three hosts used to evaluate the functions: one
    running in UTC, one at the fixed offset UTC+7, and one in a zone that
    moves its clocks forward by an hour on 2024-03-10 at 07:00 UTC (02:00
    local time, UTC-5 before and UTC-4 after). *)

Definition exampleProfile : UpstreamProfile :=
  {| profile_id := "user-1"; full_name := "Alice"; date_of_birth := "";
     avatar_url := ""; gender := "" |}.

(** 1234.56 kcal on 2024-03-10. *)
Definition exampleTotal : UpstreamNutritionDay :=
  {| und_date := "2024-03-10"; und_calories := decimal 123456 2;
     und_protein := of_Z 100; und_carbs := of_Z 200; und_fat := of_Z 50 |}.

(** 150 g of a food whose nutrients are given per 100 g. *)
Definition exampleEntry : UpstreamFoodEntry :=
  {| meal_type := "lunch"; quantity := of_Z 150; entry_unit := "g";
     food_name := "rice"; brand_name := ""; serving_size := of_Z 100;
     ufe_calories := of_Z 200; ufe_protein := of_Z 4; ufe_carbs := of_Z 45;
     ufe_fat := of_Z 1 |}.

Definition zeroServingEntry : UpstreamFoodEntry :=
  {| meal_type := "snack"; quantity := of_Z 1; entry_unit := "piece";
     food_name := "candy"; brand_name := "Acme"; serving_size := of_Z 0;
     ufe_calories := of_Z 50; ufe_protein := of_Z 0; ufe_carbs := of_Z 12;
     ufe_fat := of_Z 1 |}.

(** The food-entries endpoint fails for 2024-03-10, has one entry each on
    2024-03-11 and 2024-03-09 and answers 404 for every other date. *)
Definition exampleUpstream : Upstream :=
  {| auth_profiles := fun key =>
       if String.eqb key "key1" then HttpResponse 200 (Some exampleProfile)
       else HttpResponse 401 None;
     goals_by_date := fun _ _ => NetworkError;
     mini_nutrition_trends := fun _ _ _ _ => HttpResponse 200 (Some [exampleTotal]);
     food_entries_by_date := fun _ d =>
       if String.eqb d "2024-03-10" then HttpResponse 500 None
       else if String.eqb d "2024-03-11" then HttpResponse 200 (Some [exampleEntry])
       else if String.eqb d "2024-03-09" then HttpResponse 200 (Some [zeroServingEntry])
       else HttpResponse 404 None |}.

(** 2024-03-11T23:30:00Z on a host in UTC. *)
Definition utcHost : Env :=
  {| apiKeysEnv := " alice:secret:key1 ,bob:key2";
     now := 1710199800000;
     zone := fixedZone 0;
     upstream := exampleUpstream |}.

(** 2024-03-11T18:00:00Z, which is 01:00 on 2024-03-12 at UTC+7. *)
Definition jakartaHost : Env :=
  {| apiKeysEnv := "alice:secret:key1";
     now := 1710180000000;
     zone := fixedZone 25200000;
     upstream := exampleUpstream |}.

Definition newYorkZone : TimeZone :=
  {| LocalTZA := fun t isUTC =>
       if isUTC then (if t <? 1710054000000 then -18000000 else -14400000)
       else (if t <? 1710039600000 then -18000000 else -14400000) |}.

(** 2024-03-11T23:30:00Z, which is 19:30 local time on 2024-03-11. *)
Definition newYorkHost : Env :=
  {| apiKeysEnv := "alice:secret:key1";
     now := 1710199800000;
     zone := newYorkZone;
     upstream := exampleUpstream |}.

(** ** Further functions of the client module and of the routes *)




(** [loader] of [api.$username.validate.ts]; [password] is the value of
    the query parameter, [None] when it is absent. *)
Record ValidateResponse : Type := { validate_status : Z; valid : bool }.

Definition validateLoader (env : Env) (username : string) (password : option string)
  : ValidateResponse :=
  match password with
  | Some pw =>
      if negb (truthy pw) then {| validate_status := 400; valid := false |}
      else {| validate_status := 200; valid := validatePassword env username pw |}
  | None => {| validate_status := 400; valid := false |}
  end.

(** The keys that the [meals] object literal starts with. *)
Definition standardMeals : list string := ["breakfast"; "lunch"; "dinner"; "snack"].

(** The shape of a meals object: the four standard keys are there, no key
    is a property name inherited from [Object.prototype], and a list
    under any other key has at least one item. *)
Definition mealsShape (meals : gmap string (list FoodItem)) : Prop :=
  (forall k, k ∈ standardMeals -> is_Some (meals !! k)) /\
  (forall k, is_Some (meals !! k) -> k ∉ objectPrototypeKeys) /\
  (forall k items, meals !! k = Some items -> k ∉ standardMeals -> items <> []).




(** ** Further functions of the dashboard *)

(** The text colours of [getPercentageColor]: green-700, yellow-700,
    orange-700 and red-700. *)
Inductive TextColor : Type := Green700 | Yellow700 | Orange700 | Red700.

Definition getPercentageColor (percentage : number) : (Zone * Rgba) * TextColor :=
  let bgColor := getHeatmapColor percentage in
  let adjustedDistance :=
    if ltb percentage (of_Z 100) then sub (of_Z 100) percentage
    else mul (sub percentage (of_Z 100)) (decimal 5 1) in
  let textColor :=
    if leb adjustedDistance (of_Z 15) then Green700
    else if leb adjustedDistance (of_Z 30) then Yellow700
    else if leb adjustedDistance (of_Z 50) then Orange700
    else Red700 in
  (bgColor, textColor).

(** The zone whose colour a text colour matches. *)
Definition zoneOfText (c : TextColor) : Zone :=
  match c with Green700 => Good | Yellow700 => Mid | Orange700 => Low | Red700 => High end.

Definition hasData (day : DailyData) : bool :=
  gtb (calories (nutrients day)) (of_Z 0) || gtb (protein (nutrients day)) (of_Z 0) ||
  gtb (carbs (nutrients day)) (of_Z 0) || gtb (fat (nutrients day)) (of_Z 0).

(** The loop of [trimmedData] from index [i] on: [startIndex] unless a day
    with data is met. *)
Fixpoint trimLoop (days : list DailyData) (i startIndex : nat) : nat :=
  match days with
  | [] => startIndex
  | day :: days' => if hasData day then i else trimLoop days' (S i) startIndex
  end.

(** [heatmapData.slice(startIndex)]. *)
Definition trimmedData (heatmapData : list DailyData) : list DailyData :=
  drop (trimLoop heatmapData 0 0) heatmapData.

(** The zone of a whole-number percentage, as a table of thresholds. *)
Definition zoneOfPercent (p : Z) : Zone :=
  if p =? 0 then NoData
  else if (85 <=? p) && (p <=? 130) then Good
  else if (70 <=? p) && (p <=? 160) then Mid
  else if (50 <=? p) && (p <=? 200) then Low
  else High.

Definition zoneEqb (a b : Zone) : bool :=
  match a, b with
  | NoData, NoData | Good, Good | Mid, Mid | Low, Low | High, High => true
  | _, _ => false
  end.

(** The errors that the steps before the meal fetches can raise. *)
Definition historyError (username : string) (e : Exn) : Prop :=
  e = NoApiKeyConfigured username \/ e = FailedToFetchProfile \/ e = NoUserIdInProfile \/
  e = FailedToFetchNutritionHistory \/ e = FetchRejected \/ e = JsonRejected \/
  e = RangeError_InvalidTime.

(** ** The cookie check of the dashboard loader *)

(** [s.startsWith(prefix)]. *)
Definition startsWith (s prefix : string) : bool := String.prefix prefix s.

(** [cookieHeader?.split(';').find(c => c.trim().startsWith(`auth-${username}=`))?.split('=')[1]];
    [cookieHeader] is [None] when the request has no Cookie header. *)
Definition passwordCookie (cookieHeader : option string) (username : string) : option string :=
  match cookieHeader with
  | Some header =>
      match find (fun c => startsWith (trim c) ("auth-" ++ username ++ "=")) (split ";" header) with
      | Some c => split "=" c !! 1%nat
      | None => None
      end
  | None => None
  end.

(** [passwordCookie && validatePassword(username, passwordCookie)]. *)
Definition isAuthenticated (env : Env) (cookieHeader : option string) (username : string) : bool :=
  match passwordCookie cookieHeader username with
  | Some pw => truthy pw && validatePassword env username pw
  | None => false
  end.

(** Whether the character [c] occurs in [s]. *)
Fixpoint hasChar (c : ascii) (s : string) : bool :=
  match s with
  | EmptyString => false
  | String a s' => Ascii.eqb a c || hasChar c s'
  end.

(** ** fetchProfile *)

(** What the module reads besides the environment of a request: the value
    of [SPARKYFITNESS_WEB_URL] (or its default) and the host's parser of
    date strings, [new Date(string)], whose result outside the ISO format
    is left to the implementation. *)
Record Settings : Type := {
  SPARKYFITNESS_WEB_URL : string;
  Date_parse : string -> Date }.

Definition getFullYear (tz : TimeZone) (t : Z) : Z := YearFromTime (LocalTime tz t).
Definition getMonth (tz : TimeZone) (t : Z) : Z := MonthFromTime (LocalTime tz t).

(** A number that is a whole number of years, or NaN. *)
Inductive Age : Type := Years (n : Z) | AgeNaN.

(** The block that computes [age] from [birthDate] and [today]; every
    comparison with NaN is false, so an invalid [birthDate] leaves NaN. *)
Definition ageOn (tz : TimeZone) (today : Z) (birthDate : Date) : Age :=
  match birthDate with
  | Some birth =>
      let age := getFullYear tz today - getFullYear tz birth in
      let monthDiff := getMonth tz today - getMonth tz birth in
      if (monthDiff <? 0) || ((monthDiff =? 0) && (getDate tz today <? getDate tz birth))
      then Years (age - 1) else Years age
  | None => AgeNaN
  end.

Definition avatarUrl (cfg : Settings) (username : string) (data : UpstreamProfile) : string :=
  if startsWith (avatar_url data) "/" then SPARKYFITNESS_WEB_URL cfg ++ avatar_url data
  else if truthy (avatar_url data) then avatar_url data
  else "https://api.dicebear.com/7.x/avataaars/svg?seed=" ++ username.

(** The fields [name], [gender], [currentStreak] and [totalDays] of the
    source carry the prefix [profile_] here; [goals] has the four fields
    of [Nutrients]. *)
Record Profile : Type := {
  profile_name : string;
  avatar : string;
  age : option Age;
  profile_gender : option string;
  goals : Nutrients;
  profile_currentStreak : nat;
  profile_totalDays : nat }.

(** The upstream calls of [fetchProfile], in order: the profile, the
    goals of today, and the history of 90 days, which is asked for with
    the default [includeMeals = true]. *)
Definition fetchProfileData (env : Env) (username : string)
  : result (UpstreamProfile * UpstreamGoals * list DailyData) :=
  apiKey ← getApiKey env username;
  data ← fetchJson (auth_profiles (upstream env) apiKey) FailedToFetchProfile;
  todayGoals ← fetchGoals env username None;
  nutritionHistory ← fetchNutritionHistory env username 90 true;
  Ok (data, todayGoals, nutritionHistory).

Definition makeProfile (env : Env) (cfg : Settings) (username : string)
    (data : UpstreamProfile) (todayGoals : UpstreamGoals) (streak : StreakInfo) : Profile :=
  {| profile_name := if truthy (full_name data) then full_name data else username;
     avatar := avatarUrl cfg username data;
     age := if truthy (date_of_birth data)
            then Some (ageOn (zone env) (now env) (Date_parse cfg (date_of_birth data)))
            else None;
     profile_gender := if truthy (gender data) then Some (gender data) else None;
     goals := {| calories := ug_calories todayGoals; protein := ug_protein todayGoals;
                 carbs := ug_carbs todayGoals; fat := ug_fat todayGoals |};
     profile_currentStreak := currentStreak streak;
     profile_totalDays := totalDays streak |}.

(** [None] means that the streak loop ran out of the fuel of the model
    (it never does, see [fetchProfile_returns]). *)
Definition fetchProfile (env : Env) (cfg : Settings) (username : string)
  : option (result Profile) :=
  match fetchProfileData env username with
  | Ok (data, todayGoals, nutritionHistory) =>
      r ← calculateStreakAndTotalDays env nutritionHistory;
      Some (streak ← r; Ok (makeProfile env cfg username data todayGoals streak))
  | Throw e => Some (Throw e)
  end.

(** The errors that [fetchProfile] can raise. *)
Definition profileError (username : string) (e : Exn) : Prop :=
  historyError username e \/ e = FailedToFetchGoals.

(** An environment whose food-entries endpoint is replaced. *)
Definition withFoodEntries (env : Env)
    (f : string -> string -> FetchOutcome (list UpstreamFoodEntry)) : Env :=
  {| apiKeysEnv := apiKeysEnv env; now := now env; zone := zone env;
     upstream := {| auth_profiles := auth_profiles (upstream env);
                    goals_by_date := goals_by_date (upstream env);
                    mini_nutrition_trends := mini_nutrition_trends (upstream env);
                    food_entries_by_date := f |} |}.

(** Two environments that differ at most in the food-entries endpoint. *)
Definition sameButFoodEntries (env' env : Env) : Prop :=
  apiKeysEnv env' = apiKeysEnv env /\ now env' = now env /\ zone env' = zone env /\
  auth_profiles (upstream env') = auth_profiles (upstream env) /\
  goals_by_date (upstream env') = goals_by_date (upstream env) /\
  mini_nutrition_trends (upstream env') = mini_nutrition_trends (upstream env).

(** A record without its [meals] field. *)
Definition withoutMeals (day : DailyData) : DailyData :=
  {| date := date day; nutrients := nutrients day; meals := None |}.

(** The order of calendar dates (year, month, day). *)
Definition dateLe (a b : Z * Z * Z) : Prop :=
  let '(y, m, d) := a in
  let '(y', m', d') := b in
  y < y' \/ (y = y' /\ (m < m' \/ (m = m' /\ d <= d'))).

(** The local calendar date of an instant, with the month counted from 0
    as [getMonth] does. *)
Definition localDate (tz : TimeZone) (t : Z) : Z * Z * Z :=
  (getFullYear tz t, getMonth tz t, getDate tz t).

(** The date [n] years after a date, as the anniversary of a birthday. *)
Definition addYears (n : Z) (a : Z * Z * Z) : Z * Z * Z :=
  let '(y, m, d) := a in (y + n, m, d).

(** ** The calendar *)

Section Calendar.

Lemma civil_of_doe_spec doe :
  0 <= doe < 146097 ->
  let '(yoe, m, d) := civil_of_doe doe in
  0 <= yoe < 400 /\ 1 <= m <= 12 /\ 1 <= d <= 31 /\ doe_of_civil yoe m d = doe.
Proof.
  intros Hdoe. unfold civil_of_doe, doe_of_civil.
  set (yoe := (doe - doe / 1460 + doe / 36524 - doe / 146096) / 365).
  set (doy := doe - (365 * yoe + yoe / 4 - yoe / 100)).
  assert (Hy : 0 <= yoe < 400 /\ 0 <= doy <= 365).
  { subst doy yoe. Z.div_mod_to_equations. lia. }
  destruct Hy as [Hyoe Hdoy].
  set (mp := (5 * doy + 2) / 153).
  assert (Hmp : 0 <= mp <= 11) by (subst mp; Z.div_mod_to_equations; lia).
  assert (Hd : 1 <= doy - (153 * mp + 2) / 5 + 1 <= 31).
  { subst mp. Z.div_mod_to_equations. lia. }
  destruct (Z.ltb_spec mp 10).
  - repeat split; try lia.
    destruct (Z.ltb_spec 2 (mp + 3)); [|lia].
    replace (mp + 3 - 3) with mp by lia. subst doy. lia.
  - repeat split; try lia.
    destruct (Z.ltb_spec 2 (mp - 9)); [lia|].
    replace (mp - 9 + 9) with mp by lia. subst doy. lia.
Qed.

Lemma civil_from_days_range z :
  let '(y, m, d) := civil_from_days z in 1 <= m <= 12 /\ 1 <= d <= 31.
Proof.
  unfold civil_from_days.
  pose proof (civil_of_doe_spec ((z + 719468) mod 146097)) as H.
  destruct (civil_of_doe ((z + 719468) mod 146097)) as [[yoe m] d].
  destruct H as (_ & Hm & Hd & _); [apply Z.mod_pos_bound; lia|]. now split.
Qed.

Lemma days_from_civil_from_days z :
  let '(y, m, d) := civil_from_days z in days_from_civil y m d = z.
Proof.
  unfold civil_from_days, days_from_civil.
  pose proof (civil_of_doe_spec ((z + 719468) mod 146097)) as H.
  destruct (civil_of_doe ((z + 719468) mod 146097)) as [[yoe m] d].
  destruct H as (Hyoe & Hm & Hd & Hdoe); [apply Z.mod_pos_bound; lia|].
  set (era := (z + 719468) / 146097) in *.
  assert (Hy : (if m <=? 2 then yoe + era * 400 + (if m <=? 2 then 1 else 0) - 1
                else yoe + era * 400 + (if m <=? 2 then 1 else 0)) = yoe + era * 400).
  { destruct (m <=? 2); lia. }
  rewrite Hy.
  replace ((yoe + era * 400) / 400) with era by (Z.div_mod_to_equations; lia).
  replace ((yoe + era * 400) mod 400) with yoe by (Z.div_mod_to_equations; lia).
  rewrite Hdoe. subst era. Z.div_mod_to_equations. lia.
Qed.

Lemma civil_from_days_inj z1 z2 : civil_from_days z1 = civil_from_days z2 -> z1 = z2.
Proof.
  intros H.
  pose proof (days_from_civil_from_days z1) as H1.
  pose proof (days_from_civil_from_days z2) as H2.
  rewrite H in H1. destruct (civil_from_days z2) as [[y m] d]. congruence.
Qed.

Lemma days_from_civil_shift y m d k :
  days_from_civil y m (d + k) = days_from_civil y m d + k.
Proof. unfold days_from_civil, doe_of_civil. lia. Qed.

(** Replacing the day of the month by itself plus [k] moves the day
    number by [k], across month and year ends. *)
Lemma MakeDay_shift t k :
  MakeDay (YearFromTime t) (MonthFromTime t) (DateFromTime t + k) = Day t + k.
Proof.
  unfold MakeDay, YearFromTime, MonthFromTime, DateFromTime.
  pose proof (civil_from_days_range (Day t)) as Hr.
  pose proof (days_from_civil_from_days (Day t)) as Hd.
  destruct (civil_from_days (Day t)) as [[y m] d]; simpl.
  destruct Hr as [Hm _].
  replace ((m - 1) / 12) with 0 by (Z.div_mod_to_equations; lia).
  replace ((m - 1) mod 12 + 1) with m by (Z.div_mod_to_equations; lia).
  replace (y + 0) with y by lia.
  replace 1 with (d + (1 - d)) at 1 by lia.
  rewrite days_from_civil_shift, Hd. lia.
Qed.

Lemma MakeDate_shift t k :
  MakeDate (Day t + k) (TimeWithinDay t) = t + k * msPerDay.
Proof.
  unfold MakeDate, Day, TimeWithinDay, msPerDay. Z.div_mod_to_equations. lia.
Qed.

(** In any zone, [d.setDate(d.getDate() + k)] moves the local wall-clock
    time by [k] whole days. *)
Lemma setDate_getDate tz t k :
  setDate tz t (getDate tz t + k) = TimeClip (UTC tz (LocalTime tz t + k * msPerDay)).
Proof. unfold setDate, getDate. now rewrite MakeDay_shift, MakeDate_shift. Qed.

Lemma setDate_getDate_fixed c t k :
  setDate (fixedZone c) t (getDate (fixedZone c) t + k) = TimeClip (t + k * msPerDay).
Proof.
  rewrite setDate_getDate. unfold UTC, LocalTime. simpl. f_equal. lia.
Qed.

Lemma Day_shift t k : Day (t + k * msPerDay) = Day t + k.
Proof. unfold Day, msPerDay. Z.div_mod_to_equations. lia. Qed.

End Calendar.

(** ** ISO date strings *)

Section IsoDates.

Lemma digit_inj a b : 0 <= a <= 9 -> 0 <= b <= 9 -> digit a = digit b -> a = b.
Proof.
  intros Ha Hb H. unfold digit in H.
  apply (f_equal nat_of_ascii) in H.
  rewrite !nat_ascii_embedding in H by lia. lia.
Qed.

Lemma pad0_length k n acc : String.length (pad0 k n acc) = (k + String.length acc)%nat.
Proof.
  revert n acc. induction k as [|k IH]; intros n acc; simpl; [reflexivity|].
  rewrite IH. simpl. lia.
Qed.

Lemma pad0_inj k a b acc acc' :
  pad0 k a acc = pad0 k b acc' -> a mod 10 ^ Z.of_nat k = b mod 10 ^ Z.of_nat k /\ acc = acc'.
Proof.
  revert a b acc acc'. induction k as [|k IH]; intros a b acc acc' H.
  - simpl in *. rewrite !Z.mod_1_r. now split.
  - simpl in H. apply IH in H. destruct H as [Hq Hs].
    injection Hs as Hd Hacc.
    pose proof (Z.mod_pos_bound a 10 ltac:(lia)) as Ha.
    pose proof (Z.mod_pos_bound b 10 ltac:(lia)) as Hb.
    apply digit_inj in Hd; [|lia|lia].
    split; [|assumption].
    rewrite Nat2Z.inj_succ, Z.pow_succ_r by lia.
    rewrite !Z.rem_mul_r by lia. lia.
Qed.

Lemma String_inj c s c' s' : String c s = String c' s' -> c = c' /\ s = s'.
Proof. intros H. injection H as -> ->. now split. Qed.

Lemma isoDate_inj y m d y' m' d' :
  -1000000 < y < 1000000 -> -1000000 < y' < 1000000 ->
  0 <= m < 100 -> 0 <= m' < 100 -> 0 <= d < 100 -> 0 <= d' < 100 ->
  isoDate (y, m, d) = isoDate (y', m', d') -> (y, m, d) = (y', m', d').
Proof.
  intros Hy Hy' Hm Hm' Hd Hd' H.
  assert (Hrest : forall a b a' b',
    0 <= a < 100 -> 0 <= a' < 100 -> 0 <= b < 100 -> 0 <= b' < 100 ->
    String "-" (pad0 2 a (String "-" (pad0 2 b EmptyString))) =
    String "-" (pad0 2 a' (String "-" (pad0 2 b' EmptyString))) -> a = a' /\ b = b').
  { intros a b a' b' Ha Ha' Hb Hb' E. apply String_inj in E. destruct E as [_ E].
    apply pad0_inj in E. destruct E as [Ea E]. apply String_inj in E. destruct E as [_ E].
    apply pad0_inj in E. destruct E as [Eb _].
    change (10 ^ Z.of_nat 2) with 100 in *.
    rewrite !Z.mod_small in Ea, Eb by lia. now split. }
  unfold isoDate in H.
  destruct ((0 <=? y) && (y <=? 9999)) eqn:Ey; destruct ((0 <=? y') && (y' <=? 9999)) eqn:Ey'.
  - apply pad0_inj in H. destruct H as [Eyy E].
    apply Hrest in E; try lia. destruct E as [-> ->].
    change (10 ^ Z.of_nat 4) with 10000 in Eyy.
    rewrite !Z.mod_small in Eyy by lia. now subst.
  - apply (f_equal String.length) in H.
    repeat (rewrite ?pad0_length in H; cbn [String.length] in H). lia.
  - apply (f_equal String.length) in H.
    repeat (rewrite ?pad0_length in H; cbn [String.length] in H). lia.
  - apply String_inj in H. destruct H as [Hs E]. apply pad0_inj in E. destruct E as [Eyy E].
    apply Hrest in E; try lia. destruct E as [-> ->].
    change (10 ^ Z.of_nat 6) with 1000000 in Eyy.
    rewrite !Z.mod_small in Eyy by lia.
    destruct (Z.ltb_spec y 0), (Z.ltb_spec y' 0); try discriminate; f_equal; f_equal; lia.
Qed.

Lemma civil_from_days_year z :
  validDay z -> -1000000 < fst (fst (civil_from_days z)) < 1000000.
Proof.
  unfold validDay. intros Hz. unfold civil_from_days.
  pose proof (civil_of_doe_spec ((z + 719468) mod 146097)) as H.
  destruct (civil_of_doe ((z + 719468) mod 146097)) as [[yoe m] d].
  destruct H as (Hyoe & _); [apply Z.mod_pos_bound; lia|]. simpl.
  assert (-700 <= (z + 719468) / 146097 <= 700) by (Z.div_mod_to_equations; lia).
  destruct (m <=? 2); lia.
Qed.

Lemma isoDay_inj z1 z2 : validDay z1 -> validDay z2 -> isoDay z1 = isoDay z2 -> z1 = z2.
Proof.
  intros H1 H2 H. unfold isoDay in H.
  pose proof (civil_from_days_year z1 H1) as Hy1.
  pose proof (civil_from_days_year z2 H2) as Hy2.
  pose proof (civil_from_days_range z1) as Hr1.
  pose proof (civil_from_days_range z2) as Hr2.
  apply civil_from_days_inj.
  destruct (civil_from_days z1) as [[y1 m1] d1], (civil_from_days z2) as [[y2 m2] d2].
  simpl in *. apply isoDate_inj; lia || assumption.
Qed.

Lemma TimeClip_Some t : Z.abs t <= maxTime -> TimeClip t = Some t.
Proof. intros H. unfold TimeClip. destruct (Z.leb_spec (Z.abs t) maxTime); [reflexivity|lia]. Qed.

Lemma TimeClip_validDay t : Z.abs t <= maxTime -> validDay (Day t).
Proof.
  unfold maxTime, validDay, Day, msPerDay. intros H. Z.div_mod_to_equations. lia.
Qed.

End IsoDates.

(** ** Comparison and special values of numbers *)

Section Numbers.

Lemma SFcompare_antisym x y :
  SFcompare y x = option_map CompOpp (SFcompare x y).
Proof.
  destruct x as [sx|sx| |sx mx ex], y as [sy|sy| |sy my ey]; simpl;
    try reflexivity; try (destruct sx; reflexivity); try (destruct sy; reflexivity);
    try (destruct sx, sy; reflexivity).
  destruct sx, sy; simpl; try reflexivity;
    rewrite (Z.compare_antisym ex ey); destruct (ex ?= ey); simpl; try reflexivity;
    rewrite (Pos.compare_cont_antisym mx my Eq); simpl;
    destruct (Pos.compare_cont Eq mx my); reflexivity.
Qed.

Lemma ltb_not_leb x y : ltb x y = true -> leb y x = false.
Proof.
  unfold ltb, leb, SFltb, SFleb. rewrite (SFcompare_antisym x y).
  destruct (SFcompare x y) as [[]|]; simpl; congruence.
Qed.

Lemma SFcompare_Some x y :
  isNaN x = false -> isNaN y = false -> exists c, SFcompare x y = Some c.
Proof.
  destruct x, y; simpl; try discriminate; intros _ _; eexists; reflexivity.
Qed.

Lemma not_leb_ltb x y : isNaN x = false -> isNaN y = false -> leb x y = false -> ltb y x = true.
Proof.
  intros Hx Hy. destruct (SFcompare_Some x y Hx Hy) as [c Hc].
  unfold ltb, leb, SFltb, SFleb. rewrite (SFcompare_antisym x y), Hc.
  destruct c; simpl; congruence.
Qed.

Lemma gtb_not_eqb x y : gtb x y = true -> eqb x y = false.
Proof.
  unfold gtb, eqb, SFltb, SFeqb. rewrite (SFcompare_antisym x y).
  destruct (SFcompare x y) as [[]|]; simpl; congruence.
Qed.

Lemma eqb_not_gtb x y : eqb x y = true -> gtb x y = false.
Proof.
  intros H. destruct (gtb x y) eqn:E; [|reflexivity].
  apply gtb_not_eqb in E. congruence.
Qed.

Lemma cmpFinite_le_trans e1 m1 e2 m2 e3 m3 :
  cmpFinite e1 m1 e2 m2 <> Gt -> cmpFinite e2 m2 e3 m3 <> Gt -> cmpFinite e1 m1 e3 m3 <> Gt.
Proof.
  unfold cmpFinite. change (Pos.compare_cont Eq) with Pos.compare.
  destruct (Z.compare_spec e1 e2), (Z.compare_spec e2 e3), (Z.compare_spec e1 e3);
    try lia; try congruence;
    destruct (Pos.compare_spec m1 m2), (Pos.compare_spec m2 m3), (Pos.compare_spec m1 m3);
    try lia; congruence.
Qed.

Lemma cmpFinite_ge_trans e1 m1 e2 m2 e3 m3 :
  cmpFinite e1 m1 e2 m2 <> Lt -> cmpFinite e2 m2 e3 m3 <> Lt -> cmpFinite e1 m1 e3 m3 <> Lt.
Proof.
  unfold cmpFinite. change (Pos.compare_cont Eq) with Pos.compare.
  destruct (Z.compare_spec e1 e2), (Z.compare_spec e2 e3), (Z.compare_spec e1 e3);
    try lia; try congruence;
    destruct (Pos.compare_spec m1 m2), (Pos.compare_spec m2 m3), (Pos.compare_spec m1 m3);
    try lia; congruence.
Qed.

Lemma SFcompare_finite s1 m1 e1 s2 m2 e2 :
  SFcompare (S754_finite s1 m1 e1) (S754_finite s2 m2 e2) =
  Some (match s1, s2 with
        | true, false => Lt
        | false, true => Gt
        | false, false => cmpFinite e1 m1 e2 m2
        | true, true => CompOpp (cmpFinite e1 m1 e2 m2)
        end).
Proof.
  unfold cmpFinite. simpl. destruct s1, s2; try reflexivity.
  destruct (e1 ?= e2); reflexivity.
Qed.

Lemma leb_trans x y z : leb x y = true -> leb y z = true -> leb x z = true.
Proof.
  unfold leb, SFleb.
  destruct x as [sx|sx| |sx mx ex], y as [sy|sy| |sy my ey], z as [sz|sz| |sz mz ez];
    rewrite ?SFcompare_finite;
    try (simpl; discriminate); try (simpl; reflexivity);
    try (destruct sx; simpl; try discriminate; try reflexivity);
    try (destruct sy; simpl; try discriminate; try reflexivity);
    try (destruct sz; simpl; try discriminate; try reflexivity).
  - pose proof (cmpFinite_ge_trans ex mx ey my ez mz) as T.
    destruct (cmpFinite ex mx ey my), (cmpFinite ey my ez mz), (cmpFinite ex mx ez mz);
      simpl; try discriminate; try reflexivity; intros; exfalso; apply T; congruence.
  - pose proof (cmpFinite_le_trans ex mx ey my ez mz) as T.
    destruct (cmpFinite ex mx ey my), (cmpFinite ey my ez mz), (cmpFinite ex mx ez mz);
      simpl; try discriminate; try reflexivity; intros; exfalso; apply T; congruence.
Qed.

End Numbers.

(** ** Rounding never produces NaN *)

Section Rounding.

Lemma iter_pos_invariant {A : Type} (f : A -> A) (P : A -> Prop) :
  (forall x, P x -> P (f x)) -> forall n x, P x -> P (SpecFloat.iter_pos f n x).
Proof.
  intros Hf. induction n as [n IH|n IH|]; intros x Hx; simpl; auto.
Qed.

Lemma shr_1_nonneg mrs : 0 <= shr_m mrs -> 0 <= shr_m (shr_1 mrs).
Proof.
  destruct mrs as [m r s]. simpl.
  destruct m as [|p|p]; simpl; try lia; destruct p; simpl; lia.
Qed.

Lemma shr_fexp_nonneg m e l :
  0 <= m -> 0 <= shr_m (fst (shr_fexp prec emax m e l)).
Proof.
  intros Hm. unfold shr_fexp, shr.
  assert (H0 : 0 <= shr_m (shr_record_of_loc m l)) by (destruct l as [|[]]; simpl; lia).
  destruct (fexp prec emax (Zdigits2 m + e) - e); simpl; try assumption.
  apply iter_pos_invariant; [apply shr_1_nonneg|assumption].
Qed.

Lemma binary_round_aux_not_nan s m e l :
  0 <= m -> isNaN (binary_round_aux prec emax s m e l) = false.
Proof.
  intros Hm. unfold binary_round_aux.
  pose proof (shr_fexp_nonneg m e l Hm) as H1.
  destruct (shr_fexp prec emax m e l) as [mrs' e']. simpl in H1.
  set (m2 := round_nearest_even (shr_m mrs') (loc_of_shr_record mrs')).
  assert (H2 : 0 <= m2).
  { subst m2. unfold round_nearest_even.
    destruct (loc_of_shr_record mrs') as [|[]]; try lia.
    destruct (Z.even (shr_m mrs')); lia. }
  pose proof (shr_fexp_nonneg m2 e' loc_Exact H2) as H3.
  destruct (shr_fexp prec emax m2 e' loc_Exact) as [mrs'' e'']. simpl in H3.
  destruct (shr_m mrs'') as [|p|p]; try reflexivity; [|lia].
  destruct (e'' <=? emax - prec); reflexivity.
Qed.

Lemma binary_normalize_not_nan m e : isNaN (binary_normalize prec emax m e false) = false.
Proof.
  unfold binary_normalize, binary_round.
  destruct m as [|p|p]; try reflexivity;
    destruct (shl_align p e (fexp prec emax (Z.pos (digits2_pos p) + e))) as [mz ez];
    apply binary_round_aux_not_nan; lia.
Qed.

Lemma sub_finite_not_nan x y :
  isFinite x = true -> isNaN y = false -> isNaN (sub x y) = false.
Proof.
  destruct x as [sx|sx| |sx mx ex], y as [sy|sy| |sy my ey]; simpl; try discriminate;
    intros _ _; try reflexivity.
  - destruct sx, sy; reflexivity.
  - apply binary_normalize_not_nan.
Qed.

Lemma sub_not_nan_finite x y :
  isNaN x = false -> isFinite y = true -> isNaN (sub x y) = false.
Proof.
  destruct x as [sx|sx| |sx mx ex], y as [sy|sy| |sy my ey]; simpl; try discriminate;
    intros _ _; try reflexivity.
  - destruct sx, sy; reflexivity.
  - apply binary_normalize_not_nan.
Qed.

Lemma mul_finite_not_nan x sy my ey :
  isNaN x = false -> isNaN (mul x (S754_finite sy my ey)) = false.
Proof.
  destruct x as [sx|sx| |sx mx ex]; simpl; try discriminate; intros _; try reflexivity.
  apply binary_round_aux_not_nan. lia.
Qed.

(** A value that is not finite stays so under multiplication, under
    [Math.round] and under division by a finite value. *)

Lemma div_by_zero_nonFinite x y : eqb y (of_Z 0) = true -> nonFinite (div x y) = true.
Proof.
  destruct y as [sy|[]| |[] my ey]; try discriminate; intros _; destruct x; reflexivity.
Qed.

Lemma mul_nonFinite x y : nonFinite y = true -> nonFinite (mul x y) = true.
Proof.
  destruct y as [sy|sy| |sy my ey]; try discriminate; intros _; destruct x; reflexivity.
Qed.

Lemma mul_nonFinite_l x sy my ey :
  nonFinite x = true -> nonFinite (mul x (S754_finite sy my ey)) = true.
Proof. destruct x; try discriminate; intros _; reflexivity. Qed.

Lemma round1_nonFinite x : nonFinite x = true -> nonFinite (round1 x) = true.
Proof.
  intros H. unfold round1.
  assert (H10 : exists s m e, of_Z 10 = S754_finite s m e) by (do 3 eexists; reflexivity).
  destruct H10 as (s & m & e & ->).
  apply (mul_nonFinite_l _ s m e) in H.
  destruct (mul x (S754_finite s m e)); try discriminate; reflexivity.
Qed.

End Rounding.

(** ** The heat-map zones *)

Section Heatmap.

Lemma heatmapZone_unfold p :
  heatmapZone p = if eqb p (of_Z 0) then NoData else zoneOfDistance (adjustedDistance p).
Proof.
  unfold heatmapZone, getHeatmapColor, zoneOfDistance.
  destruct (eqb p (of_Z 0)); [reflexivity|].
  destruct (leb (adjustedDistance p) (of_Z 15)); [reflexivity|].
  destruct (leb (adjustedDistance p) (of_Z 30)); [reflexivity|].
  destruct (leb (adjustedDistance p) (of_Z 50)); reflexivity.
Qed.

Lemma zoneOfDistance_spec_sound d :
  isNaN d = false -> zoneOfDistance_spec d = Some (zoneOfDistance d).
Proof.
  intros Hd. unfold zoneOfDistance_spec, zoneOfDistance.
  destruct (leb d (of_Z 15)) eqn:E15; [reflexivity|].
  rewrite (not_leb_ltb d (of_Z 15) Hd eq_refl E15). cbn [andb].
  destruct (leb d (of_Z 30)) eqn:E30; [reflexivity|].
  rewrite (not_leb_ltb d (of_Z 30) Hd eq_refl E30). cbn [andb].
  destruct (leb d (of_Z 50)) eqn:E50; [reflexivity|].
  now rewrite (not_leb_ltb d (of_Z 50) Hd eq_refl E50).
Qed.

Lemma ltb_not_nan_l x y : ltb x y = true -> isNaN x = false.
Proof. destruct x; try reflexivity. discriminate. Qed.

Lemma leb_not_nan_r x y : leb x y = true -> isNaN y = false.
Proof. destruct y; try reflexivity. destruct x; discriminate. Qed.

Lemma adjustedDistance_spec_sound p :
  match adjustedDistance_spec p with
  | Some d => d = adjustedDistance p /\ isNaN d = false
  | None => isNaN p = true
  end.
Proof.
  unfold adjustedDistance_spec, adjustedDistance.
  destruct (ltb p (of_Z 100)) eqn:Elt.
  - split; [reflexivity|].
    apply sub_finite_not_nan; [reflexivity|]. eapply ltb_not_nan_l; eassumption.
  - destruct (leb (of_Z 100) p) eqn:Ele.
    + split; [reflexivity|].
      apply (mul_finite_not_nan _ false 4503599627370496 (-53)).
      apply sub_not_nan_finite; [|reflexivity]. eapply leb_not_nan_r; eassumption.
    + destruct (isNaN p) eqn:En; [reflexivity|].
      rewrite (not_leb_ltb (of_Z 100) p eq_refl En Ele) in Elt. discriminate.
Qed.

Lemma heatmapZone_spec_sound p :
  match heatmapZone_spec p with
  | Some z => heatmapZone p = z
  | None => isNaN p = true
  end.
Proof.
  unfold heatmapZone_spec. rewrite heatmapZone_unfold.
  destruct (eqb p (of_Z 0)); [reflexivity|].
  pose proof (adjustedDistance_spec_sound p) as H.
  destruct (adjustedDistance_spec p) as [d|]; cbn [mbind option_bind]; [|assumption].
  destruct H as [-> Hn]. now rewrite (zoneOfDistance_spec_sound _ Hn).
Qed.

Lemma zoneOfDistance_mono a b :
  leb a b = true -> (severity (zoneOfDistance a) <= severity (zoneOfDistance b))%nat.
Proof.
  intros Hab. unfold zoneOfDistance.
  destruct (leb b (of_Z 15)) eqn:B15.
  { rewrite (leb_trans _ _ _ Hab B15). cbn [severity]; lia. }
  destruct (leb b (of_Z 30)) eqn:B30.
  { destruct (leb a (of_Z 15)); [cbn [severity]; lia|].
    rewrite (leb_trans _ _ _ Hab B30). cbn [severity]; lia. }
  destruct (leb b (of_Z 50)) eqn:B50.
  { destruct (leb a (of_Z 15)); [cbn [severity]; lia|].
    destruct (leb a (of_Z 30)); [cbn [severity]; lia|].
    rewrite (leb_trans _ _ _ Hab B50). cbn [severity]; lia. }
  destruct (leb a (of_Z 15)); [cbn [severity]; lia|].
  destruct (leb a (of_Z 30)); [cbn [severity]; lia|].
  destruct (leb a (of_Z 50)); cbn [severity]; lia.
Qed.

(** C3: the zone of a percentage is the one the specification's table
    gives (no data at zero; otherwise Good, Mid, Low or High by the
    adjusted distance with breakpoints 15, 30 and 50 and half weight above
    100), the table leaving out only NaN; 100 percent is Good; and among
    percentages other than zero a larger adjusted distance never has a
    lower severity. *)
Theorem heatmapZone_matches_spec :
  (forall p, match heatmapZone_spec p with
             | Some z => heatmapZone p = z
             | None => isNaN p = true
             end) /\
  heatmapZone (of_Z 100) = Good /\
  (forall p q, eqb p (of_Z 0) = false -> eqb q (of_Z 0) = false ->
     leb (adjustedDistance p) (adjustedDistance q) = true ->
     (severity (heatmapZone p) <= severity (heatmapZone q))%nat).
Proof.
  split; [exact heatmapZone_spec_sound|]. split; [reflexivity|].
  intros p q Hp Hq H. rewrite !heatmapZone_unfold, Hp, Hq.
  now apply zoneOfDistance_mono.
Qed.

Lemma heatmapZone_matches_spec_witness :
  heatmapZone_spec (of_Z 70) = Some Mid /\ heatmapZone (of_Z 70) = Mid /\
  (severity (heatmapZone (of_Z 90)) <= severity (heatmapZone (of_Z 160)))%nat.
Proof.
  destruct heatmapZone_matches_spec as (Hs & _ & Hm).
  split; [reflexivity|]. split.
  - exact (Hs (of_Z 70)).
  - apply Hm; reflexivity.
Defined.

End Heatmap.

(** ** Results, loops and maps *)

Section Containers.

Lemma bind_Ok_inv {A B : Type} (m : result A) (f : A -> result B) (b : B) :
  (x ← m; f x) = Ok b -> exists a, m = Ok a /\ f a = Ok b.
Proof. destruct m as [a|e]; [eauto|discriminate]. Qed.

Lemma mapM_Ok {A B : Type} (f : A -> result B) (g : A -> B) (l : list A) :
  (forall x, In x l -> f x = Ok (g x)) -> mapM f l = Ok (map g l).
Proof.
  induction l as [|x l IH]; intros H; [reflexivity|].
  cbn [mapM map]. rewrite (H x (or_introl eq_refl)). cbn [mbind result_bind].
  rewrite IH by (intros y Hy; apply H; now right). reflexivity.
Qed.

Lemma mapM_length {A B : Type} (f : A -> result B) (l : list A) (l' : list B) :
  mapM f l = Ok l' -> length l' = length l.
Proof.
  revert l'. induction l as [|x l IH]; intros l' H.
  - cbn in H. injection H as <-. reflexivity.
  - cbn [mapM] in H. destruct (f x) as [y|e]; cbn [mbind result_bind] in H; [|discriminate].
    destruct (mapM f l) as [k|e]; cbn [mbind result_bind] in H; [|discriminate].
    injection H as <-. cbn. f_equal. now apply IH.
Qed.

Lemma range_length n : length (range n) = Z.to_nat n.
Proof. unfold range. now rewrite length_map, length_seq. Qed.

Lemma in_range n i : In i (range n) <-> 0 <= i < n.
Proof.
  unfold range. rewrite in_map_iff. split.
  - intros (k & <- & Hk). apply in_seq in Hk. lia.
  - intros Hi. exists (Z.to_nat i). split; [lia|]. apply in_seq. lia.
Qed.

Lemma range_nonpositive n : n <= 0 -> range n = [].
Proof. intros H. unfold range. now replace (Z.to_nat n) with 0%nat by lia. Qed.

Lemma NoDup_range n : NoDup (range n).
Proof.
  unfold range. apply NoDup_ListNoDup.
  apply Finite.Injective_map_NoDup; [|apply List.seq_NoDup].
  intros a b. apply Nat2Z.inj.
Qed.

(** A map built by successive [set]s holds, for each key, the value of
    the last element with that key. *)
Lemma foldl_insert_lookup {A V : Type} (key : A -> string) (val : A -> V)
    (l : list A) (m : gmap string V) (k : string) :
  foldl (fun m x => <[key x := val x]> m) m l !! k =
  match lastWithKey key k l with
  | Some x => Some (val x)
  | None => m !! k
  end.
Proof.
  revert m. induction l as [|x l IH]; intros m; [reflexivity|].
  cbn [foldl lastWithKey]. rewrite IH.
  destruct (lastWithKey key k l); [reflexivity|].
  destruct (bool_decide_reflect (key x = k)) as [->|Hne].
  - now rewrite lookup_insert_eq.
  - now rewrite lookup_insert_ne.
Qed.

Lemma lastWithKey_Some {A : Type} (key : A -> string) k (l : list A) x :
  lastWithKey key k l = Some x -> In x l /\ key x = k.
Proof.
  induction l as [|y l IH]; [discriminate|]. cbn [lastWithKey].
  destruct (lastWithKey key k l) as [z|].
  - intros H. injection H as ->. destruct (IH eq_refl). split; [now right|assumption].
  - destruct (bool_decide_reflect (key y = k)); [|discriminate].
    intros H. injection H as ->. split; [now left|assumption].
Qed.

Lemma lastWithKey_None {A : Type} (key : A -> string) k (l : list A) :
  lastWithKey key k l = None <-> forall x, In x l -> key x <> k.
Proof.
  induction l as [|y l IH]; cbn [lastWithKey].
  - split; [intros _ x []|reflexivity].
  - destruct (lastWithKey key k l) as [z|].
    + split; [discriminate|]. intros H. exfalso.
      assert (Hz : Some z = None) by (apply IH; intros x Hx; apply H; now right).
      discriminate.
    + destruct (bool_decide_reflect (key y = k)) as [Heq|Hne].
      * split; [discriminate|]. intros H. exfalso. now apply (H y (or_introl eq_refl)).
      * split; [|reflexivity]. intros _ x [<-|Hx]; [assumption|].
        now apply (proj1 IH eq_refl).
Qed.

Lemma lastWithKey_In {A : Type} (key : A -> string) k (l : list A) :
  (exists x, In x l /\ key x = k) -> exists y, lastWithKey key k l = Some y.
Proof.
  intros (x & Hin & Hk). destruct (lastWithKey key k l) as [y|] eqn:E; [now exists y|].
  exfalso. exact (proj1 (lastWithKey_None key k l) E x Hin Hk).
Qed.

Lemma lastWithKey_NoDup {A : Type} (key : A -> string) (l : list A) x :
  NoDup (map key l) -> In x l -> lastWithKey key (key x) l = Some x.
Proof.
  induction l as [|y l IH]; intros Hnd Hin; [destruct Hin|].
  cbn [map] in Hnd. apply NoDup_cons in Hnd. destruct Hnd as [Hy Hnd].
  cbn [lastWithKey]. destruct Hin as [->|Hin].
  - assert (E : lastWithKey key (key x) l = None).
    { apply lastWithKey_None. intros z Hz Hk. apply Hy.
      rewrite <- Hk. apply list_elem_of_In. now apply in_map. }
    rewrite E. now rewrite bool_decide_eq_true_2.
  - now rewrite (IH Hnd Hin).
Qed.

End Containers.

(** ** The credential table *)

Section Credentials.

Lemma truthy_nonempty s : truthy s = true <-> s <> "".
Proof. destruct s; simpl; split; congruence. Qed.

Lemma addCredential_parseEntry m entry :
  addCredential m entry =
  match parseEntry entry with
  | Some (u, c) => <[u := c]> m
  | None => m
  end.
Proof.
  unfold addCredential, parseEntry.
  destruct (split ":" (trim entry)) as [|u [|pw [|key [|x l]]]]; try reflexivity.
  destruct (truthy u && truthy pw && truthy key); reflexivity.
Qed.

Lemma parseEntry_Some entry u c :
  parseEntry entry = Some (u, c) <->
  split ":" (trim entry) = [u; password c; apiKey c] /\
  u <> "" /\ password c <> "" /\ apiKey c <> "".
Proof.
  unfold parseEntry. rewrite <- !truthy_nonempty.
  destruct (split ":" (trim entry)) as [|u' [|pw [|key [|x l]]]];
    try (split; [discriminate|intros [H _]; discriminate]).
  destruct (truthy u') eqn:Eu, (truthy pw) eqn:Ep, (truthy key) eqn:Ek; cbn [andb];
    (split;
     [ intros H; try discriminate; injection H as <- <-; cbn; auto
     | intros (H & Hu & Hp & Hk); injection H as -> Hpw Hkey; destruct c as [cp ck];
       cbn in *; subst; congruence ]).
Qed.

Lemma foldl_addCredential_lookup (l : list string) (m : gmap string Credential) u :
  foldl addCredential m l !! u =
  match lastWithKey (fun e => match parseEntry e with Some (u', _) => u' | None => "" end)
                    u (filter (fun e => is_Some (parseEntry e)) l) with
  | Some e => snd <$> parseEntry e
  | None => m !! u
  end.
Proof.
  revert m. induction l as [|e l IH]; intros m; [reflexivity|].
  cbn [foldl]. rewrite IH, addCredential_parseEntry.
  rewrite filter_cons. destruct (parseEntry e) as [[u' c]|] eqn:E.
  - rewrite decide_True by eauto. cbn [lastWithKey].
    destruct (lastWithKey _ u (filter _ l)); [reflexivity|].
    rewrite E. destruct (bool_decide_reflect (u' = u)) as [->|Hne].
    + rewrite E. now rewrite lookup_insert_eq.
    + now rewrite lookup_insert_ne.
  - rewrite decide_False by (intros [x Hx]; discriminate). reflexivity.
Qed.

Lemma parseApiKeys_foldl s : parseApiKeys s = foldl addCredential ∅ (split "," s).
Proof. unfold parseApiKeys. destruct s; reflexivity. Qed.

Lemma API_KEYS_MAP_Some env u c :
  API_KEYS_MAP env !! u = Some c ->
  exists entry, In entry (split "," (apiKeysEnv env)) /\ parseEntry entry = Some (u, c).
Proof.
  unfold API_KEYS_MAP. rewrite parseApiKeys_foldl, foldl_addCredential_lookup.
  destruct (lastWithKey _ u _) as [e|] eqn:E; [|rewrite lookup_empty; discriminate].
  apply lastWithKey_Some in E. destruct E as [Hin Hk].
  apply list_elem_of_In, list_elem_of_filter in Hin. destruct Hin as [[[u' c'] Hp] Hin].
  rewrite Hp in Hk |- *. cbn. intros H. injection H as ->. subst u'.
  exists e. split; [now apply list_elem_of_In|assumption].
Qed.

Lemma API_KEYS_MAP_is_Some env entry u c :
  In entry (split "," (apiKeysEnv env)) -> parseEntry entry = Some (u, c) ->
  is_Some (API_KEYS_MAP env !! u).
Proof.
  intros Hin Hp. unfold API_KEYS_MAP. rewrite parseApiKeys_foldl, foldl_addCredential_lookup.
  destruct (lastWithKey_In (fun e => match parseEntry e with Some (u', _) => u' | None => "" end) u
              (filter (fun e => is_Some (parseEntry e)) (split "," (apiKeysEnv env)))) as [y Hy].
  { exists entry. split; [|now rewrite Hp].
    apply list_elem_of_In, list_elem_of_filter. split; [eauto|now apply list_elem_of_In]. }
  rewrite Hy. apply lastWithKey_Some in Hy. destruct Hy as [Hyin _].
  apply list_elem_of_In, list_elem_of_filter in Hyin. destruct Hyin as [[x Hx] _].
  rewrite Hx. cbn. eauto.
Qed.

Lemma getApiKey_truthy env username key : getApiKey env username = Ok key -> truthy username = true.
Proof.
  unfold getApiKey. destruct (API_KEYS_MAP env !! username) as [c|] eqn:E; [|discriminate].
  intros _. apply API_KEYS_MAP_Some in E. destruct E as (entry & _ & Hp).
  apply parseEntry_Some in Hp. now apply truthy_nonempty.
Qed.

Lemma append_nil_l (t : string) : "" ++ t = t.
Proof. reflexivity. Qed.

Lemma append_cons_l a (s t : string) : String a s ++ t = String a (s ++ t).
Proof. reflexivity. Qed.

Lemma trimEnd_trailing s c : isWhiteSpace c = true -> trimEnd (s ++ String c "") = trimEnd s.
Proof.
  intros Hc. induction s as [|a s IH].
  - rewrite append_nil_l. cbn [trimEnd]. now rewrite Hc.
  - rewrite append_cons_l. cbn [trimEnd]. now rewrite IH.
Qed.

Lemma trimStart_trailing s c :
  isWhiteSpace c = true ->
  trimEnd (trimStart (s ++ String c "")) = trimEnd (trimStart s).
Proof.
  intros Hc. induction s as [|a s IH].
  - rewrite append_nil_l. cbn [trimStart]. now rewrite Hc.
  - rewrite append_cons_l. cbn [trimStart]. destruct (isWhiteSpace a); [assumption|].
    rewrite <- append_cons_l. now apply trimEnd_trailing.
Qed.

Lemma trim_whitespace entry c :
  isWhiteSpace c = true ->
  trim (String c entry) = trim entry /\ trim (entry ++ String c "") = trim entry.
Proof.
  intros Hc. split.
  - unfold trim. cbn [trimStart]. now rewrite Hc.
  - unfold trim. now apply trimStart_trailing.
Qed.

End Credentials.

(** C6, as the code has it: only entries of the three-part form
    [identity:accessSecret:apiKey] with three non-empty parts are accepted.
    Every such entry yields a binding for its identity; every binding of
    the table comes from such an entry, so entries of any other shape,
    the two-part form among them, are skipped; and white space before or
    after an entry does not change what the entry contributes. *)
Theorem API_KEYS_MAP_three_part_entries env :
  (forall entry u pw key,
      In entry (split "," (apiKeysEnv env)) ->
      split ":" (trim entry) = [u; pw; key] ->
      u <> "" -> pw <> "" -> key <> "" ->
      is_Some (API_KEYS_MAP env !! u)) /\
  (forall u c,
      API_KEYS_MAP env !! u = Some c ->
      exists entry,
        In entry (split "," (apiKeysEnv env)) /\
        split ":" (trim entry) = [u; password c; apiKey c] /\
        u <> "" /\ password c <> "" /\ apiKey c <> "") /\
  (forall entry ws,
      isWhiteSpace ws = true ->
      trim (String ws entry) = trim entry /\ trim (entry ++ String ws "") = trim entry).
Proof.
  split; [|split].
  - intros entry u pw key Hin Hs Hu Hp Hk.
    apply (API_KEYS_MAP_is_Some env entry u {| password := pw; apiKey := key |} Hin).
    apply parseEntry_Some. cbn. auto.
  - intros u c H. apply API_KEYS_MAP_Some in H. destruct H as (entry & Hin & Hp).
    exists entry. split; [assumption|]. now apply parseEntry_Some.
  - intros entry ws. apply trim_whitespace.
Qed.

Lemma API_KEYS_MAP_three_part_entries_witness :
  is_Some (API_KEYS_MAP utcHost !! "alice").
Proof.
  apply (proj1 (API_KEYS_MAP_three_part_entries utcHost) " alice:secret:key1 " "alice" "secret" "key1").
  - cbn. now left.
  - reflexivity.
  - discriminate.
  - discriminate.
  - discriminate.
Defined.

(** C6 as stated fails: an entry of the two-part form [identity:apiKey]
    is well formed by the stated format and yet leaves no binding. *)
Lemma two_part_entry_is_skipped :
  In "bob:key2" (split "," (apiKeysEnv utcHost)) /\
  split ":" (trim "bob:key2") = ["bob"; "key2"] /\
  API_KEYS_MAP utcHost !! "bob" = None.
Proof. split; [cbn; auto|]. split; reflexivity. Qed.

(** ** The history window *)

Section History.

Lemma validTime_bounds t : validTime t <-> - maxTime <= t <= maxTime.
Proof. unfold validTime. lia. Qed.

Lemma msPerDay_pos : 0 < msPerDay.
Proof. reflexivity. Qed.

Lemma validTime_between a b t : validTime a -> validTime b -> a <= t <= b -> validTime t.
Proof. unfold validTime. lia. Qed.

Lemma TimeClip_inv t u : TimeClip t = Some u -> u = t /\ validTime t.
Proof.
  unfold TimeClip, validTime. destruct (Z.leb_spec (Z.abs t) maxTime) as [Hle|Hgt]; [|discriminate].
  intros E. injection E as <-. now split.
Qed.

Lemma startDate_fixed env c days :
  zone env = fixedZone c -> startDate env days = TimeClip (now env - (days - 1) * msPerDay).
Proof.
  intros Hz. unfold startDate. rewrite Hz.
  replace (getDate (fixedZone c) (now env) - days + 1)
    with (getDate (fixedZone c) (now env) + (1 - days)) by lia.
  rewrite setDate_getDate_fixed. f_equal. lia.
Qed.

Lemma dateStringAt_fixed env c start i :
  zone env = fixedZone c -> validTime (start + i * msPerDay) ->
  dateStringAt env start i = Ok (isoDay (Day start + i)).
Proof.
  intros Hz Hv. unfold dateStringAt. rewrite Hz, setDate_getDate_fixed.
  rewrite TimeClip_Some by exact Hv. cbn [toISODate]. now rewrite Day_shift.
Qed.

Lemma Day_back t k : Day (t - k * msPerDay) = Day t - k.
Proof.
  replace (t - k * msPerDay) with (t + - k * msPerDay) by lia.
  rewrite Day_shift. lia.
Qed.

Lemma window_instant_valid t days i :
  validTime t -> validTime (t - (days - 1) * msPerDay) -> 0 <= i < days ->
  validTime (t - (days - 1) * msPerDay + i * msPerDay).
Proof.
  intros Ht Hs Hi. apply (validTime_between (t - (days - 1) * msPerDay) t); try assumption.
  pose proof msPerDay_pos. nia.
Qed.

Lemma dateStringAt_window env c days i :
  zone env = fixedZone c -> validTime (now env) ->
  validTime (now env - (days - 1) * msPerDay) -> 0 <= i < days ->
  dateStringAt env (now env - (days - 1) * msPerDay) i =
  Ok (isoDay (Day (now env) - (days - 1) + i)).
Proof.
  intros Hz Hnow Hstart Hi.
  rewrite (dateStringAt_fixed env c _ i Hz (window_instant_valid _ _ _ Hnow Hstart Hi)).
  now rewrite Day_back.
Qed.

Lemma historyDates_fixed env c days :
  zone env = fixedZone c -> validTime (now env) ->
  validTime (now env - (days - 1) * msPerDay) ->
  historyDates env days = Ok (map isoDay (windowDays (Day (now env)) days)).
Proof.
  intros Hz Hnow Hstart. unfold historyDates.
  rewrite (startDate_fixed env c days Hz), (TimeClip_Some _ Hstart).
  unfold dateStrings, windowDays. rewrite map_map.
  apply (mapM_Ok (dateStringAt env (now env - (days - 1) * msPerDay))
                 (fun i => isoDay (Day (now env) - (days - 1) + i))).
  intros i Hi. apply in_range in Hi. now apply (dateStringAt_window env c).
Qed.

Lemma fetchDailyTotals_startDate env username days nutritionData :
  fetchDailyTotals env username days = Ok nutritionData ->
  exists start, startDate env days = Some start.
Proof.
  unfold fetchDailyTotals. intros H.
  apply bind_Ok_inv in H. destruct H as (key & _ & H).
  apply bind_Ok_inv in H. destruct H as (uid & _ & H).
  apply bind_Ok_inv in H. destruct H as (e & _ & H).
  apply bind_Ok_inv in H. destruct H as (s & H & _).
  destruct (startDate env days) as [start|]; [eauto|discriminate].
Qed.

Lemma fetchDailyTotals_username env username days nutritionData :
  fetchDailyTotals env username days = Ok nutritionData -> truthy username = true.
Proof.
  unfold fetchDailyTotals. intros H.
  apply bind_Ok_inv in H. destruct H as (key & E & _).
  now apply getApiKey_truthy in E.
Qed.

Lemma fetchDailyTotals_request env username days startDateStr endDateStr :
  toISODate (newDate env) = Ok endDateStr ->
  toISODate (startDate env days) = Ok startDateStr ->
  fetchDailyTotals env username days =
  (apiKey ← getApiKey env username;
   userId ← resolveUserId env apiKey;
   fetchJson (mini_nutrition_trends (upstream env) apiKey userId startDateStr endDateStr)
             FailedToFetchNutritionHistory).
Proof.
  intros He Hs. unfold fetchDailyTotals. cbv zeta. rewrite He, Hs. reflexivity.
Qed.

Lemma toISODate_newDate env : toISODate (newDate env) = Ok (isoDay (Day (now env))).
Proof. reflexivity. Qed.

Lemma toISODate_startDate_fixed env c days :
  zone env = fixedZone c -> validTime (now env - (days - 1) * msPerDay) ->
  toISODate (startDate env days) = Ok (isoDay (Day (now env) - (days - 1))).
Proof.
  intros Hz Hv. rewrite (startDate_fixed env c days Hz), (TimeClip_Some _ Hv).
  cbn [toISODate]. now rewrite Day_back.
Qed.

(** Once the totals have arrived and the date strings are built, nothing
    can fail any more. *)
Lemma fetchNutritionHistory_assemble env username days includeMeals nutritionData dates :
  fetchDailyTotals env username days = Ok nutritionData ->
  historyDates env days = Ok dates ->
  fetchNutritionHistory env username days includeMeals =
  Ok (map (dailyData (indexByDate nutritionData)
             (if includeMeals then indexMeals (fetchAllMeals env username dates) else ∅)
             includeMeals) dates).
Proof. intros Ht Hd. unfold fetchNutritionHistory. now rewrite Ht, Hd. Qed.

Lemma historyDates_length env days dates :
  historyDates env days = Ok dates -> length dates = Z.to_nat days.
Proof.
  unfold historyDates, dateStrings. destruct (startDate env days); [|discriminate].
  intros H. apply mapM_length in H. now rewrite range_length in H.
Qed.

Lemma map_date_dailyData nutritionMap mealsMap includeMeals dates :
  map date (map (dailyData nutritionMap mealsMap includeMeals) dates) = dates.
Proof. rewrite map_map. cbn [dailyData date]. apply map_id. Qed.

Lemma indexByDate_lookup nutritionData k :
  indexByDate nutritionData !! k = lastWithKey und_date k nutritionData.
Proof.
  unfold indexByDate.
  rewrite (foldl_insert_lookup und_date (fun u => u) nutritionData ∅ k), lookup_empty.
  now destruct (lastWithKey und_date k nutritionData).
Qed.

Lemma windowDays_last today days :
  0 < days -> last (windowDays today days) = Some today.
Proof.
  intros H. unfold windowDays, range.
  replace (Z.to_nat days) with (S (Z.to_nat (days - 1))) by lia.
  rewrite seq_S, !map_app. cbn [map]. rewrite last_snoc. f_equal. lia.
Qed.

Lemma last_map {A B : Type} (f : A -> B) (l : list A) : last (map f l) = f <$> last l.
Proof.
  induction l as [|x [|y l] IH]; try reflexivity.
  cbn [map] in *. now rewrite !last_cons_cons.
Qed.

Lemma NoDup_window_dates today days :
  validDay (today - (days - 1)) -> validDay today ->
  NoDup (map isoDay (windowDays today days)).
Proof.
  intros Hs He. unfold windowDays. rewrite map_map.
  apply NoDup_ListNoDup. apply Finite.Injective_map_NoDup_in.
  - intros i j Hi Hj E. apply in_range in Hi, Hj.
    apply isoDay_inj in E; unfold validDay in *; lia.
  - apply NoDup_ListNoDup, NoDup_range.
Qed.

End History.

(** ** Claims about the history aggregation *)


(** C1, as the code has it.  On a host whose offset from UTC does not
    change, for every [days > 0] for which the profile call and the totals
    call succeed, the aggregation returns exactly [days] records; their
    dates are the consecutive UTC calendar days that end on the UTC day of
    the clock, oldest first, each once; and a record whose date is absent
    from the upstream totals has all four nutrient fields equal to 0. *)
Theorem fetchNutritionHistory_window env c username days includeMeals nutritionData :
  0 < days ->
  zone env = fixedZone c ->
  validTime (now env) ->
  fetchDailyTotals env username days = Ok nutritionData ->
  exists history,
    fetchNutritionHistory env username days includeMeals = Ok history /\
    Z.of_nat (length history) = days /\
    map date history = map isoDay (windowDays (Day (now env)) days) /\
    last (map date history) = Some (isoDay (Day (now env))) /\
    NoDup (map date history) /\
    (forall day, In day history ->
       (forall u, In u nutritionData -> und_date u <> date day) ->
       nutrients day = zeroNutrients).
Proof.
  intros Hdays Hz Hnow Ht.
  destruct (fetchDailyTotals_startDate _ _ _ _ Ht) as [start Hs].
  rewrite (startDate_fixed env c days Hz) in Hs. apply TimeClip_inv in Hs.
  destruct Hs as [-> Hstart].
  pose proof (historyDates_fixed env c days Hz Hnow Hstart) as Hd.
  eexists. split; [exact (fetchNutritionHistory_assemble _ _ _ _ _ _ Ht Hd)|].
  rewrite map_date_dailyData. repeat split.
  - rewrite !length_map. unfold windowDays. rewrite length_map, range_length. lia.
  - rewrite last_map, windowDays_last by assumption. reflexivity.
  - apply NoDup_window_dates.
    + replace (Day (now env) - (days - 1)) with (Day (now env + - (days - 1) * msPerDay))
        by (rewrite Day_shift; lia).
      apply TimeClip_validDay. unfold validTime in Hstart.
      now replace (now env + - (days - 1) * msPerDay) with (now env - (days - 1) * msPerDay) by lia.
    + now apply TimeClip_validDay.
  - intros day Hin Habs. apply in_map_iff in Hin. destruct Hin as (d & <- & _).
    cbn [dailyData nutrients date] in *. rewrite indexByDate_lookup.
    replace (lastWithKey und_date d nutritionData) with (@None UpstreamNutritionDay); [reflexivity|].
    symmetry. apply lastWithKey_None. exact Habs.
Qed.

Lemma fetchNutritionHistory_window_witness :
  exists history,
    fetchNutritionHistory utcHost "alice" 3 false = Ok history /\
    map date history = ["2024-03-09"; "2024-03-10"; "2024-03-11"].
Proof.
  destruct (fetchNutritionHistory_window utcHost 0 "alice" 3 false [exampleTotal])
    as (history & H & _ & Hdates & _).
  - lia.
  - reflexivity.
  - apply Z.leb_le. reflexivity.
  - vm_compute. reflexivity.
  - exists history. split; [exact H|]. rewrite Hdates. vm_compute. reflexivity.
Defined.

(** C1 as stated fails: for some [days > 0] the aggregation returns no
    sequence at all.  A window of 10^9 days starts outside the range of
    Date, and the call fails when the start date is formatted. *)
Lemma fetchNutritionHistory_window_too_long :
  0 < 1000000000 /\
  fetchNutritionHistory utcHost "alice" 1000000000 false = Throw RangeError_InvalidTime.
Proof. split; [lia|vm_compute; reflexivity]. Qed.

(** Where the offset changes inside the window, moving a date in local
    time and reading it in UTC repeats a calendar day. *)
Lemma fetchNutritionHistory_repeats_a_day :
  exists history,
    fetchNutritionHistory newYorkHost "alice" 3 false = Ok history /\
    map date history = ["2024-03-10"; "2024-03-10"; "2024-03-11"].
Proof. eexists. split; vm_compute; reflexivity. Qed.

(** C4, as the code has it: [days] is not validated.  For [days <= 0],
    once the profile call and the totals call have succeeded, the
    aggregation returns the empty sequence and the route answers 200 with
    an empty array. *)
Theorem fetchNutritionHistory_nonpositive_days env username days includeMeals nutritionData :
  days <= 0 ->
  fetchDailyTotals env username days = Ok nutritionData ->
  fetchNutritionHistory env username days includeMeals = Ok [] /\
  loader env username days = {| status := 200; body := HistoryJson [] |}.
Proof.
  intros Hdays Ht.
  assert (Hd : historyDates env days = Ok []).
  { destruct (fetchDailyTotals_startDate _ _ _ _ Ht) as [start Hs].
    unfold historyDates, dateStrings. now rewrite Hs, range_nonpositive. }
  assert (H : forall b, fetchNutritionHistory env username days b = Ok []).
  { intros b. now rewrite (fetchNutritionHistory_assemble _ _ _ b _ _ Ht Hd). }
  split; [apply H|].
  unfold loader. rewrite (fetchDailyTotals_username _ _ _ _ Ht), H. reflexivity.
Qed.

Lemma fetchNutritionHistory_nonpositive_days_witness :
  fetchNutritionHistory utcHost "alice" (-2) true = Ok [].
Proof.
  apply (fetchNutritionHistory_nonpositive_days utcHost "alice" (-2) true [exampleTotal]).
  - lia.
  - vm_compute. reflexivity.
Defined.

(** C4 as stated fails: for [days = 0] the aggregation does not fail; it
    returns the empty sequence, and the route answers 200. *)
Lemma fetchNutritionHistory_zero_days :
  0 <= 0 /\
  fetchNutritionHistory utcHost "alice" 0 false = Ok [] /\
  status (loader utcHost "alice" 0) = 200.
Proof. split; [lia|]. split; vm_compute; reflexivity. Qed.



Lemma indexMeals_lookup env username dates d :
  In d dates ->
  indexMeals (fetchAllMeals env username dates) !! d =
  Some (catch (fetchFoodEntriesForDate env username d) emptyMeals).
Proof.
  intros Hin. unfold indexMeals, fetchAllMeals.
  rewrite (foldl_insert_lookup fst snd).
  destruct (lastWithKey_In fst d
              (map (fun dateStr => (dateStr, catch (fetchFoodEntriesForDate env username dateStr) emptyMeals)) dates))
    as [r Hr].
  { eexists. split; [apply in_map; exact Hin|reflexivity]. }
  rewrite Hr. apply lastWithKey_Some in Hr. destruct Hr as [Hrin Hk].
  apply in_map_iff in Hrin. destruct Hrin as (d' & <- & _). cbn in Hk. now subst d'.
Qed.

(** With meals included, every record carries the breakdown fetched for
    its date, or the empty breakdown when that fetch failed. *)
Lemma fetchNutritionHistory_meals env username days nutritionData dates :
  fetchDailyTotals env username days = Ok nutritionData ->
  historyDates env days = Ok dates ->
  exists history,
    fetchNutritionHistory env username days true = Ok history /\
    map date history = dates /\
    forall day, In day history ->
      meals day = Some (catch (fetchFoodEntriesForDate env username (date day)) emptyMeals).
Proof.
  intros Ht Hd. eexists. split; [exact (fetchNutritionHistory_assemble _ _ _ true _ _ Ht Hd)|].
  split; [apply map_date_dailyData|].
  intros day Hin. apply in_map_iff in Hin. destruct Hin as (d & <- & Hd').
  cbn [dailyData meals date]. now rewrite (indexMeals_lookup _ _ _ _ Hd').
Qed.

(** C5: with meals included, if the food-entries fetch fails for one date
    and succeeds for every other date of the window, the aggregation
    still succeeds with one record for each of the [days] dates; the
    record of the failed date has the empty breakdown and every other
    record has the breakdown fetched for its date. *)
Theorem meal_fetch_failure_is_isolated env username days nutritionData dates failed e :
  fetchDailyTotals env username days = Ok nutritionData ->
  historyDates env days = Ok dates ->
  fetchFoodEntriesForDate env username failed = Throw e ->
  (forall d, In d dates -> d <> failed ->
     exists m, fetchFoodEntriesForDate env username d = Ok m) ->
  exists history,
    fetchNutritionHistory env username days true = Ok history /\
    length history = Z.to_nat days /\
    map date history = dates /\
    forall day, In day history ->
      if decide (date day = failed) then meals day = Some emptyMeals
      else exists m, fetchFoodEntriesForDate env username (date day) = Ok m /\ meals day = Some m.
Proof.
  intros Ht Hd Hfail Hothers.
  destruct (fetchNutritionHistory_meals _ _ _ _ _ Ht Hd) as (history & H & Hdates & Hmeals).
  exists history. split; [exact H|]. split; [|split; [exact Hdates|]].
  - rewrite <- (length_map date), Hdates. now apply historyDates_length in Hd.
  - intros day Hin. specialize (Hmeals day Hin).
    destruct (decide (date day = failed)) as [Heq|Hne].
    + now rewrite Hmeals, Heq, Hfail.
    + destruct (Hothers (date day)) as [m Hm]; [|assumption|].
      * rewrite <- Hdates. now apply in_map.
      * exists m. split; [assumption|]. now rewrite Hmeals, Hm.
Qed.

Lemma meal_fetch_failure_is_isolated_witness :
  exists history,
    fetchNutritionHistory utcHost "alice" 3 true = Ok history /\
    length history = 3%nat /\
    map date history = ["2024-03-09"; "2024-03-10"; "2024-03-11"] /\
    forall day, In day history ->
      if decide (date day = "2024-03-10") then meals day = Some emptyMeals
      else exists m, fetchFoodEntriesForDate utcHost "alice" (date day) = Ok m /\ meals day = Some m.
Proof.
  apply (meal_fetch_failure_is_isolated utcHost "alice" 3 [exampleTotal]
           ["2024-03-09"; "2024-03-10"; "2024-03-11"] "2024-03-10" FailedToFetchFoodEntries).
  - vm_compute. reflexivity.
  - vm_compute. reflexivity.
  - vm_compute. reflexivity.
  - intros d [<-|[<-|[<-|[]]]] Hne; try (eexists; vm_compute; reflexivity). now contradict Hne.
Defined.

(** C8, as the code has it: the daily totals are rounded too.  Every
    record of the result whose date has an upstream total carries that
    total with each of the four nutrient fields rounded to one decimal
    place; should the upstream send several totals for one date, the last
    one counts. *)
Theorem daily_totals_are_rounded env username days includeMeals nutritionData history :
  fetchDailyTotals env username days = Ok nutritionData ->
  fetchNutritionHistory env username days includeMeals = Ok history ->
  (forall day u, In day history -> indexByDate nutritionData !! date day = Some u ->
     In u nutritionData /\ und_date u = date day /\
     calories (nutrients day) = round1 (und_calories u) /\
     protein (nutrients day) = round1 (und_protein u) /\
     carbs (nutrients day) = round1 (und_carbs u) /\
     fat (nutrients day) = round1 (und_fat u)) /\
  (NoDup (map und_date nutritionData) ->
   forall day u, In day history -> In u nutritionData -> und_date u = date day ->
     nutrients day = roundNutrients u).
Proof.
  intros Ht H.
  assert (Hh : exists dates, history = map (dailyData (indexByDate nutritionData)
             (if includeMeals then indexMeals (fetchAllMeals env username dates) else ∅)
             includeMeals) dates).
  { destruct (historyDates env days) as [dates|err] eqn:Hd.
    - rewrite (fetchNutritionHistory_assemble _ _ _ includeMeals _ _ Ht Hd) in H.
      injection H as <-. now exists dates.
    - unfold fetchNutritionHistory in H. rewrite Ht, Hd in H. discriminate. }
  destruct Hh as [dates ->]. split.
  - intros day u Hin Hu. apply in_map_iff in Hin. destruct Hin as (d & <- & _).
    cbn [dailyData nutrients date] in *. rewrite Hu.
    rewrite indexByDate_lookup in Hu. apply lastWithKey_Some in Hu.
    destruct Hu as [Hin Hk]. repeat split; assumption.
  - intros Hnd day u Hin Hu Hk. apply in_map_iff in Hin. destruct Hin as (d & <- & _).
    cbn [dailyData nutrients date] in *. subst d.
    now rewrite indexByDate_lookup, (lastWithKey_NoDup und_date _ _ Hnd Hu).
Qed.

Lemma daily_totals_are_rounded_witness :
  exists history day,
    fetchNutritionHistory utcHost "alice" 3 false = Ok history /\
    In day history /\
    date day = "2024-03-10" /\
    calories (nutrients day) = round1 (und_calories exampleTotal).
Proof.
  pose (history := map (dailyData (indexByDate [exampleTotal]) ∅ false)
                       ["2024-03-09"; "2024-03-10"; "2024-03-11"]).
  assert (Ht : fetchDailyTotals utcHost "alice" 3 = Ok [exampleTotal]) by (vm_compute; reflexivity).
  assert (H : fetchNutritionHistory utcHost "alice" 3 false = Ok history) by (vm_compute; reflexivity).
  exists history, (dailyData (indexByDate [exampleTotal]) ∅ false "2024-03-10").
  split; [exact H|]. split; [right; left; reflexivity|]. split; [reflexivity|].
  refine (proj1 (proj2 (proj2
    (proj1 (daily_totals_are_rounded utcHost "alice" 3 false [exampleTotal] history Ht H)
       _ exampleTotal _ _)))).
  - right; left; reflexivity.
  - vm_compute. reflexivity.
Defined.

(** C8 as stated fails: the upstream total of 1234.56 kcal for 2024-03-10
    comes out as 1234.6. *)
Lemma daily_total_is_not_passed_through :
  exists history day,
    fetchNutritionHistory utcHost "alice" 3 false = Ok history /\
    In day history /\
    date day = und_date exampleTotal /\
    calories (nutrients day) = decimal 12346 1 /\
    calories (nutrients day) <> und_calories exampleTotal.
Proof.
  eexists. eexists. split; [vm_compute; reflexivity|]. split; [right; left; reflexivity|].
  split; [reflexivity|]. split; [vm_compute; reflexivity|]. vm_compute. discriminate.
Qed.



Lemma goalsTargetDate_default env :
  goalsTargetDate env None = Ok (isoDay (Day (now env))).
Proof. reflexivity. Qed.

Lemma dateStringAt_utc env :
  forall start i dateStr, dateStringAt env start i = Ok dateStr ->
    exists t, setDate (zone env) start (getDate (zone env) start + i) = Some t /\
              dateStr = isoDay (Day t).
Proof.
  intros start i dateStr. unfold dateStringAt.
  destruct (setDate (zone env) start (getDate (zone env) start + i)) as [t|].
  - cbn [toISODate]. intros H. exists t. split; [reflexivity|]. congruence.
  - cbn [toISODate]. intros H. discriminate H.
Qed.

(** C9, as the code has it: every calendar-day string is the UTC calendar
    day of an instant.  The end of the window and the default date of the
    goals are the UTC day of the clock; the keys of a window are the UTC
    days of its instants; and on a host whose offset from UTC does not
    change, the totals are requested from [today - (days - 1)] to [today]
    in UTC calendar days. *)
Theorem calendar_days_are_utc env :
  toISODate (newDate env) = Ok (isoDay (Day (now env))) /\
  goalsTargetDate env None = Ok (isoDay (Day (now env))) /\
  (forall start i dateStr, dateStringAt env start i = Ok dateStr ->
     exists t, setDate (zone env) start (getDate (zone env) start + i) = Some t /\
               dateStr = isoDay (Day t)) /\
  (forall c days username,
     zone env = fixedZone c ->
     validTime (now env - (days - 1) * msPerDay) ->
     toISODate (startDate env days) = Ok (isoDay (Day (now env) - (days - 1))) /\
     fetchDailyTotals env username days =
       (apiKey ← getApiKey env username;
        userId ← resolveUserId env apiKey;
        fetchJson (mini_nutrition_trends (upstream env) apiKey userId
                     (isoDay (Day (now env) - (days - 1))) (isoDay (Day (now env))))
                  FailedToFetchNutritionHistory)).
Proof.
  split; [exact (toISODate_newDate env)|]. split; [exact (goalsTargetDate_default env)|].
  split; [exact (dateStringAt_utc env)|].
  intros c days username Hz Hv.
  pose proof (toISODate_startDate_fixed env c days Hz Hv) as Hs.
  split; [exact Hs|].
  exact (fetchDailyTotals_request env username days _ _ (toISODate_newDate env) Hs).
Qed.

Lemma calendar_days_are_utc_witness :
  toISODate (startDate jakartaHost 7) = Ok "2024-03-05".
Proof.
  refine (eq_trans (proj1 (proj2 (proj2 (proj2 (calendar_days_are_utc jakartaHost)))
                              25200000 7 "alice" _ _)) _).
  - reflexivity.
  - apply Z.leb_le. vm_compute. reflexivity.
  - vm_compute. reflexivity.
Defined.

(** C9 as stated fails: at 01:00 on 2024-03-12 local time on a host at
    UTC+7, the window of the history ends on 2024-03-11 and the goals
    default to 2024-03-11, the UTC day. *)
Lemma window_ends_on_the_utc_day :
  localISODate (zone jakartaHost) (now jakartaHost) = "2024-03-12" /\
  toISODate (newDate jakartaHost) = Ok "2024-03-11" /\
  goalsTargetDate jakartaHost None = Ok "2024-03-11" /\
  (exists history,
     fetchNutritionHistory jakartaHost "alice" 2 false = Ok history /\
     map date history = ["2024-03-10"; "2024-03-11"]).
Proof.
  split; [vm_compute; reflexivity|]. split; [vm_compute; reflexivity|].
  split; [vm_compute; reflexivity|].
  eexists. split; vm_compute; reflexivity.
Qed.


(** ** Food entries *)


Lemma bucket_cons k e entries :
  bucket k (e :: entries) =
  if decide (meal_type e = k) then toFoodItem e :: bucket k entries else bucket k entries.
Proof.
  unfold bucket. rewrite filter_cons. now destruct (decide (meal_type e = k)).
Qed.

Lemma pushMeal_lookup m k item m' :
  pushMeal m k item = Ok m' ->
  forall k', m' !! k' =
    if decide (k = k') then Some (default [] (m !! k) ++ [item])%list else m !! k'.
Proof.
  unfold pushMeal. intros H k'.
  destruct (m !! k) as [items|] eqn:E.
  - injection H as <-. destruct (decide (k = k')) as [<-|Hne].
    + now rewrite lookup_insert_eq.
    + now rewrite lookup_insert_ne.
  - destruct (bool_decide (k ∈ objectPrototypeKeys)); [discriminate|].
    injection H as <-. destruct (decide (k = k')) as [<-|Hne].
    + now rewrite lookup_insert_eq.
    + now rewrite lookup_insert_ne.
Qed.

Lemma foldlM_pushMeal_lookup entries m m' :
  foldlM (fun meals entry => pushMeal meals (meal_type entry) (toFoodItem entry)) m entries = Ok m' ->
  forall k, default [] (m' !! k) = (default [] (m !! k) ++ bucket k entries)%list /\
            (is_Some (m !! k) -> is_Some (m' !! k)).
Proof.
  revert m. induction entries as [|e es IH]; intros m H k.
  - cbn in H. injection H as <-. cbn. rewrite app_nil_r. auto.
  - cbn [foldlM] in H.
    destruct (pushMeal m (meal_type e) (toFoodItem e)) as [m1|] eqn:E1;
      cbn [mbind result_bind] in H; [|discriminate].
    destruct (IH m1 H k) as [IH1 IH2].
    pose proof (pushMeal_lookup _ _ _ _ E1 k) as Hk.
    rewrite bucket_cons. destruct (decide (meal_type e = k)) as [Heq|Hne].
    + subst k. split.
      * rewrite IH1, Hk. cbn. now rewrite <- app_assoc.
      * intros _. apply IH2. rewrite Hk. eauto.
    + rewrite Hk in IH1, IH2. now split.
Qed.

Lemma groupEntries_lookup entries meals :
  groupEntries entries = Ok meals ->
  forall k, default [] (meals !! k) = bucket k entries.
Proof.
  intros H k. destruct (foldlM_pushMeal_lookup _ _ _ H k) as [-> _].
  assert (E : default [] (emptyMeals !! k) = @nil FoodItem).
  { unfold emptyMeals. rewrite !lookup_insert.
    repeat (case_decide; [reflexivity|]). now rewrite lookup_empty. }
  now rewrite E.
Qed.

Lemma foldlM_pushMeal_Ok entries m :
  (forall e, In e entries -> meal_type e ∉ objectPrototypeKeys) ->
  exists m', foldlM (fun meals entry => pushMeal meals (meal_type entry) (toFoodItem entry)) m entries = Ok m'.
Proof.
  revert m. induction entries as [|e es IH]; intros m H; [now exists m|].
  cbn [foldlM].
  assert (E : exists m1, pushMeal m (meal_type e) (toFoodItem e) = Ok m1).
  { unfold pushMeal. destruct (m !! meal_type e); [eauto|].
    rewrite bool_decide_eq_false_2 by (apply H; now left). eauto. }
  destruct E as [m1 ->]. cbn [mbind result_bind]. apply IH.
  intros e' He'. apply H. now right.
Qed.

Lemma fetchFoodEntriesForDate_entries env username date key status entries :
  getApiKey env username = Ok key ->
  food_entries_by_date (upstream env) key date = HttpResponse status (Some entries) ->
  ok status = true ->
  fetchFoodEntriesForDate env username date = groupEntries entries.
Proof.
  intros Hk Hr Hok. unfold fetchFoodEntriesForDate.
  rewrite Hk. cbn [mbind result_bind]. now rewrite Hr, Hok.
Qed.

Lemma In_bucket entry entries : In entry entries -> In (toFoodItem entry) (bucket (meal_type entry) entries).
Proof.
  intros H. unfold bucket. apply in_map. apply list_elem_of_In, list_elem_of_filter.
  split; [reflexivity|now apply list_elem_of_In].
Qed.



Lemma toFoodItem_zero_serving entry :
  eqb (serving_size entry) (of_Z 0) = true ->
  isFinite (fi_calories (toFoodItem entry)) = false /\
  isFinite (fi_protein (toFoodItem entry)) = false /\
  isFinite (fi_carbs (toFoodItem entry)) = false /\
  isFinite (fi_fat (toFoodItem entry)) = false.
Proof.
  intros H. pose proof (div_by_zero_nonFinite (quantity entry) _ H) as Hr.
  assert (G : forall v, isFinite (round1 (mul v (div (quantity entry) (serving_size entry)))) = false).
  { intros v. apply negb_true_iff. apply round1_nonFinite. now apply mul_nonFinite. }
  cbn [toFoodItem fi_calories fi_protein fi_carbs fi_fat]. repeat split; apply G.
Qed.

(** C10: the division by [serving_size] is not guarded.  For every
    successful food-entries response, an entry whose [serving_size] is
    zero does not make the call fail (given meal types that are ordinary
    property names); its food item is returned in its bucket with
    calories, protein, carbs and fat all non-finite: Infinity or NaN. *)
Theorem zero_serving_size_gives_non_finite_values env username date key status entries entry :
  getApiKey env username = Ok key ->
  food_entries_by_date (upstream env) key date = HttpResponse status (Some entries) ->
  ok status = true ->
  (forall e, In e entries -> meal_type e ∉ objectPrototypeKeys) ->
  In entry entries ->
  eqb (serving_size entry) (of_Z 0) = true ->
  exists meals items,
    fetchFoodEntriesForDate env username date = Ok meals /\
    meals !! meal_type entry = Some items /\
    In (toFoodItem entry) items /\
    isFinite (fi_calories (toFoodItem entry)) = false /\
    isFinite (fi_protein (toFoodItem entry)) = false /\
    isFinite (fi_carbs (toFoodItem entry)) = false /\
    isFinite (fi_fat (toFoodItem entry)) = false.
Proof.
  intros Hk Hr Hok Hkeys Hin Hzero.
  rewrite (fetchFoodEntriesForDate_entries _ _ _ _ _ _ Hk Hr Hok).
  destruct (foldlM_pushMeal_Ok entries emptyMeals Hkeys) as [meals Hm].
  pose proof (groupEntries_lookup _ _ Hm (meal_type entry)) as Hb.
  pose proof (In_bucket _ _ Hin) as Hi. rewrite <- Hb in Hi.
  destruct (meals !! meal_type entry) as [items|] eqn:E; [|destruct Hi].
  exists meals, items. split; [exact Hm|]. split; [exact E|]. split; [exact Hi|].
  now apply toFoodItem_zero_serving.
Qed.

Lemma zero_serving_size_gives_non_finite_values_witness :
  exists meals items,
    fetchFoodEntriesForDate utcHost "alice" "2024-03-09" = Ok meals /\
    meals !! "snack" = Some items /\
    In (toFoodItem zeroServingEntry) items /\
    isFinite (fi_calories (toFoodItem zeroServingEntry)) = false /\
    isFinite (fi_protein (toFoodItem zeroServingEntry)) = false /\
    isFinite (fi_carbs (toFoodItem zeroServingEntry)) = false /\
    isFinite (fi_fat (toFoodItem zeroServingEntry)) = false.
Proof.
  apply (zero_serving_size_gives_non_finite_values utcHost "alice" "2024-03-09" "key1" 200
           [zeroServingEntry] zeroServingEntry).
  - vm_compute. reflexivity.
  - vm_compute. reflexivity.
  - reflexivity.
  - intros e [<-|[]]. apply (bool_decide_eq_false_1 (meal_type zeroServingEntry ∈ objectPrototypeKeys)).
    vm_compute. reflexivity.
  - now left.
  - vm_compute. reflexivity.
Defined.

(** The values are +Infinity where the per-serving value is positive and
    NaN where it is zero. *)
Lemma zero_serving_size_example :
  fi_calories (toFoodItem zeroServingEntry) = Infinity /\
  fi_protein (toFoodItem zeroServingEntry) = NaN.
Proof. split; vm_compute; reflexivity. Qed.


(** ** The streak *)

Section Streak.

Lemma indexHistory_lookup history k :
  indexHistory history !! k = lastWithKey date k history.
Proof.
  unfold indexHistory.
  rewrite (foldl_insert_lookup date (fun d => d) history ∅ k), lookup_empty.
  now destruct (lastWithKey date k history).
Qed.

Lemma foldl_insert_size {A V : Type} (key : A -> string) (val : A -> V)
    (l : list A) (m : gmap string V) :
  (size (foldl (fun m x => <[key x := val x]> m) m l) <= size m + length l)%nat.
Proof.
  revert m. induction l as [|x l IH]; intros m; cbn [foldl length]; [lia|].
  specialize (IH (<[key x := val x]> m)). rewrite map_size_insert in IH.
  destruct (m !! key x); unfold id in IH; lia.
Qed.

Lemma indexHistory_size history : (size (indexHistory history) <= length history)%nat.
Proof.
  unfold indexHistory.
  pose proof (foldl_insert_size date (fun d => d) history ∅) as H.
  now rewrite map_size_empty in H.
Qed.

(** A map cannot hold more distinct keys than it has entries. *)
Lemma distinct_keys_bound {V : Type} (m : gmap string V) (keys : list string) :
  NoDup keys -> (forall k, In k keys -> is_Some (m !! k)) -> (length keys <= size m)%nat.
Proof.
  intros Hnd Hin. rewrite <- (size_list_to_set (C := gset string) keys Hnd), <- size_dom.
  apply subseteq_size. intros k Hk. apply elem_of_list_to_set, list_elem_of_In in Hk.
  apply elem_of_dom. now apply Hin.
Qed.

Lemma tracked_is_Some m k : tracked m k = true -> is_Some (m !! k).
Proof. unfold tracked. destruct (m !! k); [eauto|discriminate]. Qed.

(** The loop never runs out of fuel, in any zone. *)
Lemma streakLoop_terminates tz m len fuel currentDate j :
  (j <= len)%nat -> (fuel + j = S len)%nat ->
  exists r, streakLoop tz m len fuel currentDate j = Some r.
Proof.
  revert currentDate j. induction fuel as [|fuel IH]; intros currentDate j Hj Hf; [lia|].
  cbn [streakLoop]. destruct currentDate as [t|]; cbn [toISODate]; [|eauto].
  destruct (m !! isoDay (Day t)) as [dayData|]; [|eauto].
  destruct (eqb (calories (nutrients dayData)) (of_Z 0)); [eauto|].
  destruct (Nat.ltb_spec len (S j)); [eauto|].
  apply IH; lia.
Qed.

Lemma calculateStreakAndTotalDays_terminates env history :
  exists r, calculateStreakAndTotalDays env history = Some r.
Proof.
  unfold calculateStreakAndTotalDays.
  destruct (streakLoop_terminates (zone env) (indexHistory history) (length history)
              (S (length history)) (newDate env) 0) as [r ->]; [lia|lia|].
  cbn. eauto.
Qed.

(** On a host with a fixed offset the loop visits the UTC days
    [today], [today - 1], ... and stops at the first one that is not
    tracked, or when the streak exceeds [len]. *)
Lemma streakLoop_fixed c m len t0 fuel j :
  (forall i, 0 <= i <= Z.of_nat len + 1 -> validTime (t0 - i * msPerDay)) ->
  (j <= len)%nat -> (fuel + j = S len)%nat ->
  (forall i, (i < j)%nat -> tracked m (isoDay (Day t0 - Z.of_nat i)) = true) ->
  exists k,
    streakLoop (fixedZone c) m len fuel (Some (t0 - Z.of_nat j * msPerDay)) j = Some (Ok k) /\
    (k <= S len)%nat /\
    (forall i, (i < k)%nat -> tracked m (isoDay (Day t0 - Z.of_nat i)) = true) /\
    ((k <= len)%nat -> tracked m (isoDay (Day t0 - Z.of_nat k)) = false).
Proof.
  intros Hv. revert j. induction fuel as [|fuel IH]; intros j Hj Hf Hprev; [lia|].
  cbn [streakLoop toISODate].
  assert (Hday : Day (t0 - Z.of_nat j * msPerDay) = Day t0 - Z.of_nat j).
  { replace (t0 - Z.of_nat j * msPerDay) with (t0 + - Z.of_nat j * msPerDay) by lia.
    rewrite Day_shift. lia. }
  rewrite Hday.
  assert (Hstop : tracked m (isoDay (Day t0 - Z.of_nat j)) = false ->
                  exists k, Some (Ok j) = Some (Ok k) /\ (k <= S len)%nat /\
                    (forall i, (i < k)%nat -> tracked m (isoDay (Day t0 - Z.of_nat i)) = true) /\
                    ((k <= len)%nat -> tracked m (isoDay (Day t0 - Z.of_nat k)) = false)).
  { intros Hn. exists j. repeat split; auto. }
  destruct (m !! isoDay (Day t0 - Z.of_nat j)) as [dayData|] eqn:El.
  - destruct (eqb (calories (nutrients dayData)) (of_Z 0)) eqn:Ez.
    + apply Hstop. unfold tracked. now rewrite El, Ez.
    + assert (Ht : tracked m (isoDay (Day t0 - Z.of_nat j)) = true).
      { unfold tracked. now rewrite El, Ez. }
      assert (Hnext : forall i, (i < S j)%nat -> tracked m (isoDay (Day t0 - Z.of_nat i)) = true).
      { intros i Hi. destruct (Nat.eq_dec i j) as [->|Hne]; [exact Ht|]. apply Hprev. lia. }
      replace (getDate (fixedZone c) (t0 - Z.of_nat j * msPerDay) - 1)
        with (getDate (fixedZone c) (t0 - Z.of_nat j * msPerDay) + -1) by lia.
      rewrite setDate_getDate_fixed.
      replace (t0 - Z.of_nat j * msPerDay + -1 * msPerDay)
        with (t0 - Z.of_nat (S j) * msPerDay) by lia.
      rewrite TimeClip_Some by (apply Hv; lia).
      destruct (Nat.ltb_spec len (S j)).
      * exists (S j). repeat split; auto; lia.
      * apply IH; [lia|lia|exact Hnext].
  - apply Hstop. unfold tracked. now rewrite El.
Qed.

Lemma NoDup_days_back today n :
  validDay today -> validDay (today - Z.of_nat n) ->
  NoDup (map (fun i => isoDay (today - Z.of_nat i)) (seq 0 (S n))).
Proof.
  intros H1 H2. apply NoDup_ListNoDup. apply Finite.Injective_map_NoDup_in.
  - intros i j Hi Hj E. apply in_seq in Hi, Hj.
    apply isoDay_inj in E; unfold validDay in *; lia.
  - apply List.seq_NoDup.
Qed.

(** More tracked days in a row than the history has records is
    impossible when the days are distinct dates. *)
Lemma tracked_run_bound history today k :
  validDay today -> validDay (today - Z.of_nat (length history)) ->
  (k <= S (length history))%nat ->
  (forall i, (i < k)%nat -> tracked (indexHistory history) (isoDay (today - Z.of_nat i)) = true) ->
  (k <= length history)%nat.
Proof.
  intros H1 H2 Hk Ht.
  destruct (Nat.le_gt_cases k (length history)) as [|Hgt]; [assumption|exfalso].
  assert (k = S (length history)) as -> by lia.
  pose proof (distinct_keys_bound (indexHistory history)
                (map (fun i => isoDay (today - Z.of_nat i)) (seq 0 (S (length history))))
                (NoDup_days_back _ _ H1 H2)) as Hb.
  rewrite length_map, length_seq in Hb.
  pose proof (indexHistory_size history).
  assert (S (length history) <= size (indexHistory history))%nat; [|lia].
  apply Hb. intros key Hin. apply in_map_iff in Hin. destruct Hin as (i & <- & Hi).
  apply in_seq in Hi. apply tracked_is_Some, Ht. lia.
Qed.

Lemma first_untracked_unique (T : nat -> bool) k n :
  (forall i, (i < k)%nat -> T i = true) -> T k = false ->
  (forall i, (i < n)%nat -> T i = true) -> T n = false -> k = n.
Proof.
  intros Hk1 Hk2 Hn1 Hn2. destruct (Nat.lt_trichotomy k n) as [H|[H|H]]; [|assumption|].
  - rewrite (Hn1 k H) in Hk2. discriminate.
  - rewrite (Hk1 n H) in Hn2. discriminate.
Qed.

Lemma nonnegative_nonzero_positive x :
  leb (of_Z 0) x = true -> eqb x (of_Z 0) = false -> gtb x (of_Z 0) = true.
Proof.
  unfold leb, eqb, gtb, SFleb, SFeqb, SFltb. rewrite (SFcompare_antisym (of_Z 0) x).
  destruct (SFcompare (of_Z 0) x) as [[]|]; simpl; congruence.
Qed.

Lemma consecutivePositiveDays_spec m today n :
  let r := consecutivePositiveDays m today n in
  (r <= n)%nat /\
  (forall i, (i < r)%nat ->
     exists d, m !! isoDay (today - Z.of_nat i) = Some d /\ gtb (calories (nutrients d)) (of_Z 0) = true) /\
  ((r < n)%nat ->
     forall d, m !! isoDay (today - Z.of_nat r) = Some d -> gtb (calories (nutrients d)) (of_Z 0) = false).
Proof.
  revert today. induction n as [|n IH]; intros today; cbn [consecutivePositiveDays].
  - split; [lia|]. split; intros; lia.
  - destruct (m !! isoDay today) as [d|] eqn:E.
    + destruct (gtb (calories (nutrients d)) (of_Z 0)) eqn:G.
      * destruct (IH (today - 1)) as (H1 & H2 & H3). cbv zeta.
        split; [lia|]. split.
        -- intros [|i] Hi.
           ++ exists d. rewrite Z.sub_0_r. now split.
           ++ destruct (H2 i ltac:(lia)) as (d' & Hd' & Hg). exists d'.
              replace (today - Z.of_nat (S i)) with (today - 1 - Z.of_nat i) by lia. now split.
        -- intros Hlt d' Hd'.
           replace (today - Z.of_nat (S (consecutivePositiveDays m (today - 1) n)))
             with (today - 1 - Z.of_nat (consecutivePositiveDays m (today - 1) n)) in Hd' by lia.
           apply (H3 ltac:(lia) d' Hd').
      * cbv zeta. split; [lia|]. split; [intros; lia|].
        intros _ d' Hd'. rewrite Z.sub_0_r, E in Hd'. now injection Hd' as <-.
    + cbv zeta. split; [lia|]. split; [intros; lia|].
      intros _ d' Hd'. rewrite Z.sub_0_r, E in Hd'. discriminate.
Qed.

End Streak.


(** C2, as the code has it.  [totalDays] is the number of records with
    [calories > 0], wherever they are.  On a host whose offset from UTC
    does not change, [currentStreak] is the number of consecutive UTC
    calendar days, counted backward from today inclusive, that have a
    record whose calories are not equal to 0; the count stops at the first
    day that is missing or has zero calories and is at most the length of
    the history.  When no record has negative calories this is the number
    of consecutive days with [calories > 0]; and when the five most recent
    days have [calories > 0] and the sixth has [calories == 0], the streak
    is 5. *)
Theorem calculateStreakAndTotalDays_spec env c history :
  zone env = fixedZone c ->
  validTime (now env) ->
  validTime (now env - (Z.of_nat (length history) + 1) * msPerDay) ->
  let today := Day (now env) in
  let nutritionMap := indexHistory history in
  exists k,
    calculateStreakAndTotalDays env history =
      Some (Ok {| currentStreak := k;
                  totalDays := length (filter (fun day => gtb (calories (nutrients day)) (of_Z 0) = true)
                                              history) |}) /\
    (k <= length history)%nat /\
    (forall i, (i < k)%nat -> tracked nutritionMap (isoDay (today - Z.of_nat i)) = true) /\
    tracked nutritionMap (isoDay (today - Z.of_nat k)) = false /\
    ((forall day, In day history -> leb (of_Z 0) (calories (nutrients day)) = true) ->
     k = consecutivePositiveDays nutritionMap today (length history)) /\
    ((forall i, (i < 5)%nat ->
        exists day, nutritionMap !! isoDay (today - Z.of_nat i) = Some day /\
                    gtb (calories (nutrients day)) (of_Z 0) = true) ->
     (exists day, nutritionMap !! isoDay (today - 5) = Some day /\
                  eqb (calories (nutrients day)) (of_Z 0) = true) ->
     k = 5%nat).
Proof.
  intros Hz Hnow Hback. cbv zeta.
  set (today := Day (now env)). set (nutritionMap := indexHistory history).
  set (T := fun i : nat => tracked nutritionMap (isoDay (today - Z.of_nat i))).
  assert (Hv : forall i, 0 <= i <= Z.of_nat (length history) + 1 ->
                 validTime (now env - i * msPerDay)).
  { intros i Hi.
    apply (validTime_between (now env - (Z.of_nat (length history) + 1) * msPerDay) (now env));
      try assumption.
    pose proof msPerDay_pos. nia. }
  destruct (streakLoop_fixed c nutritionMap (length history) (now env) (S (length history)) 0 Hv)
    as (k & Hloop & Hk & Ht & Hstop); [lia|lia|intros i Hi; lia|].
  replace (now env - Z.of_nat 0 * msPerDay) with (now env) in Hloop by lia.
  fold today in Ht, Hstop.
  assert (Hle : (k <= length history)%nat).
  { apply (tracked_run_bound history today k); [| |exact Hk|exact Ht].
    - now apply TimeClip_validDay.
    - unfold today. rewrite <- Day_back. apply TimeClip_validDay. apply Hv. lia. }
  specialize (Hstop Hle).
  exists k. split; [|split; [exact Hle|split; [exact Ht|split; [exact Hstop|split]]]].
  - unfold calculateStreakAndTotalDays, newDate. rewrite Hz.
    fold nutritionMap. rewrite Hloop. reflexivity.
  - intros Hnonneg.
    pose proof (consecutivePositiveDays_spec nutritionMap today (length history)) as Hs.
    cbv zeta in Hs. set (r := consecutivePositiveDays nutritionMap today (length history)) in *.
    destruct Hs as (Hr & Hpos & Hend).
    assert (Hrt : forall i, (i < r)%nat -> T i = true).
    { intros i Hi. destruct (Hpos i Hi) as (d & Hd & Hg). unfold T, tracked.
      now rewrite Hd, (gtb_not_eqb _ _ Hg). }
    destruct (Nat.eq_dec r (length history)) as [Heq|Hne].
    + destruct (Nat.eq_dec k r) as [|Hkr]; [assumption|exfalso].
      assert (Hk' : T k = true) by (apply Hrt; lia).
      unfold T in Hk'. rewrite Hk' in Hstop. discriminate.
    + apply (first_untracked_unique T); auto.
      unfold T, tracked.
      destruct (nutritionMap !! isoDay (today - Z.of_nat r)) as [d|] eqn:Ed; [|reflexivity].
      pose proof (Hend ltac:(lia) d eq_refl) as Hg.
      assert (Hin : In d history).
      { unfold nutritionMap in Ed. rewrite indexHistory_lookup in Ed.
        now apply lastWithKey_Some in Ed. }
      destruct (eqb (calories (nutrients d)) (of_Z 0)) eqn:Ez; [reflexivity|].
      rewrite (nonnegative_nonzero_positive _ (Hnonneg d Hin) Ez) in Hg. discriminate.
  - intros H5 (d6 & Hd6 & Hz6).
    apply (first_untracked_unique T); auto.
    + intros i Hi. destruct (H5 i Hi) as (d & Hd & Hg). unfold T, tracked.
      now rewrite Hd, (gtb_not_eqb _ _ Hg).
    + unfold T, tracked. change (Z.of_nat 5) with 5. now rewrite Hd6, Hz6.
Qed.

Lemma calculateStreakAndTotalDays_spec_witness :
  exists k,
    calculateStreakAndTotalDays utcHost fiveDayStreak =
      Some (Ok {| currentStreak := k; totalDays := 5 |}) /\
    k = 5%nat.
Proof.
  destruct (calculateStreakAndTotalDays_spec utcHost 0 fiveDayStreak)
    as (k & H & _ & _ & _ & _ & H5).
  - reflexivity.
  - apply Z.leb_le. vm_compute. reflexivity.
  - apply Z.leb_le. vm_compute. reflexivity.
  - exists k. split; [exact H|]. apply H5.
    + intros [|[|[|[|[|i]]]]] Hi; try lia; eexists; (split; vm_compute; reflexivity).
    + eexists. split; vm_compute; reflexivity.
Defined.

(** C2 as stated fails: a record with negative calories does not have
    [calories > 0], yet it counts towards the streak, because the loop
    stops only at a missing day or at calories equal to 0. *)
Lemma negative_calories_count_towards_streak :
  calculateStreakAndTotalDays utcHost negativeDay =
    Some (Ok {| currentStreak := 1; totalDays := 0 |}) /\
  consecutivePositiveDays (indexHistory negativeDay) (Day (now utcHost)) (length negativeDay) = 0%nat /\
  (forall day, In day negativeDay -> gtb (calories (nutrients day)) (of_Z 0) = false).
Proof.
  split; [vm_compute; reflexivity|]. split; [vm_compute; reflexivity|].
  intros day [<-|[]]. vm_compute. reflexivity.
Qed.

(** Where the offset changes, the walk reads one UTC day twice, and the
    streak exceeds the number of records. *)
Lemma streak_counts_a_day_twice :
  calculateStreakAndTotalDays newYorkHost twoDays =
    Some (Ok {| currentStreak := 3; totalDays := 2 |}) /\
  length twoDays = 2%nat.
Proof. split; vm_compute; reflexivity. Qed.


(** ** Further properties: credentials *)

Lemma validatePassword_true env username pw :
  validatePassword env username pw = true <->
  exists c, API_KEYS_MAP env !! username = Some c /\ password c = pw.
Proof.
  unfold validatePassword. destruct (API_KEYS_MAP env !! username) as [c|].
  - rewrite String.eqb_eq. split.
    + intros H. now exists c.
    + intros (c' & Hc & Hp). now injection Hc as ->.
  - split; [discriminate|]. intros (c & Hc & _). discriminate.
Qed.

(** X1: [validatePassword] accepts a secret only when the configuration
    has a three-part entry [identity:secret:apiKey] for that identity with
    exactly that secret; so it accepts neither the empty string nor any
    secret for an identity that is not configured. *)
Theorem validatePassword_sound env username pw :
  validatePassword env username pw = true ->
  (exists entry key,
     In entry (split "," (apiKeysEnv env)) /\
     split ":" (trim entry) = [username; pw; key] /\ key <> "") /\
  pw <> "" /\ username <> "" /\ is_Some (API_KEYS_MAP env !! username).
Proof.
  intros H. apply validatePassword_true in H. destruct H as (c & Hc & <-).
  destruct (API_KEYS_MAP_Some env username c Hc) as (entry & Hin & Hp).
  apply parseEntry_Some in Hp. destruct Hp as (Hs & Hu & Hpw & Hk).
  split; [|split; [assumption|split; [assumption|eauto]]].
  exists entry, (apiKey c). auto.
Qed.

Lemma validatePassword_sound_witness :
  "secret" <> "" /\ is_Some (API_KEYS_MAP utcHost !! "alice").
Proof.
  destruct (validatePassword_sound utcHost "alice" "secret") as (_ & H1 & _ & H2).
  - vm_compute. reflexivity.
  - split; assumption.
Defined.

(** The last well-formed entry for an identity is the one that counts. *)
Lemma lastWithKey_split {A : Type} (key : A -> string) k (l : list A) x :
  lastWithKey key k l = Some x ->
  exists l1 l2, l = (l1 ++ x :: l2)%list /\ key x = k /\ forall y, In y l2 -> key y <> k.
Proof.
  revert x. induction l as [|y l IH]; intros x H; [discriminate|].
  cbn [lastWithKey] in H. destruct (lastWithKey key k l) as [z|] eqn:E.
  - injection H as ->. destruct (IH x eq_refl) as (l1 & l2 & -> & Hk & Hl2).
    exists (y :: l1), l2. auto.
  - destruct (bool_decide_reflect (key y = k)) as [Hk|]; [|discriminate].
    injection H as ->. exists [], l. split; [reflexivity|]. split; [assumption|].
    now apply lastWithKey_None.
Qed.

Lemma filter_split_last {A : Type} (P : A -> Prop) {Pdec : forall x, Decision (P x)}
    (l : list A) (l1 l2 : list A) (x : A) :
  filter P l = (l1 ++ x :: l2)%list ->
  exists k1 k2, l = (k1 ++ x :: k2)%list /\ filter P k2 = l2 /\ P x.
Proof.
  revert l1. induction l as [|y l IH]; intros l1 H.
  - destruct l1; discriminate.
  - rewrite filter_cons in H. destruct (decide (P y)) as [Hy|Hy].
    + destruct l1 as [|z l1]; cbn in H; injection H as Hz Hl.
      * subst y. exists [], l. auto.
      * subst z. destruct (IH l1 Hl) as (k1 & k2 & -> & Hk2 & Hx). exists (y :: k1), k2. auto.
    + destruct (IH l1 H) as (k1 & k2 & -> & Hk2 & Hx). exists (y :: k1), k2. auto.
Qed.

(** X2: when the configuration names an identity more than once, the last
    well-formed entry for it wins: the binding of an identity comes from
    an entry after which no entry yields a binding for that identity. *)
Theorem API_KEYS_MAP_last_entry_wins env u c :
  API_KEYS_MAP env !! u = Some c ->
  exists before entry after,
    split "," (apiKeysEnv env) = (before ++ entry :: after)%list /\
    split ":" (trim entry) = [u; password c; apiKey c] /\
    forall e c', In e after -> parseEntry e <> Some (u, c').
Proof.
  unfold API_KEYS_MAP. rewrite parseApiKeys_foldl, foldl_addCredential_lookup.
  destruct (lastWithKey _ u _) as [e|] eqn:E; [|rewrite lookup_empty; discriminate].
  apply lastWithKey_split in E. destruct E as (l1 & l2 & Hf & Hk & Hl2).
  apply filter_split_last in Hf. destruct Hf as (k1 & k2 & Hs & Hk2 & [[u' c'] Hp]).
  rewrite Hp in Hk |- *. cbn. intros H. injection H as ->. subst u'.
  exists k1, e, k2. split; [assumption|]. split; [now apply parseEntry_Some|].
  intros e' c'' Hin Hp'. apply (Hl2 e').
  - rewrite <- Hk2. apply list_elem_of_In, list_elem_of_filter.
    split; [rewrite Hp'; eauto|now apply list_elem_of_In].
  - now rewrite Hp'.
Qed.

Lemma API_KEYS_MAP_last_entry_wins_witness :
  exists before entry after,
    split "," "alice:old:key0,alice:new:key9" = (before ++ entry :: after)%list /\
    split ":" (trim entry) = ["alice"; "new"; "key9"].
Proof.
  destruct (API_KEYS_MAP_last_entry_wins
              {| apiKeysEnv := "alice:old:key0,alice:new:key9"; now := 0;
                 zone := fixedZone 0; upstream := exampleUpstream |}
              "alice" {| password := "new"; apiKey := "key9" |})
    as (before & entry & after & H1 & H2 & _).
  - vm_compute. reflexivity.
  - exists before, entry, after. split; assumption.
Defined.






(** X4: the validation route answers 400 with [valid: false] when the
    password parameter is missing or empty, and otherwise 200; it answers
    [valid: true] only for a secret that the configuration gives for that
    identity in a three-part entry. *)
Theorem validateLoader_spec env username password :
  (validate_status (validateLoader env username password) = 400 <->
   password = None \/ password = Some "") /\
  (validate_status (validateLoader env username password) = 400 \/
   validate_status (validateLoader env username password) = 200) /\
  (valid (validateLoader env username password) = true ->
   exists pw entry key,
     password = Some pw /\ pw <> "" /\
     In entry (split "," (apiKeysEnv env)) /\
     split ":" (trim entry) = [username; pw; key]).
Proof.
  unfold validateLoader. destruct password as [[|a pw]|]; cbn.
  - split; [split; auto|]. split; [auto|discriminate].
  - split; [split; [discriminate|intros [|]; discriminate]|]. split; [auto|].
    intros H. apply validatePassword_true in H. destruct H as (c & Hc & Hpw).
    destruct (API_KEYS_MAP_Some env username c Hc) as (entry & Hin & Hp).
    apply parseEntry_Some in Hp. destruct Hp as (Hs & _).
    exists (String a pw), entry, (apiKey c). rewrite <- Hpw.
    split; [reflexivity|]. split; [rewrite Hpw; discriminate|]. now split.
  - split; [split; auto|]. split; [auto|discriminate].
Qed.

Lemma validateLoader_spec_witness :
  exists pw entry key,
    Some "secret" = Some pw /\ pw <> "" /\
    In entry (split "," (apiKeysEnv utcHost)) /\
    split ":" (trim entry) = ["alice"; pw; key].
Proof.
  apply (proj2 (proj2 (validateLoader_spec utcHost "alice" (Some "secret")))).
  vm_compute. reflexivity.
Defined.

(** ** Further properties: the history aggregation on any host *)

Lemma bind_Ok {A B : Type} (a : A) (f : A -> result B) : (x ← Ok a; f x) = f a.
Proof. reflexivity. Qed.

Lemma bind_Throw {A B : Type} (e : Exn) (f : A -> result B) : (x ← Throw e; f x) = Throw e.
Proof. reflexivity. Qed.

Lemma fetchNutritionHistory_cases env username days includeMeals :
  fetchNutritionHistory env username days includeMeals =
  match fetchDailyTotals env username days with
  | Throw e => Throw e
  | Ok nutritionData =>
      match historyDates env days with
      | Throw e => Throw e
      | Ok dates =>
          Ok (map (dailyData (indexByDate nutritionData)
                     (if includeMeals then indexMeals (fetchAllMeals env username dates) else ∅)
                     includeMeals) dates)
      end
  end.
Proof.
  unfold fetchNutritionHistory.
  destruct (fetchDailyTotals env username days) as [nutritionData|e];
    [rewrite bind_Ok|now rewrite bind_Throw].
  destruct (historyDates env days) as [dates|e];
    [now rewrite bind_Ok|now rewrite bind_Throw].
Qed.

(** X5: whenever the aggregation returns, on any host and with or without
    meals, it returns one record for each index below [days] (none for
    [days <= 0]), dated with the date strings of the window in order. *)
Theorem fetchNutritionHistory_length env username days includeMeals history :
  fetchNutritionHistory env username days includeMeals = Ok history ->
  length history = Z.to_nat days /\ historyDates env days = Ok (map date history).
Proof.
  rewrite fetchNutritionHistory_cases.
  destruct (fetchDailyTotals env username days) as [nutritionData|e]; [|discriminate].
  destruct (historyDates env days) as [dates|e] eqn:Hd; [|discriminate].
  intros H. injection H as <-. rewrite map_date_dailyData, length_map.
  split; [now apply historyDates_length in Hd|reflexivity].
Qed.

Lemma fetchNutritionHistory_length_witness :
  exists history,
    fetchNutritionHistory newYorkHost "alice" 3 true = Ok history /\ length history = 3%nat.
Proof.
  assert (H : exists history, fetchNutritionHistory newYorkHost "alice" 3 true = Ok history)
    by (vm_compute; eexists; reflexivity).
  destruct H as [history H]. exists history. split; [exact H|].
  exact (proj1 (fetchNutritionHistory_length newYorkHost "alice" 3 true history H)).
Defined.

(** X6: asking for meals changes neither whether the aggregation succeeds,
    nor the error it fails with, nor the dates, nor the nutrient values;
    it only fills the [meals] field, which is absent from every record
    otherwise. *)
Theorem includeMeals_only_adds_meals env username days :
  match fetchNutritionHistory env username days false,
        fetchNutritionHistory env username days true with
  | Ok plain, Ok withMeals =>
      map date plain = map date withMeals /\
      map nutrients plain = map nutrients withMeals /\
      (forall day, In day plain -> meals day = None) /\
      (forall day, In day withMeals -> is_Some (meals day))
  | Throw e, Throw e' => e = e'
  | _, _ => False
  end.
Proof.
  rewrite !fetchNutritionHistory_cases.
  destruct (fetchDailyTotals env username days) as [nutritionData|e]; [|reflexivity].
  destruct (historyDates env days) as [dates|e]; [|reflexivity].
  rewrite !map_date_dailyData, !map_map. cbn [dailyData nutrients meals].
  split; [reflexivity|]. split; [reflexivity|]. split.
  - intros day Hin. apply in_map_iff in Hin. now destruct Hin as (d & <- & _).
  - intros day Hin. apply in_map_iff in Hin. destruct Hin as (d & <- & _). cbn. eauto.
Qed.

Lemma fetchJson_Throw {A : Type} (o : FetchOutcome A) failure e :
  fetchJson o failure = Throw e -> e = FetchRejected \/ e = JsonRejected \/ e = failure.
Proof.
  unfold fetchJson. destruct o as [|status [a|]]; [intros H; injection H; auto| |];
    destruct (ok status); intros H; (discriminate || injection H; auto).
Qed.

Lemma mapM_Throw {A B : Type} (f : A -> result B) (l : list A) e :
  mapM f l = Throw e -> exists x, In x l /\ f x = Throw e.
Proof.
  induction l as [|x l IH]; [discriminate|].
  cbn [mapM]. destruct (f x) as [y|e'] eqn:E; [rewrite bind_Ok|rewrite bind_Throw].
  - destruct (mapM f l) as [k|e'']; [rewrite bind_Ok; discriminate|rewrite bind_Throw].
    intros H. destruct (IH H) as (x' & Hin & Hx'). exists x'. split; [now right|assumption].
  - intros H. exists x. split; [now left|]. congruence.
Qed.

Lemma toISODate_Throw d e : toISODate d = Throw e -> e = RangeError_InvalidTime.
Proof. destruct d; cbn [toISODate]; intros H; [discriminate|congruence]. Qed.

Lemma historyDates_Throw env days e :
  historyDates env days = Throw e -> e = RangeError_InvalidTime.
Proof.
  unfold historyDates. destruct (startDate env days) as [start|]; [|congruence].
  unfold dateStrings. intros H. apply mapM_Throw in H. destruct H as (i & _ & H).
  revert H. unfold dateStringAt. apply toISODate_Throw.
Qed.

Lemma fetchDailyTotals_Throw env username days e :
  fetchDailyTotals env username days = Throw e -> historyError username e.
Proof.
  unfold fetchDailyTotals, historyError, resolveUserId, getApiKey. cbv zeta.
  destruct (API_KEYS_MAP env !! username) as [c|];
    [rewrite bind_Ok|rewrite bind_Throw; intros H; injection H; auto].
  destruct (fetchJson (auth_profiles (upstream env) (apiKey c)) FailedToFetchProfile)
    as [profileData|e1] eqn:E1; [rewrite !bind_Ok|rewrite !bind_Throw].
  - destruct (negb (truthy (profile_id profileData)));
      [rewrite bind_Throw; intros H; injection H; auto 10|rewrite bind_Ok].
    destruct (toISODate (newDate env)) as [endDateStr|e2] eqn:E2;
      [rewrite bind_Ok|rewrite bind_Throw].
    + destruct (toISODate (startDate env days)) as [startDateStr|e3] eqn:E3;
        [rewrite bind_Ok|rewrite bind_Throw].
      * intros H. apply fetchJson_Throw in H. destruct H as [->|[->| ->]]; auto 10.
      * intros H. injection H as <-. apply toISODate_Throw in E3. auto 10.
    + intros H. injection H as <-. apply toISODate_Throw in E2. auto 10.
  - intros H. injection H as <-. apply fetchJson_Throw in E1.
    destruct E1 as [->|[->| ->]]; auto 10.
Qed.

Lemma fetchNutritionHistory_Throw env username days includeMeals e :
  fetchNutritionHistory env username days includeMeals = Throw e -> historyError username e.
Proof.
  rewrite fetchNutritionHistory_cases. intros H.
  destruct (fetchDailyTotals env username days) as [nutritionData|e1] eqn:E1.
  - destruct (historyDates env days) as [dates|e2] eqn:E2; [discriminate|].
    injection H as <-. apply historyDates_Throw in E2. unfold historyError. auto 10.
  - injection H as <-. now apply fetchDailyTotals_Throw in E1.
Qed.

Lemma fetchNutritionHistory_Ok env username days includeMeals history :
  fetchNutritionHistory env username days includeMeals = Ok history ->
  length history = Z.to_nat days /\ historyDates env days = Ok (map date history) /\
  (forall day, In day history -> meals day = None <-> includeMeals = false).
Proof.
  rewrite fetchNutritionHistory_cases.
  destruct (fetchDailyTotals env username days) as [nutritionData|e]; [|discriminate].
  destruct (historyDates env days) as [dates|e] eqn:Hd; [|discriminate].
  intros H. injection H as <-. rewrite map_date_dailyData, length_map.
  split; [now apply historyDates_length in Hd|]. split; [reflexivity|].
  intros day Hin. apply in_map_iff in Hin. destruct Hin as (d & <- & _).
  cbn [meals dailyData]. destruct includeMeals; split; congruence.
Qed.

(** X7: a failure of the aggregation is always one of the steps before the
    meal fetches: the credential lookup, the profile call, the totals call
    or the formatting of a date.  No failure of a food-entries call ever
    surfaces, and an identity without credentials fails with the error
    that names it. *)
Theorem fetchNutritionHistory_errors env username days includeMeals e :
  fetchNutritionHistory env username days includeMeals = Throw e ->
  historyError username e /\
  e <> FailedToFetchFoodEntries /\ e <> TypeError_NotAFunction /\ e <> FailedToFetchGoals /\
  (API_KEYS_MAP env !! username = None -> e = NoApiKeyConfigured username).
Proof.
  intros H. pose proof (fetchNutritionHistory_Throw _ _ _ _ _ H) as He.
  split; [exact He|].
  split; [|split; [|split]];
    try (intros ->; destruct He as [He|[He|[He|[He|[He|[He|He]]]]]]; discriminate).
  intros Hnone. revert H. rewrite fetchNutritionHistory_cases.
  unfold fetchDailyTotals, getApiKey. rewrite Hnone, !bind_Throw.
  congruence.
Qed.

Lemma fetchNutritionHistory_errors_witness :
  historyError "carol" (NoApiKeyConfigured "carol").
Proof.
  refine (proj1 (fetchNutritionHistory_errors utcHost "carol" 7 true (NoApiKeyConfigured "carol") _)).
  vm_compute. reflexivity.
Defined.

(** ** Further properties: food entries and the meals route *)

Lemma emptyMeals_lookup k :
  emptyMeals !! k = if bool_decide (k ∈ standardMeals) then Some [] else None.
Proof.
  unfold emptyMeals, standardMeals. rewrite !lookup_insert, lookup_empty.
  case_bool_decide as Hk.
  - repeat (apply elem_of_cons in Hk; destruct Hk as [->|Hk];
            [repeat case_decide; first [reflexivity|congruence]|]).
    now apply elem_of_nil in Hk.
  - repeat case_decide; subst; try reflexivity; exfalso; apply Hk; set_solver.
Qed.

Lemma standardMeals_not_prototype k : k ∈ standardMeals -> k ∉ objectPrototypeKeys.
Proof.
  unfold standardMeals, objectPrototypeKeys. intros H.
  repeat (apply elem_of_cons in H; destruct H as [->|H];
          [apply (bool_decide_unpack _); vm_compute; exact I|]).
  now apply elem_of_nil in H.
Qed.

Lemma emptyMeals_shape : mealsShape emptyMeals.
Proof.
  split; [|split].
  - intros k Hk. rewrite emptyMeals_lookup, bool_decide_eq_true_2 by assumption. eauto.
  - intros k [items Hk]. rewrite emptyMeals_lookup in Hk.
    case_bool_decide; [now apply standardMeals_not_prototype|discriminate].
  - intros k items Hk Hstd. rewrite emptyMeals_lookup in Hk.
    now rewrite bool_decide_eq_false_2 in Hk.
Qed.

Lemma pushMeal_shape m k item m' :
  mealsShape m -> pushMeal m k item = Ok m' -> mealsShape m'.
Proof.
  intros (Hstd & Hproto & Hne) H.
  assert (Hk : k ∉ objectPrototypeKeys).
  { revert H. unfold pushMeal. destruct (m !! k) as [items|] eqn:E.
    - intros _. apply Hproto. eauto.
    - case_bool_decide; [discriminate|auto]. }
  pose proof (pushMeal_lookup _ _ _ _ H) as Hl.
  split; [|split].
  - intros k' Hk'. rewrite Hl. destruct (decide (k = k')); [eauto|auto].
  - intros k' [items Hk']. rewrite Hl in Hk'.
    destruct (decide (k = k')) as [<-|]; [assumption|apply Hproto; eauto].
  - intros k' items Hk' Hn. rewrite Hl in Hk'.
    destruct (decide (k = k')) as [<-|]; [|eauto].
    injection Hk' as <-. now destruct (default [] (m !! k)).
Qed.

Lemma foldlM_pushMeal_shape entries m m' :
  mealsShape m ->
  foldlM (fun meals entry => pushMeal meals (meal_type entry) (toFoodItem entry)) m entries = Ok m' ->
  mealsShape m'.
Proof.
  revert m. induction entries as [|e es IH]; intros m Hm.
  - cbn [foldlM]. now intros [= <-].
  - cbn [foldlM].
    destruct (pushMeal m (meal_type e) (toFoodItem e)) as [m1|e1] eqn:E1;
      [rewrite bind_Ok|rewrite bind_Throw; discriminate].
    apply IH. eapply pushMeal_shape; eassumption.
Qed.

Lemma foldlM_pushMeal_Throw entries m e :
  mealsShape m ->
  foldlM (fun meals entry => pushMeal meals (meal_type entry) (toFoodItem entry)) m entries = Throw e ->
  e = TypeError_NotAFunction /\
  exists entry, In entry entries /\ meal_type entry ∈ objectPrototypeKeys.
Proof.
  revert m. induction entries as [|x es IH]; intros m Hm; [discriminate|].
  cbn [foldlM].
  destruct (pushMeal m (meal_type x) (toFoodItem x)) as [m1|e1] eqn:E1;
    [rewrite bind_Ok|rewrite bind_Throw].
  - intros H. destruct (IH m1 (pushMeal_shape _ _ _ _ Hm E1) H) as (-> & entry & Hin & Hk).
    split; [reflexivity|]. exists entry. split; [now right|assumption].
  - intros [= <-]. revert E1. unfold pushMeal.
    destruct (m !! meal_type x); [discriminate|].
    case_bool_decide; [|discriminate]. intros [= <-].
    split; [reflexivity|]. exists x. split; [now left|assumption].
Qed.


(** X8: whatever the upstream sends, a meals object that
    [fetchFoodEntriesForDate] returns has the four standard keys, has no
    key that is a property name inherited from [Object.prototype], and
    holds at least one food item under every key beyond the four. *)
Theorem fetchFoodEntriesForDate_shape env username date meals :
  fetchFoodEntriesForDate env username date = Ok meals -> mealsShape meals.
Proof.
  unfold fetchFoodEntriesForDate.
  destruct (getApiKey env username) as [key|e]; [rewrite bind_Ok|rewrite bind_Throw; discriminate].
  destruct (food_entries_by_date (upstream env) key date) as [|status [entries|]];
    [discriminate| |]; destruct (ok status).
  - apply foldlM_pushMeal_shape, emptyMeals_shape.
  - destruct (status =? 404); [|discriminate]. intros [= <-]. apply emptyMeals_shape.
  - discriminate.
  - destruct (status =? 404); [|discriminate]. intros [= <-]. apply emptyMeals_shape.
Qed.

Lemma fetchFoodEntriesForDate_shape_witness :
  fetchFoodEntriesForDate utcHost "alice" "2024-03-12" = Ok emptyMeals /\ mealsShape emptyMeals.
Proof.
  assert (H : fetchFoodEntriesForDate utcHost "alice" "2024-03-12" = Ok emptyMeals)
    by (vm_compute; reflexivity).
  split; [exact H|].
  exact (fetchFoodEntriesForDate_shape utcHost "alice" "2024-03-12" emptyMeals H).
Defined.

Lemma ok_404 status : ok status = true -> (status =? 404) = false.
Proof. unfold ok. lia. Qed.


(** ** Further properties: the history route *)

(** X10: the history route answers 400 exactly for an empty identity.
    For any other identity it answers 200 with the records of
    [fetchNutritionHistory], one for each index below [days] and none of
    them with a [meals] field, or 500 with one fixed message whatever the
    failure was. *)
Theorem loader_cases env username days :
  (username = "" /\
   loader env username days = {| status := 400; body := ErrorJson "Username is required" |}) \/
  (username <> "" /\
   exists history,
     fetchNutritionHistory env username days false = Ok history /\
     loader env username days = {| status := 200; body := HistoryJson history |} /\
     length history = Z.to_nat days /\
     forall day, In day history -> meals day = None) \/
  (username <> "" /\
   exists e,
     fetchNutritionHistory env username days false = Throw e /\ historyError username e /\
     loader env username days =
       {| status := 500; body := ErrorJson "Failed to fetch nutrition history" |}).
Proof.
  unfold loader. destruct username as [|c username']; [left; split; reflexivity|].
  right. cbn [truthy negb].
  destruct (fetchNutritionHistory env (String c username') days false) as [history|e] eqn:H.
  - left. split; [discriminate|]. exists history.
    destruct (fetchNutritionHistory_Ok _ _ _ _ _ H) as (Hlen & _ & Hm).
    split; [reflexivity|]. split; [reflexivity|]. split; [assumption|].
    intros day Hin. now apply Hm.
  - right. split; [discriminate|]. exists e.
    split; [reflexivity|]. split; [|reflexivity]. eapply fetchNutritionHistory_Throw, H.
Qed.

(** ** Further properties: the heat map on whole percentages and at zero *)

Lemma zoneEqb_eq a b : zoneEqb a b = true -> a = b.
Proof. destruct a, b; (reflexivity || discriminate). Qed.

Lemma heatmapZone_table_check :
  forallb (fun i => zoneEqb (heatmapZone (of_Z (i - 500))) (zoneOfPercent (i - 500)))
          (range 2501) = true.
Proof. vm_cast_no_check (eq_refl true). Qed.

(** X11: on whole percentages from -500 to 2000 the zone is the table:
    gray at 0, green from 85 to 130, yellow from 70 to 84 and from 131 to
    160, orange from 50 to 69 and from 161 to 200, red everywhere else. *)
Theorem heatmapZone_whole_percent p :
  -500 <= p <= 2000 -> heatmapZone (of_Z p) = zoneOfPercent p.
Proof.
  intros Hp. apply zoneEqb_eq.
  pose proof heatmapZone_table_check as H. rewrite forallb_forall in H.
  specialize (H (p + 500)). replace (p + 500 - 500) with p in H by lia.
  apply H, in_range. lia.
Qed.

Lemma heatmapZone_whole_percent_witness :
  heatmapZone (of_Z 131) = zoneOfPercent 131.
Proof. apply (heatmapZone_whole_percent 131). lia. Defined.

Lemma eqb_zero_inv x : eqb x (of_Z 0) = true -> exists s, x = S754_zero s.
Proof. destruct x as [s|[]| |[] m e]; try discriminate. eauto. Qed.

(** X12: with a goal of zero every value, whether positive, zero,
    negative or not a number, falls into the red zone: the quotient is an
    infinity or NaN, never 0. *)
Theorem zero_goal_is_High value goal :
  eqb goal (of_Z 0) = true -> heatmapZone (getPercentage value goal) = High.
Proof.
  intros H. apply eqb_zero_inv in H. destruct H as [s ->].
  destruct value as [[]|[]| |[] m e], s; vm_compute; reflexivity.
Qed.

Lemma zero_goal_is_High_witness :
  heatmapZone (getPercentage (of_Z 1800) (of_Z 0)) = High.
Proof. apply zero_goal_is_High. vm_compute. reflexivity. Defined.

(** X13: a value of zero, such as the nutrients of a day that the
    aggregation filled in, is shown as "No data" against every goal that
    is a number other than zero. *)
Theorem zero_value_is_NoData value goal :
  eqb value (of_Z 0) = true -> isNaN goal = false -> eqb goal (of_Z 0) = false ->
  heatmapZone (getPercentage value goal) = NoData.
Proof.
  intros H Hn Hz. apply eqb_zero_inv in H. destruct H as [s ->].
  destruct goal as [s'|s'| |s' m e]; try discriminate.
  - destruct s, s'; vm_compute; reflexivity.
  - destruct s, s'; vm_compute; reflexivity.
Qed.

Lemma zero_value_is_NoData_witness :
  heatmapZone (getPercentage (calories zeroNutrients) (of_Z 2000)) = NoData.
Proof. apply zero_value_is_NoData; vm_compute; reflexivity. Defined.

(** X14: the text colour of a summary card is the colour of the zone of
    its background, except at a percentage of zero, where the background
    is the gray of "No data" and the text is red. *)
Theorem getPercentageColor_text percentage :
  fst (getPercentageColor percentage) = getHeatmapColor percentage /\
  zoneOfText (snd (getPercentageColor percentage)) =
    (if eqb percentage (of_Z 0) then High else heatmapZone percentage).
Proof.
  split; [reflexivity|]. rewrite heatmapZone_unfold.
  unfold getPercentageColor, zoneOfDistance, adjustedDistance. cbn [snd].
  destruct (eqb percentage (of_Z 0)) eqn:E.
  - apply eqb_zero_inv in E. destruct E as [[] ->]; vm_compute; reflexivity.
  - destruct (ltb percentage (of_Z 100));
      repeat match goal with |- context [leb ?a ?b] => destruct (leb a b) end; reflexivity.
Qed.

(** ** Further properties: trimming the blank days *)

Lemma trimLoop_spec days i startIndex :
  (Forall (fun day => hasData day = false) days /\ trimLoop days i startIndex = startIndex) \/
  (exists blank day rest,
     days = (blank ++ day :: rest)%list /\
     Forall (fun day => hasData day = false) blank /\ hasData day = true /\
     trimLoop days i startIndex = (i + length blank)%nat).
Proof.
  revert i. induction days as [|d days IH]; intros i; [left; split; [constructor|reflexivity]|].
  cbn [trimLoop]. destruct (hasData d) eqn:Hd.
  - right. exists [], d, days. cbn [app length]. repeat split; [constructor|assumption|lia].
  - destruct (IH (S i)) as [[Hall Ht]|(blank & day & rest & -> & Hall & Hday & Ht)].
    + left. split; [now constructor|assumption].
    + right. exists (d :: blank), day, rest. cbn [app length].
      repeat split; [now constructor|assumption|lia].
Qed.

(** X15: [trimmedData] drops the leading days without data and starts at
    the first day that has some; the dropped days are exactly the ones
    before it.  When no day has data, nothing is dropped and the whole
    history is kept. *)
Theorem trimmedData_spec heatmapData :
  (Forall (fun day => hasData day = false) heatmapData /\ trimmedData heatmapData = heatmapData) \/
  (exists blank day rest,
     heatmapData = (blank ++ day :: rest)%list /\
     Forall (fun day => hasData day = false) blank /\ hasData day = true /\
     trimmedData heatmapData = day :: rest).
Proof.
  unfold trimmedData.
  destruct (trimLoop_spec heatmapData 0 0) as [[Hall ->]|(blank & day & rest & -> & Hall & Hday & ->)].
  - left. split; [assumption|reflexivity].
  - right. exists blank, day, rest. repeat split; try assumption.
    cbn [Nat.add]. now rewrite drop_app_length.
Qed.

(** ** Further properties: the streak on any host *)

Lemma streakLoop_bounds tz m len fuel currentDate j r :
  (j <= len)%nat ->
  streakLoop tz m len fuel currentDate j = Some r ->
  match r with
  | Ok n => (j <= n <= S len)%nat
  | Throw e => e = RangeError_InvalidTime
  end.
Proof.
  revert currentDate j. induction fuel as [|fuel IH]; intros currentDate j Hj; [discriminate|].
  cbn [streakLoop]. destruct currentDate as [t|]; cbn [toISODate]; [|now intros [= <-]].
  destruct (m !! isoDay (Day t)) as [dayData|]; [|intros [= <-]; cbn beta iota; lia].
  destruct (eqb (calories (nutrients dayData)) (of_Z 0)); [intros [= <-]; cbn beta iota; lia|].
  destruct (Nat.ltb_spec len (S j)) as [Hlt|Hge]; [intros [= <-]; cbn beta iota; lia|].
  generalize (setDate tz t (getDate tz t - 1)). intros d H.
  specialize (IH d (S j) ltac:(lia) H). destruct r; [lia|assumption].
Qed.

Lemma streakLoop_first tz m len fuel t r :
  streakLoop tz m len (S fuel) (Some t) 0 = Some (Ok r) ->
  (r = 0%nat <-> tracked m (isoDay (Day t)) = false).
Proof.
  cbn [streakLoop toISODate]. unfold tracked.
  destruct (m !! isoDay (Day t)) as [dayData|]; [|now intros [= <-]].
  destruct (eqb (calories (nutrients dayData)) (of_Z 0)); [now intros [= <-]|].
  destruct (Nat.ltb_spec len 1) as [Hlt|Hge]; [intros [= <-]; cbn [negb]; split; discriminate|].
  generalize (setDate tz t (getDate tz t - 1)). intros d H.
  pose proof (streakLoop_bounds tz m len fuel d 1 (Ok r) ltac:(lia) H) as Hb.
  cbn beta iota in Hb. cbn [negb]. split; [lia|discriminate].
Qed.

(** X16: on any host, fixed offset or not, [calculateStreakAndTotalDays]
    leaves its loop.  If it returns, [totalDays] is at most the number of
    records, the streak is at most that number plus one, and the streak
    is 0 exactly when the UTC day of the clock has no record or has one
    whose calories equal 0.  The only error it can raise is the
    RangeError of [toISOString]. *)
Theorem calculateStreakAndTotalDays_bounds env history :
  exists r, calculateStreakAndTotalDays env history = Some r /\
    match r with
    | Ok info =>
        (totalDays info <= length history)%nat /\
        (currentStreak info <= S (length history))%nat /\
        (currentStreak info = 0%nat <->
         tracked (indexHistory history) (isoDay (Day (now env))) = false)
    | Throw e => e = RangeError_InvalidTime
    end.
Proof.
  unfold calculateStreakAndTotalDays. cbv zeta. unfold newDate.
  destruct (streakLoop_terminates (zone env) (indexHistory history) (length history)
              (S (length history)) (Some (now env)) 0) as [r Hr]; [lia|lia|].
  rewrite Hr. cbn [mbind option_bind].
  pose proof (streakLoop_bounds _ _ _ _ _ _ _ (Nat.le_0_l _) Hr) as Hb.
  destruct r as [n|e].
  - eexists. split; [reflexivity|]. cbn [mbind result_bind currentStreak totalDays].
    split; [apply length_filter|]. split; [lia|].
    eapply streakLoop_first, Hr.
  - eexists. split; [reflexivity|]. exact Hb.
Qed.

(** ** Further properties: the cookie check of the dashboard *)

Lemma split_nonempty sep s : exists h t, split sep s = h :: t.
Proof.
  induction s as [|c s IH]; cbn [split]; [eauto|].
  destruct (Ascii.eqb c sep); [eauto|]. destruct IH as (h & t & ->). eauto.
Qed.

Lemma split_pieces_no_char a sep s x :
  hasChar a s = false \/ a = sep -> In x (split sep s) -> hasChar a x = false.
Proof.
  revert x. induction s as [|c s IH]; intros x Ha; cbn [split].
  - now intros [<-|[]].
  - assert (Ha' : hasChar a s = false \/ a = sep).
    { destruct Ha as [Ha|Ha]; [|now right]. cbn [hasChar] in Ha.
      apply orb_false_iff in Ha. now left. }
    destruct (Ascii.eqb c sep) eqn:E.
    + intros [<-|Hin]; [reflexivity|now apply IH].
    + destruct (split_nonempty sep s) as (h & t & Hs). rewrite Hs in *.
      intros [<-|Hin].
      * cbn [hasChar]. rewrite (IH h Ha' (or_introl eq_refl)), orb_false_r.
        destruct Ha as [Ha| ->]; [|assumption].
        cbn [hasChar] in Ha. now apply orb_false_iff in Ha.
      * apply IH; [assumption|now right].
Qed.

Lemma split_no_sep sep s : hasChar sep s = false -> split sep s = [s].
Proof.
  induction s as [|c s IH]; [reflexivity|].
  cbn [hasChar split]. intros H. apply orb_false_iff in H. destruct H as [-> H].
  now rewrite (IH H).
Qed.

Lemma split_app_sep sep a b :
  hasChar sep a = false -> split sep (a ++ String sep b) = a :: split sep b.
Proof.
  induction a as [|c a IH].
  - intros _. rewrite append_nil_l. cbn [split]. now rewrite Ascii.eqb_refl.
  - cbn [hasChar]. intros H. apply orb_false_iff in H. destruct H as [Hc H].
    rewrite append_cons_l. cbn [split]. now rewrite Hc, (IH H).
Qed.

Lemma hasChar_app c a b : hasChar c (a ++ b) = hasChar c a || hasChar c b.
Proof.
  induction a as [|x a IH]; [reflexivity|].
  rewrite append_cons_l. cbn [hasChar]. now rewrite IH, orb_assoc.
Qed.

Lemma append_assoc' (a b c : string) : a ++ (b ++ c) = (a ++ b) ++ c.
Proof.
  induction a as [|x a IH]; [reflexivity|]. rewrite !append_cons_l. now rewrite IH.
Qed.

Lemma trimEnd_keeps a c b :
  isWhiteSpace c = false -> exists t, trimEnd (a ++ String c b) = a ++ String c t.
Proof.
  intros Hc. induction a as [|x a IH].
  - rewrite append_nil_l. cbn [trimEnd]. destruct (trimEnd b) as [|y t].
    + rewrite Hc. now exists "".
    + now exists (String y t).
  - destruct IH as [t IH]. exists t. rewrite !append_cons_l. cbn [trimEnd]. rewrite IH.
    destruct a; reflexivity.
Qed.

Lemma prefix_app a x y : String.prefix (a ++ x) (a ++ y) = String.prefix x y.
Proof.
  induction a as [|c a IH]; [reflexivity|].
  rewrite !append_cons_l. cbn [String.prefix].
  destruct (ascii_dec c c); [assumption|congruence].
Qed.

Lemma validatePassword_empty env username : validatePassword env username "" = false.
Proof.
  destruct (validatePassword env username "") eqn:H; [|reflexivity].
  apply validatePassword_true in H. destruct H as (c & Hc & Hp).
  destruct (API_KEYS_MAP_Some env username c Hc) as (entry & _ & He).
  apply parseEntry_Some in He. destruct He as (_ & _ & Hpw & _). congruence.
Qed.

(** X17: the dashboard loader accepts a Cookie header only when the value
    it cuts out of the header is the configured secret of the identity;
    since that value is a piece between two [=] of a piece between two
    [;], a configured secret that contains [;] or [=] is never
    accepted, whatever the header. *)
Theorem isAuthenticated_sound env cookieHeader username :
  isAuthenticated env cookieHeader username = true ->
  exists entry,
    API_KEYS_MAP env !! username = Some entry /\
    passwordCookie cookieHeader username = Some (password entry) /\
    hasChar ";" (password entry) = false /\ hasChar "=" (password entry) = false.
Proof.
  unfold isAuthenticated.
  destruct (passwordCookie cookieHeader username) as [pw|] eqn:Hp; [|discriminate].
  intros H. apply andb_true_iff in H. destruct H as [_ H].
  apply validatePassword_true in H. destruct H as (entry & He & <-).
  exists entry. split; [assumption|]. split; [reflexivity|].
  revert Hp. unfold passwordCookie. destruct cookieHeader as [header|]; [|discriminate].
  destruct (find _ (split ";" header)) as [c|] eqn:Hf; [|discriminate].
  apply find_some in Hf. destruct Hf as [Hin _]. intros Hl.
  apply list_elem_of_lookup_2, list_elem_of_In in Hl.
  pose proof (split_pieces_no_char ";" ";" header c (or_intror eq_refl) Hin) as Hc.
  split.
  - exact (split_pieces_no_char ";" "=" c (password entry) (or_introl Hc) Hl).
  - exact (split_pieces_no_char "=" "=" c (password entry) (or_intror eq_refl) Hl).
Qed.

Lemma isAuthenticated_sound_witness :
  exists entry,
    API_KEYS_MAP utcHost !! "alice" = Some entry /\
    passwordCookie (Some "theme=dark; auth-alice=secret") "alice" = Some (password entry) /\
    hasChar ";" (password entry) = false /\ hasChar "=" (password entry) = false.
Proof.
  apply (isAuthenticated_sound utcHost (Some "theme=dark; auth-alice=secret") "alice").
  vm_compute. reflexivity.
Defined.

(** X18: for an identity and a secret without [;] and [=], the header
    that carries just the cookie the dashboard sets, [auth-<identity>=<secret>],
    is accepted exactly when [validatePassword] accepts the secret. *)
Theorem isAuthenticated_own_cookie env username pw :
  hasChar ";" username = false -> hasChar "=" username = false ->
  hasChar ";" pw = false -> hasChar "=" pw = false ->
  isAuthenticated env (Some ("auth-" ++ username ++ "=" ++ pw)) username =
    validatePassword env username pw.
Proof.
  intros Hu1 Hu2 Hp1 Hp2.
  assert (Hh : "auth-" ++ username ++ "=" ++ pw = ("auth-" ++ username) ++ String "=" pw).
  { now rewrite <- append_assoc'. }
  assert (Hpre : "auth-" ++ username ++ "=" = ("auth-" ++ username) ++ String "=" "").
  { now rewrite <- append_assoc'. }
  unfold isAuthenticated, passwordCookie. rewrite Hh, Hpre.
  rewrite split_no_sep.
  2:{ rewrite !hasChar_app. cbn [hasChar]. rewrite Hu1, Hp1. reflexivity. }
  cbn [find]. unfold startsWith, trim.
  assert (Hts : trimStart (("auth-" ++ username) ++ String "=" pw) =
                ("auth-" ++ username) ++ String "=" pw).
  { rewrite !append_cons_l. reflexivity. }
  rewrite Hts.
  destruct (trimEnd_keeps ("auth-" ++ username) "=" pw eq_refl) as [t ->].
  rewrite prefix_app. cbn [String.prefix].
  destruct (ascii_dec "=" "=") as [_|Hne]; [|congruence].
  replace (String.prefix "" t) with true by (now destruct t).
  rewrite split_app_sep.
  2:{ rewrite hasChar_app. cbn [hasChar]. now rewrite Hu2. }
  rewrite (split_no_sep "=" pw Hp2). cbn [lookup list_lookup].
  destruct pw as [|c pw']; [now rewrite validatePassword_empty|reflexivity].
Qed.

Lemma isAuthenticated_own_cookie_witness :
  isAuthenticated utcHost (Some ("auth-" ++ "alice" ++ "=" ++ "secret")) "alice" =
    validatePassword utcHost "alice" "secret".
Proof. apply isAuthenticated_own_cookie; reflexivity. Defined.

(** ** Further properties: the profile *)

Lemma bind_Throw_inv {A B : Type} (m : result A) (f : A -> result B) (e : Exn) :
  (x ← m; f x) = Throw e -> m = Throw e \/ exists a, m = Ok a /\ f a = Throw e.
Proof.
  destruct m as [a|e']; intros H.
  - right. exists a. rewrite bind_Ok in H. now split.
  - left. rewrite bind_Throw in H. injection H as ->. reflexivity.
Qed.

Lemma fetchGoals_Throw env username e :
  fetchGoals env username None = Throw e -> profileError username e.
Proof.
  unfold fetchGoals, getApiKey, goalsTargetDate, newDate, profileError, historyError.
  cbn [toISODate].
  destruct (API_KEYS_MAP env !! username) as [c|];
    [rewrite !bind_Ok|rewrite bind_Throw; intros [= <-]; auto].
  intros H. apply fetchJson_Throw in H. destruct H as [->|[->| ->]]; auto 10.
Qed.

Lemma fetchProfileData_Throw env username e :
  fetchProfileData env username = Throw e -> profileError username e.
Proof.
  unfold fetchProfileData. intros H.
  apply bind_Throw_inv in H. destruct H as [H|(apiKey & Hk & H)].
  { revert H. unfold getApiKey. destruct (API_KEYS_MAP env !! username); [discriminate|].
    intros [= <-]. left. left. reflexivity. }
  apply bind_Throw_inv in H. destruct H as [H|(data & Hd & H)].
  { apply fetchJson_Throw in H. left. unfold historyError.
    destruct H as [->|[->| ->]]; auto 10. }
  apply bind_Throw_inv in H. destruct H as [H|(todayGoals & Hg & H)].
  { now apply fetchGoals_Throw in H. }
  apply bind_Throw_inv in H. destruct H as [H|(nutritionHistory & Hh & H)].
  { left. now apply fetchNutritionHistory_Throw in H. }
  discriminate.
Qed.

Lemma fetchProfileData_Ok env username data todayGoals nutritionHistory :
  fetchProfileData env username = Ok (data, todayGoals, nutritionHistory) ->
  fetchGoals env username None = Ok todayGoals /\
  fetchNutritionHistory env username 90 true = Ok nutritionHistory.
Proof.
  unfold fetchProfileData. intros H.
  apply bind_Ok_inv in H. destruct H as (apiKey & _ & H).
  apply bind_Ok_inv in H. destruct H as (data' & _ & H).
  apply bind_Ok_inv in H. destruct H as (goals' & Hg & H).
  apply bind_Ok_inv in H. destruct H as (history' & Hh & H).
  injection H as -> -> ->. now split.
Qed.

Lemma avatarUrl_nonempty cfg username data : avatarUrl cfg username data <> "".
Proof.
  unfold avatarUrl, startsWith.
  destruct (avatar_url data) as [|c s] eqn:E.
  - cbn [String.prefix truthy]. rewrite append_cons_l. discriminate.
  - destruct (String.prefix "/" (String c s)).
    + destruct (SPARKYFITNESS_WEB_URL cfg) as [|c' s'];
        [rewrite append_nil_l|rewrite append_cons_l]; discriminate.
    + cbn [truthy]. discriminate.
Qed.

(** X19: [fetchProfile] always comes back.  A profile that it returns
    counts at most 90 tracked days and a streak of at most 91, has an
    avatar URL that is not empty and, for an identity that is not empty,
    a name that is not empty; a failure is one of the failures of the
    history aggregation or the failure of the goals call. *)
Theorem fetchProfile_returns env cfg username :
  exists r, fetchProfile env cfg username = Some r /\
    match r with
    | Ok profile =>
        (profile_totalDays profile <= 90)%nat /\ (profile_currentStreak profile <= 91)%nat /\
        avatar profile <> "" /\ (username <> "" -> profile_name profile <> "")
    | Throw e => profileError username e
    end.
Proof.
  unfold fetchProfile.
  destruct (fetchProfileData env username) as [[[data todayGoals] history]|e] eqn:E.
  2:{ eexists. split; [reflexivity|]. now apply fetchProfileData_Throw in E. }
  apply fetchProfileData_Ok in E. destruct E as [_ E].
  apply fetchNutritionHistory_Ok in E. destruct E as (Hlen & _ & _).
  change (Z.to_nat 90) with 90%nat in Hlen.
  unfold calculateStreakAndTotalDays. cbv zeta. unfold newDate.
  destruct (streakLoop_terminates (zone env) (indexHistory history) (length history)
              (S (length history)) (Some (now env)) 0) as [r Hr]; [lia|lia|].
  rewrite Hr. cbn [mbind option_bind].
  pose proof (streakLoop_bounds _ _ _ _ _ _ _ (Nat.le_0_l _) Hr) as Hb.
  destruct r as [n|e].
  - eexists. split; [reflexivity|].
    cbn [mbind result_bind makeProfile profile_totalDays profile_currentStreak avatar
         profile_name currentStreak totalDays].
    split; [rewrite <- Hlen; apply length_filter|]. split; [lia|].
    split; [apply avatarUrl_nonempty|].
    intros Hu. now destruct (full_name data).
  - eexists. split; [reflexivity|]. left. unfold historyError. rewrite Hb. auto 10.
Qed.

Lemma sameButFoodEntries_refl env : sameButFoodEntries env env.
Proof. repeat split. Qed.

Lemma sameButFoodEntries_with env f : sameButFoodEntries (withFoodEntries env f) env.
Proof. repeat split. Qed.

Lemma getApiKey_same env' env username :
  sameButFoodEntries env' env -> getApiKey env' username = getApiKey env username.
Proof.
  unfold getApiKey, API_KEYS_MAP. intros (-> & _). reflexivity.
Qed.

Lemma fetchDailyTotals_same env' env username days :
  sameButFoodEntries env' env ->
  fetchDailyTotals env' username days = fetchDailyTotals env username days.
Proof.
  unfold fetchDailyTotals, getApiKey, API_KEYS_MAP, resolveUserId, startDate, newDate.
  intros (-> & -> & -> & -> & _ & ->). reflexivity.
Qed.

Lemma historyDates_same env' env days :
  sameButFoodEntries env' env -> historyDates env' days = historyDates env days.
Proof.
  unfold historyDates, startDate, dateStrings, dateStringAt.
  intros (_ & -> & -> & _). reflexivity.
Qed.

Lemma fetchGoals_same env' env username date :
  sameButFoodEntries env' env -> fetchGoals env' username date = fetchGoals env username date.
Proof.
  unfold fetchGoals, getApiKey, API_KEYS_MAP, goalsTargetDate, newDate.
  intros (-> & -> & _ & _ & -> & _). reflexivity.
Qed.

Lemma withoutMeals_dailyData nutritionMap mealsMap includeMeals dateStr :
  withoutMeals (dailyData nutritionMap mealsMap includeMeals dateStr) =
  dailyData nutritionMap ∅ false dateStr.
Proof. reflexivity. Qed.

(** With and without meals, and whatever the food-entries endpoint says,
    the aggregation returns the same records up to their [meals]. *)
Lemma fetchNutritionHistory_withoutMeals env' env username days includeMeals :
  sameButFoodEntries env' env ->
  match fetchNutritionHistory env' username days includeMeals,
        fetchNutritionHistory env username days false with
  | Ok history', Ok history => map withoutMeals history' = history
  | Throw e', Throw e => e' = e
  | _, _ => False
  end.
Proof.
  intros Hs. rewrite !fetchNutritionHistory_cases.
  rewrite (fetchDailyTotals_same env' env username days Hs), (historyDates_same env' env days Hs).
  destruct (fetchDailyTotals env username days) as [nutritionData|e]; [|reflexivity].
  destruct (historyDates env days) as [dates|e]; [|reflexivity].
  rewrite map_map. apply map_ext. intros d. apply withoutMeals_dailyData.
Qed.

Lemma filter_withoutMeals history :
  length (filter (fun day => gtb (calories (nutrients day)) (of_Z 0) = true)
                 (map withoutMeals history)) =
  length (filter (fun day => gtb (calories (nutrients day)) (of_Z 0) = true) history).
Proof.
  induction history as [|day history IH]; [reflexivity|].
  cbn [map]. rewrite !filter_cons. cbn [withoutMeals nutrients].
  destruct (decide (gtb (calories (nutrients day)) (of_Z 0) = true)); cbn [length]; now rewrite IH.
Qed.

Lemma indexHistory_withoutMeals history k :
  indexHistory (map withoutMeals history) !! k = withoutMeals <$> indexHistory history !! k.
Proof.
  unfold indexHistory.
  assert (G : forall m : gmap string DailyData,
             foldl (fun m day => <[date day := day]> m) (withoutMeals <$> m) (map withoutMeals history) =
             withoutMeals <$> foldl (fun m day => <[date day := day]> m) m history).
  { induction history as [|day history IH]; intros m; [reflexivity|].
    cbn [map foldl]. rewrite <- IH. f_equal.
    change (date (withoutMeals day)) with (date day). now rewrite fmap_insert. }
  specialize (G ∅). rewrite fmap_empty in G. now rewrite G, lookup_fmap.
Qed.

Lemma streakLoop_withoutMeals tz m m' len fuel currentDate j :
  (forall k, m' !! k = withoutMeals <$> m !! k) ->
  streakLoop tz m' len fuel currentDate j = streakLoop tz m len fuel currentDate j.
Proof.
  intros Hm. revert currentDate j. induction fuel as [|fuel IH]; intros currentDate j;
    [reflexivity|].
  cbn [streakLoop]. destruct currentDate as [t|]; cbn [toISODate]; [|reflexivity].
  rewrite Hm. destruct (m !! isoDay (Day t)) as [dayData|]; cbn [fmap option_fmap option_map];
    [|reflexivity].
  cbn [withoutMeals nutrients].
  destruct (eqb (calories (nutrients dayData)) (of_Z 0)); [reflexivity|].
  destruct (len <? S j)%nat; [reflexivity|].
  generalize (setDate tz t (getDate tz t - 1)). intros d. apply IH.
Qed.

Lemma calculateStreakAndTotalDays_withoutMeals env' env history :
  zone env' = zone env -> now env' = now env ->
  calculateStreakAndTotalDays env' history =
  calculateStreakAndTotalDays env (map withoutMeals history).
Proof.
  intros Hz Hn. unfold calculateStreakAndTotalDays. cbv zeta. unfold newDate.
  rewrite filter_withoutMeals, length_map, Hz, Hn.
  now rewrite (streakLoop_withoutMeals (zone env) (indexHistory history)
                 (indexHistory (map withoutMeals history)))
    by apply indexHistory_withoutMeals.
Qed.

Lemma fetchProfileData_cases env username :
  fetchProfileData env username =
  match getApiKey env username with
  | Throw e => Throw e
  | Ok apiKey =>
      match fetchJson (auth_profiles (upstream env) apiKey) FailedToFetchProfile with
      | Throw e => Throw e
      | Ok data =>
          match fetchGoals env username None with
          | Throw e => Throw e
          | Ok todayGoals =>
              match fetchNutritionHistory env username 90 true with
              | Throw e => Throw e
              | Ok nutritionHistory => Ok (data, todayGoals, nutritionHistory)
              end
          end
      end
  end.
Proof.
  unfold fetchProfileData.
  destruct (getApiKey env username) as [apiKey|e]; [rewrite bind_Ok|now rewrite bind_Throw].
  destruct (fetchJson _ _) as [data|e]; [rewrite bind_Ok|now rewrite bind_Throw].
  destruct (fetchGoals env username None) as [g|e]; [rewrite bind_Ok|now rewrite bind_Throw].
  destruct (fetchNutritionHistory env username 90 true) as [h|e];
    [now rewrite bind_Ok|now rewrite bind_Throw].
Qed.

(** X20: [fetchProfile] asks for the history with meals, which costs one
    food-entries call for each of the 90 days, yet nothing that it
    returns or raises depends on what that endpoint answers. *)
Theorem fetchProfile_ignores_food_entries env cfg username f :
  fetchProfile (withFoodEntries env f) cfg username = fetchProfile env cfg username.
Proof.
  pose proof (sameButFoodEntries_with env f) as Hs.
  unfold fetchProfile. rewrite !fetchProfileData_cases.
  rewrite (getApiKey_same _ _ username Hs).
  destruct (getApiKey env username) as [apiKey|e]; [|reflexivity].
  change (auth_profiles (upstream (withFoodEntries env f))) with (auth_profiles (upstream env)).
  destruct (fetchJson _ _) as [data|e]; [|reflexivity].
  rewrite (fetchGoals_same _ _ username None Hs).
  destruct (fetchGoals env username None) as [todayGoals|e]; [|reflexivity].
  pose proof (fetchNutritionHistory_withoutMeals _ env username 90 true Hs) as H1.
  pose proof (fetchNutritionHistory_withoutMeals env env username 90 true
                (sameButFoodEntries_refl env)) as H2.
  destruct (fetchNutritionHistory (withFoodEntries env f) username 90 true) as [h1|e1],
           (fetchNutritionHistory env username 90 true) as [h2|e2],
           (fetchNutritionHistory env username 90 false) as [h|e];
    try contradiction; try (subst; reflexivity).
  rewrite (calculateStreakAndTotalDays_withoutMeals (withFoodEntries env f) env h1)
    by reflexivity.
  rewrite (calculateStreakAndTotalDays_withoutMeals env env h2) by reflexivity.
  rewrite H1, H2. reflexivity.
Qed.

(** X21: the age is the number of whole years between the local calendar
    day of the birth instant and the local calendar day of the clock:
    the birthday of that many years has come, the next one has not. *)
Theorem ageOn_full_years tz today birth :
  exists n, ageOn tz today (Some birth) = Years n /\
    dateLe (addYears n (localDate tz birth)) (localDate tz today) /\
    ~ dateLe (addYears (n + 1) (localDate tz birth)) (localDate tz today).
Proof.
  unfold ageOn, localDate, addYears, dateLe. cbv zeta.
  generalize (getFullYear tz today) (getMonth tz today) (getDate tz today)
             (getFullYear tz birth) (getMonth tz birth) (getDate tz birth).
  intros y m d y' m' d'.
  destruct ((m - m' <? 0) || ((m - m' =? 0) && (d <? d'))) eqn:E; eexists; (split; [reflexivity|]); lia.
Qed.

Lemma Day_utc_midnight D offset :
  -msPerDay <= offset < msPerDay ->
  Day (D * msPerDay + offset) = if offset <? 0 then D - 1 else D.
Proof.
  unfold Day, msPerDay. intros H. destruct (Z.ltb_spec offset 0);
    Z.div_mod_to_equations; lia.
Qed.

(** X22: for a date of birth that parses to midnight UTC of day [D], as
    a date written without a time does, a host east of Greenwich (or on
    it) computes the age from day [D], and a host west of Greenwich from
    the day before: there the age goes up on the eve of the birthday. *)
Theorem ageOn_utc_midnight offset D today :
  -msPerDay <= offset < msPerDay ->
  ageOn (fixedZone offset) today (Some (D * msPerDay)) =
  ageOn (fixedZone 0) (today + offset)
        (Some ((if offset <? 0 then D - 1 else D) * msPerDay)).
Proof.
  intros H. unfold ageOn, getFullYear, getMonth, getDate, YearFromTime, MonthFromTime,
    DateFromTime, LocalTime, fixedZone. cbn [LocalTZA].
  rewrite (Day_utc_midnight D offset H).
  rewrite (Day_utc_midnight (if offset <? 0 then D - 1 else D) 0) by (unfold msPerDay; lia).
  rewrite Z.add_0_r. reflexivity.
Qed.

Lemma ageOn_utc_midnight_witness :
  ageOn (fixedZone (-18000000)) 1710199800000 (Some (days_from_civil 2000 3 12 * msPerDay)) =
  ageOn (fixedZone 0) (1710199800000 + -18000000)
        (Some ((days_from_civil 2000 3 12 - 1) * msPerDay)).
Proof. apply (ageOn_utc_midnight (-18000000)). unfold msPerDay. lia. Defined.

(** On 2024-03-11 at 18:30 in a zone five hours behind UTC, somebody born
    on 2000-03-12 is given the age 24, a day before the birthday. *)
Lemma age_on_the_eve_of_the_birthday :
  ageOn (fixedZone (-18000000)) 1710199800000 (Some (days_from_civil 2000 3 12 * msPerDay)) =
    Years 24 /\
  localISODate (fixedZone (-18000000)) 1710199800000 = "2024-03-11".
Proof. split; vm_compute; reflexivity. Qed.

(** ** Further properties: the streak against the tracked days *)

Lemma tracked_positive history key :
  (forall day, In day history -> leb (of_Z 0) (calories (nutrients day)) = true) ->
  tracked (indexHistory history) key = true ->
  key ∈ map date (filter (fun day => gtb (calories (nutrients day)) (of_Z 0) = true) history).
Proof.
  intros Hnonneg. unfold tracked. rewrite indexHistory_lookup.
  destruct (lastWithKey date key history) as [d|] eqn:E; [|discriminate].
  apply lastWithKey_Some in E. destruct E as [Hin Hk].
  intros Ht. apply negb_true_iff in Ht.
  apply list_elem_of_In, in_map_iff. exists d. split; [assumption|].
  apply list_elem_of_In, list_elem_of_filter. split; [|now apply list_elem_of_In].
  apply nonnegative_nonzero_positive; [now apply Hnonneg|assumption].
Qed.

(** X23: on a host whose offset from UTC does not change, and for a
    history without negative calories, the streak never exceeds
    [totalDays]: every day of the streak is a different date with a
    record that [totalDays] counts. *)
Theorem streak_at_most_totalDays env c history info :
  zone env = fixedZone c ->
  validTime (now env) ->
  validTime (now env - (Z.of_nat (length history) + 1) * msPerDay) ->
  (forall day, In day history -> leb (of_Z 0) (calories (nutrients day)) = true) ->
  calculateStreakAndTotalDays env history = Some (Ok info) ->
  (currentStreak info <= totalDays info)%nat.
Proof.
  intros Hz Hnow Hback Hnonneg.
  set (today := Day (now env)). set (nutritionMap := indexHistory history).
  assert (Hv : forall i, 0 <= i <= Z.of_nat (length history) + 1 ->
                 validTime (now env - i * msPerDay)).
  { intros i Hi.
    apply (validTime_between (now env - (Z.of_nat (length history) + 1) * msPerDay) (now env));
      try assumption.
    pose proof msPerDay_pos. nia. }
  destruct (streakLoop_fixed c nutritionMap (length history) (now env) (S (length history)) 0 Hv)
    as (k & Hloop & Hk & Ht & _); [lia|lia|intros i Hi; lia|].
  replace (now env - Z.of_nat 0 * msPerDay) with (now env) in Hloop by lia.
  fold today in Ht.
  unfold calculateStreakAndTotalDays, newDate. rewrite Hz. fold nutritionMap. rewrite Hloop.
  cbn [mbind option_bind result_bind]. intros [= <-]. cbn [currentStreak totalDays].
  destruct k as [|k]; [lia|].
  assert (Hnd : NoDup (map (fun i => isoDay (today - Z.of_nat i)) (seq 0 (S k)))).
  { apply NoDup_days_back.
    - now apply TimeClip_validDay.
    - unfold today. rewrite <- Day_back. apply TimeClip_validDay, Hv. lia. }
  apply (Nat.le_trans _ (length (map (fun i => isoDay (today - Z.of_nat i)) (seq 0 (S k)))));
    [now rewrite length_map, length_seq|].
  apply (Nat.le_trans _ (length (map date
           (filter (fun day => gtb (calories (nutrients day)) (of_Z 0) = true) history))));
    [|now rewrite length_map].
  apply submseteq_length, NoDup_submseteq; [exact Hnd|].
  intros key Hin. apply list_elem_of_In, in_map_iff in Hin. destruct Hin as (i & <- & Hi).
  apply in_seq in Hi. apply tracked_positive; [assumption|]. apply Ht. lia.
Qed.

Lemma streak_at_most_totalDays_witness :
  exists info,
    calculateStreakAndTotalDays utcHost fiveDayStreak = Some (Ok info) /\
    (currentStreak info <= totalDays info)%nat.
Proof.
  assert (H : exists info, calculateStreakAndTotalDays utcHost fiveDayStreak = Some (Ok info))
    by (vm_compute; eexists; reflexivity).
  destruct H as [info H]. exists info. split; [exact H|].
  apply (streak_at_most_totalDays utcHost 0 fiveDayStreak info).
  - reflexivity.
  - apply Z.leb_le. vm_compute. reflexivity.
  - apply Z.leb_le. vm_compute. reflexivity.
  - intros day Hin. repeat (destruct Hin as [<-|Hin]; [vm_compute; reflexivity|]). destruct Hin.
  - exact H.
Defined.
